(** * Deposit validation and ledger consistency

    A shallow embedding of the deposit controller (the second document of
    [src/app.js]): [createDeposit], [updateDeposit], [deleteDeposit] and
    [bulkCreateDeposits], over an explicit store holding the accounts, the
    deposits, the users and the append-only audit log.

    Amounts are integers ([Z]); the handlers only add, subtract and compare
    them.  Every handler is a function from the store before the request to
    the store after it, paired with what the caller gets back.

    The read handlers of the same controller ([getDeposits],
    [getDepositsByAccount], [getDepositsByDateRange] and
    [getEligibleAccountsForBulk]) are functions of the store, and the
    handlers of [controllers/authController.js] are functions on the user
    collection. *)

From stdpp Require Import gmap strings list fin_maps pretty.
From Stdlib Require Import ZArith Lia.

Local Open Scope Z_scope.

(** ** Local time

    The handlers build month and day windows from the broken-down local
    time of a [Date] ([getFullYear], [getMonth], [getDate]) and compare
    instants with [>=], [<] and [<=].  A [DateTime] is such a broken-down
    time: the month counted from year 0 ([12 * year + month]), the day of
    the month and the milliseconds elapsed in that day; instants compare
    lexicographically. *)
Module Clock.

Record DateTime := mkDateTime {
  dt_ym : Z;
  dt_day : positive;
  dt_ms : N
}.

Definition getFullYear (d : DateTime) : Z := dt_ym d / 12.
Definition getMonth (d : DateTime) : Z := dt_ym d mod 12.
Definition getDate (d : DateTime) : positive := dt_day d.

(** [new Date(y, m, day, h, mi, s, ms)], the time of day given in
    milliseconds; a month outside 0..11 carries into the year. *)
Definition make_date (y m : Z) (day : positive) (ms : N) : DateTime :=
  {| dt_ym := 12 * y + m; dt_day := day; dt_ms := ms |}.

(** [d.setMonth(m)] on a date whose day exists in every month. *)
Definition setMonth (d : DateTime) (m : Z) : DateTime :=
  {| dt_ym := 12 * getFullYear d + m; dt_day := dt_day d; dt_ms := dt_ms d |}.

Definition dt_ltb (a b : DateTime) : bool :=
  (dt_ym a <? dt_ym b)
  || ((dt_ym a =? dt_ym b)
      && ((dt_day a <? dt_day b)%positive
          || ((dt_day a =? dt_day b)%positive && (dt_ms a <? dt_ms b)%N))).

Definition dt_leb (a b : DateTime) : bool := negb (dt_ltb b a).

(** [new Date(d.getFullYear(), d.getMonth(), 1, 0, 0, 0, 0)] *)
Definition startOfMonth (d : DateTime) : DateTime :=
  make_date (getFullYear d) (getMonth d) 1 0.

(** [endOfMonth = new Date(startOfMonth); endOfMonth.setMonth(endOfMonth.getMonth() + 1)] *)
Definition endOfMonth (d : DateTime) : DateTime :=
  let s := startOfMonth d in setMonth s (getMonth s + 1).

(** [{ $gte: lo, $lt: hi }] *)
Definition in_range (lo hi x : DateTime) : bool := dt_leb lo x && dt_ltb x hi.

(** [{ $gte: lo, $lte: hi }] *)
Definition in_range_incl (lo hi x : DateTime) : bool := dt_leb lo x && dt_leb x hi.

Definition is_leap (y : Z) : bool :=
  (y mod 4 =? 0) && (negb (y mod 100 =? 0) || (y mod 400 =? 0)).

Definition days_in_month (y m : Z) : positive :=
  if m =? 1 then (if is_leap y then 29 else 28)%positive
  else if (m =? 3) || (m =? 5) || (m =? 8) || (m =? 10) then 30%positive
  else 31%positive.

(** 23:59:59.000 as milliseconds of the day *)
Definition end_of_day_ms : N := 86399000%N.

(** [new Date(y, m, d, 0, 0, 0)] and [new Date(y, m, d, 23, 59, 59)] *)
Definition startOfDay (d : DateTime) : DateTime :=
  make_date (getFullYear d) (getMonth d) (getDate d) 0.
Definition endOfDay (d : DateTime) : DateTime :=
  make_date (getFullYear d) (getMonth d) (getDate d) end_of_day_ms.

(** [new Date(y, m + 1, 0, 23, 59, 59)]: day 0 of the next month is the last
    day of this one. *)
Definition lastSecondOfMonth (d : DateTime) : DateTime :=
  make_date (getFullYear d) (getMonth d)
            (days_in_month (getFullYear d) (getMonth d)) end_of_day_ms.

End Clock.
Import Clock.

(** ** Data model *)

Inductive Role := Admin | Manager | Agent | RoleOther.
Inductive PaymentMode := Daily | Monthly | Yearly | ModeOther.
Inductive Status := Inactive | Active | Pending | OnTrack | Matured.

#[global] Instance Role_eq_dec : EqDecision Role.
Proof. solve_decision. Defined.
#[global] Instance PaymentMode_eq_dec : EqDecision PaymentMode.
Proof. solve_decision. Defined.
#[global] Instance Status_eq_dec : EqDecision Status.
Proof. solve_decision. Defined.

(** Identifiers ([_id], [accountId], [userId], ...) are compared through
    their string form only; they are numbered here. *)
Abbreviation Id := N (only parsing).

Record Account := mkAccount {
  a_userId : Id;
  a_accountNumber : string;
  a_schemeType : string;
  a_paymentMode : PaymentMode;
  a_totalPayableAmount : option Z;
  a_yearlyAmount : option Z;
  a_installmentAmount : option Z;
  a_monthlyTarget : option Z;
  a_balance : Z;
  a_status : Status;
  a_isFullyPaid : bool;
  a_maturityDate : DateTime
}.

Record Deposit := mkDeposit {
  d_id : Id;
  d_date : DateTime;
  d_accountId : Id;
  d_userId : Id;
  d_schemeType : string;
  d_amount : Z;
  d_collectedBy : Id
}.

(** A client as the handlers read it: its display name and the agent it is
    assigned to, when there is one. *)
Record User := mkUser {
  u_name : string;
  u_assignedTo : option Id
}.

Inductive Action :=
| CREATE_DEPOSIT | CREATE_DEPOSIT_FAILED
| UPDATE_DEPOSIT | UPDATE_DEPOSIT_FAILED
| DELETE_DEPOSIT_ATTEMPT | DELETE_DEPOSIT | DELETE_DEPOSIT_FAILED.

Inductive Reason :=
| ROLE_NOT_ALLOWED | INVALID_AMOUNT | ACCOUNT_NOT_FOUND | USER_ACCOUNT_MISMATCH
| AGENT_SCOPE_VIOLATION | MANAGER_SCOPE_VIOLATION | MISSING_TOTAL_PAYABLE
| TOTAL_PAYABLE_EXCEEDED | ACCOUNT_MATURED | YEARLY_ALREADY_PAID
| YEARLY_AMOUNT_MISMATCH | MISSING_INSTALLMENT_AMOUNT | MISSING_INSTALLMENT
| MONTHLY_AMOUNT_MISMATCH | MONTHLY_ALREADY_PAID | MONTHLY_MULTIPLE_DEPOSITS
| MISSING_MONTHLY_TARGET | DAILY_MONTHLY_TARGET_EXCEEDED | DEPOSIT_NOT_FOUND
| INVALID_DATE | CANNOT_DELETE_ONLY_YEARLY_DEPOSIT | DELETE_REQUEST.

Inductive EntityType := DepositAttempt | DepositEntity.

(** One document of the audit collection.  [ev_reason] is [details.reason];
    the other entries of [details] are copies of request and account values
    that no handler reads back. *)
Record AuditEvent := mkAuditEvent {
  ev_action : Action;
  ev_entityType : EntityType;
  ev_entityId : option Id;
  ev_reason : option Reason;
  ev_performedBy : Id
}.

Definition is_failed (a : Action) : bool :=
  match a with
  | CREATE_DEPOSIT_FAILED | UPDATE_DEPOSIT_FAILED | DELETE_DEPOSIT_FAILED => true
  | _ => false
  end.

(** The collections.  [deposits] lists the deposit documents in insertion
    order; [next_id] is the identifier the next inserted deposit receives. *)
Record Store := mkStore {
  accounts : gmap N Account;
  deposits : list Deposit;
  users : gmap N User;
  audit : list AuditEvent;
  next_id : Id
}.

Record Caller := mkCaller { c_id : Id; c_role : Role }.

(** What [getScope(req.user)] answers. *)
Record Scope := mkScope {
  sc_isAll : bool;
  sc_agents : list Id;
  sc_clients : list Id
}.

(** What a handler hands back: a response sent with [res.status(code).json],
    the handler's own error (status set, then [throw], then [next(err)]), or
    an exception the handler did not raise itself (no status, no audit). *)
Inductive Outcome :=
| Responded (code : Z) (message : string)
| RaisedError (code : Z) (message : string)
| Crashed (message : string).

(** *** Field updates *)

Definition set_status (s : Status) (a : Account) : Account :=
  mkAccount (a_userId a) (a_accountNumber a) (a_schemeType a) (a_paymentMode a)
            (a_totalPayableAmount a) (a_yearlyAmount a) (a_installmentAmount a)
            (a_monthlyTarget a) (a_balance a) s (a_isFullyPaid a) (a_maturityDate a).

Definition set_balance (b : Z) (a : Account) : Account :=
  mkAccount (a_userId a) (a_accountNumber a) (a_schemeType a) (a_paymentMode a)
            (a_totalPayableAmount a) (a_yearlyAmount a) (a_installmentAmount a)
            (a_monthlyTarget a) b (a_status a) (a_isFullyPaid a) (a_maturityDate a).

Definition set_isFullyPaid (f : bool) (a : Account) : Account :=
  mkAccount (a_userId a) (a_accountNumber a) (a_schemeType a) (a_paymentMode a)
            (a_totalPayableAmount a) (a_yearlyAmount a) (a_installmentAmount a)
            (a_monthlyTarget a) (a_balance a) (a_status a) f (a_maturityDate a).

(** [AuditLog.create(e)] *)
Definition audit_create (e : AuditEvent) (st : Store) : Store :=
  mkStore (accounts st) (deposits st) (users st) (audit st ++ [e]) (next_id st).

(** [account.save()] for the account stored under [aid] *)
Definition account_save (aid : Id) (a : Account) (st : Store) : Store :=
  mkStore (<[aid := a]> (accounts st)) (deposits st) (users st) (audit st) (next_id st).

(** [new Deposit({...}).save()]: the document receives the next identifier *)
Definition deposit_insert (d : Deposit) (st : Store) : Store :=
  mkStore (accounts st) (deposits st ++ [d]) (users st) (audit st) (N.succ (next_id st)).

(** [deposit.save()] on a loaded document: it replaces the stored one *)
Definition deposit_save (d : Deposit) (st : Store) : Store :=
  mkStore (accounts st)
          (map (fun x => if (d_id x =? d_id d)%N then d else x) (deposits st))
          (users st) (audit st) (next_id st).

(** [deposit.deleteOne()] *)
Definition deposit_delete (id : Id) (st : Store) : Store :=
  mkStore (accounts st)
          (List.filter (fun x => negb (d_id x =? id)%N) (deposits st))
          (users st) (audit st) (next_id st).

(** *** Queries on the deposit collection *)

Definition sum_amounts (ds : list Deposit) : Z :=
  foldr (fun d acc => d_amount d + acc) 0 ds.

(** [Deposit.aggregate([{ $match }, { $group: { _id: null, total: { $sum:
    "$amount" } } }])]: no group when nothing matches, one group otherwise. *)
Definition aggregate (p : Deposit -> bool) (ds : list Deposit) : list Z :=
  match List.filter p ds with
  | [] => []
  | m => [sum_amounts m]
  end.

(** [agg.length ? agg[0].total : 0] *)
Definition total_of (agg : list Z) : Z :=
  match agg with
  | [] => 0
  | t :: _ => t
  end.

Definition findOne (p : Deposit -> bool) (ds : list Deposit) : option Deposit :=
  List.find p ds.

Definition findById (id : Id) (ds : list Deposit) : option Deposit :=
  List.find (fun d => (d_id d =? id)%N) ds.

Definition countDocuments (p : Deposit -> bool) (ds : list Deposit) : nat :=
  length (List.filter p ds).

(** Query filters *)
Definition by_account (aid : Id) (d : Deposit) : bool := (d_accountId d =? aid)%N.
Definition not_id (id : Id) (d : Deposit) : bool := negb (d_id d =? id)%N.
Definition dated (lo hi : DateTime) (d : Deposit) : bool := in_range lo hi (d_date d).
Definition dated_incl (lo hi : DateTime) (d : Deposit) : bool :=
  in_range_incl lo hi (d_date d).

(** JavaScript truthiness of an optional number: [undefined], [null] and
    [0] are falsy. *)
Definition truthy (x : option Z) : bool :=
  match x with
  | Some v => negb (v =? 0)
  | None => false
  end.

(** [!x || x <= 0] *)
Definition missing_or_nonpositive (x : option Z) : bool :=
  match x with
  | Some v => v <=? 0
  | None => true
  end.


(** ** [createDeposit] *)

(** [req.body] of a create request.  The handler destructures [accountId],
    [userId] and [amount]; [cb_date] stands for a date the caller may send
    along. *)
Record CreateBody := mkCreateBody {
  cb_accountId : Id;
  cb_userId : Id;
  cb_amount : Z;
  cb_date : option DateTime
}.

Definition create_failed (u : Caller) (r : Reason) : AuditEvent :=
  mkAuditEvent CREATE_DEPOSIT_FAILED DepositAttempt None (Some r) (c_id u).

(** The recurring rejection: write the [_FAILED] event, set the status,
    throw. *)
Definition create_reject (u : Caller) (r : Reason) (code : Z) (msg : string)
    (st : Store) : Store * Outcome :=
  (audit_create (create_failed u r) st, RaisedError code msg).

(** Result of one guard of a handler. *)
Inductive Check :=
| Pass
| Deny (code : Z) (r : Reason) (msg : string)
| Fault (msg : string).

(** Scope check for an Agent: the client must be assigned to the caller.
    [client.assignedTo.toString()] on a client without an agent is a
    [TypeError]. *)
Definition agent_scope (u : Caller) (userId : Id) (st : Store) : Check :=
  if bool_decide (c_role u = Agent) then
    match users st !! userId with
    | None => Deny 403 AGENT_SCOPE_VIOLATION "You can only deposit for your own clients"
    | Some client =>
        match u_assignedTo client with
        | None => Fault "Cannot read properties of undefined (reading 'toString')"
        | Some ag =>
            if negb (ag =? c_id u)%N
            then Deny 403 AGENT_SCOPE_VIOLATION "You can only deposit for your own clients"
            else Pass
        end
    end
  else Pass.

(** Scope check for a Manager: the client must be in [scope.clients]. *)
Definition manager_scope (sc : Scope) (u : Caller) (userId : Id) : Check :=
  if bool_decide (c_role u = Manager) then
    if bool_decide (userId ∈ sc_clients sc) then Pass
    else Deny 403 MANAGER_SCOPE_VIOLATION
              "You can only deposit for clients under your agents"
  else Pass.

(** From [new Deposit] to the success response: insert the deposit, add
    the amount to the balance, re-read the collected total for the status,
    save the account, write the success event. *)
Definition create_commit (now : DateTime) (u : Caller) (b : CreateBody)
    (account : Account) (T : Z) (st : Store) : Store * Outcome :=
  let aid := cb_accountId b in
  let amount := cb_amount b in
  let deposit :=
    mkDeposit (next_id st) now aid (cb_userId b) (a_schemeType account) amount (c_id u) in
  let st1 := deposit_insert deposit st in
  let account1 := set_balance (a_balance account + amount) account in
  let account2 :=
    if (0 <? a_balance account1) && bool_decide (a_status account1 = Inactive)
    then set_status Active account1 else account1 in
  let afterCollected := total_of (aggregate (by_account aid) (deposits st1)) in
  let account3 :=
    if T <=? afterCollected then
      let a' := set_status OnTrack account2 in
      if bool_decide (a_paymentMode account = Yearly) then set_isFullyPaid true a' else a'
    else account2 in
  let st2 := account_save aid account3 st1 in
  (audit_create
     (mkAuditEvent CREATE_DEPOSIT DepositEntity (Some (d_id deposit)) None (c_id u)) st2,
   Responded 201 "Deposit created successfully").

(** From the overall payable check to the end of the handler. *)
Definition create_policy (now : DateTime) (u : Caller) (b : CreateBody)
    (account : Account) (T : Z) (st : Store) : Store * Outcome :=
  let aid := cb_accountId b in
  let amount := cb_amount b in
  let collectedAll := total_of (aggregate (by_account aid) (deposits st)) in
  if T <? collectedAll + amount then
    create_reject u TOTAL_PAYABLE_EXCEEDED 400
      ("Total payable exceeded: already " +:+ pretty collectedAll +:+
       ", trying to add " +:+ pretty amount +:+ ", total allowed " +:+ pretty T) st
  else if dt_leb (a_maturityDate account) now then
    create_reject u ACCOUNT_MATURED 400 "Account has matured, no more deposits allowed"
      (account_save aid (set_status Matured account) st)
  else
    match a_paymentMode account with
    | Yearly =>
        let required := default T (a_yearlyAmount account) in
        if a_isFullyPaid account then
          create_reject u YEARLY_ALREADY_PAID 400 "Yearly account already paid in full" st
        else if negb (amount =? required) then
          create_reject u YEARLY_AMOUNT_MISMATCH 400
            ("Yearly account requires a single payment of " +:+ pretty required) st
        else
          create_commit now u b (set_status OnTrack (set_isFullyPaid true account)) T st
    | Monthly =>
        if missing_or_nonpositive (a_installmentAmount account) then
          create_reject u MISSING_INSTALLMENT_AMOUNT 500
            "Account configuration invalid (missing installmentAmount)" st
        else
          let required := default 0 (a_installmentAmount account) in
          if negb (amount =? required) then
            create_reject u MONTHLY_AMOUNT_MISMATCH 400
              ("Monthly account requires fixed installment of " +:+ pretty required) st
          else
            match findOne (fun d => by_account aid d
                                    && dated (startOfMonth now) (endOfMonth now) d)
                          (deposits st) with
            | Some _ =>
                create_reject u MONTHLY_ALREADY_PAID 400
                  "This month's installment already paid" st
            | None => create_commit now u b account T st
            end
    | Daily =>
        if missing_or_nonpositive (a_monthlyTarget account) then
          create_reject u MISSING_MONTHLY_TARGET 500
            "Daily account must have a monthlyTarget set" st
        else
          let monthlyTarget := default 0 (a_monthlyTarget account) in
          let collected :=
            total_of (aggregate (fun d => by_account aid d
                                          && dated (startOfMonth now) (endOfMonth now) d)
                                (deposits st)) in
          if monthlyTarget <? collected + amount then
            create_reject u DAILY_MONTHLY_TARGET_EXCEEDED 400
              ("Daily account limit exceeded: monthly target is " +:+ pretty monthlyTarget +:+
               ", already collected " +:+ pretty collected) st
          else
            create_commit now u b
              (set_status (if monthlyTarget <=? collected + amount then OnTrack else Pending)
                          account) T st
    | ModeOther => create_commit now u b account T st
    end.

(** The handler.  [now] is the server clock at the request (the handler's
    readings of it are taken as one instant) and [sc] is what [getScope]
    answers for the caller. *)
Definition createDeposit (now : DateTime) (sc : Scope) (u : Caller) (b : CreateBody)
    (st : Store) : Store * Outcome :=
  if negb (bool_decide (c_role u ∈ [Admin; Manager; Agent])) then
    create_reject u ROLE_NOT_ALLOWED 403
      "Only Admin, Manager, or Agents can create deposits" st
  else if cb_amount b <=? 0 then
    create_reject u INVALID_AMOUNT 400 "Amount must be greater than 0" st
  else
    match accounts st !! cb_accountId b with
    | None => create_reject u ACCOUNT_NOT_FOUND 404 "Account not found" st
    | Some account =>
        if negb (a_userId account =? cb_userId b)%N then
          create_reject u USER_ACCOUNT_MISMATCH 400 "User does not match account" st
        else
          match agent_scope u (cb_userId b) st with
          | Deny code r msg => create_reject u r code msg st
          | Fault msg => (st, Crashed msg)
          | Pass =>
              match manager_scope sc u (cb_userId b) with
              | Deny code r msg => create_reject u r code msg st
              | Fault msg => (st, Crashed msg)
              | Pass =>
                  match a_totalPayableAmount account with
                  | None =>
                      create_reject u MISSING_TOTAL_PAYABLE 500
                        "Account configuration invalid (missing totalPayableAmount)" st
                  | Some T => create_policy now u b account T st
                  end
              end
          end
    end.

(** ** [updateDeposit] *)

(** [req.body] of an update.  [ub_amount] is absent ([undefined]) or a
    number.  [ub_date] is [None] for no (or a falsy) date, [Some None] for
    a value [new Date] cannot parse, [Some (Some d)] for a parsed date. *)
Record UpdateBody := mkUpdateBody {
  ub_amount : option Z;
  ub_date : option (option DateTime)
}.

Definition update_failed (u : Caller) (r : Reason) : AuditEvent :=
  mkAuditEvent UPDATE_DEPOSIT_FAILED DepositAttempt None (Some r) (c_id u).

Definition update_reject (u : Caller) (r : Reason) (code : Z) (msg : string)
    (st : Store) : Store * Outcome :=
  (audit_create (update_failed u r) st, RaisedError code msg).

(** The deposit store asked for a window whose bounds are an invalid date.
    The handler does not decide what follows; it is taken as an exception
    of the store, which the handler forwards without an audit event. *)
Definition invalid_date_query (st : Store) : Store * Outcome :=
  (st, Crashed "Cast to date failed").

(** The date and the amount a deposit carries after an update: the parsed
    date when the body has one and the amount when the body has one, the
    deposit's own otherwise. *)
Definition effective_date (b : UpdateBody) (deposit : Deposit) : DateTime :=
  match ub_date b with
  | Some (Some p) => p
  | _ => d_date deposit
  end.

Definition effective_amount (b : UpdateBody) (deposit : Deposit) : Z :=
  default (d_amount deposit) (ub_amount b).

(** The document after the writes: amount and date applied, the scheme type
    re-synced from the account. *)
Definition updated_deposit (b : UpdateBody) (deposit : Deposit) (a : Account) : Deposit :=
  mkDeposit (d_id deposit) (effective_date b deposit) (d_accountId deposit)
            (d_userId deposit) (a_schemeType a) (effective_amount b deposit)
            (d_collectedBy deposit).

(** From [deposit.save()] to the response: the balance is recomputed from
    the deposit collection, the status from the total and, for Daily, from
    the month of the server clock. *)
Definition update_reconcile (now : DateTime) (u : Caller) (deposit' : Deposit)
    (account : Account) (T : Z) (st : Store) : Store * Outcome :=
  let aid := d_accountId deposit' in
  let st1 := deposit_save deposit' st in
  let afterCollected := total_of (aggregate (by_account aid) (deposits st1)) in
  let account1 := set_balance afterCollected account in
  let account2 :=
    if T <=? afterCollected then
      let a' := set_status OnTrack account1 in
      if bool_decide (a_paymentMode account = Yearly) then set_isFullyPaid true a' else a'
    else
      let a' :=
        if bool_decide (a_paymentMode account = Daily) then
          let monthCollected :=
            total_of (aggregate
              (fun d => by_account aid d
                        && dated (make_date (getFullYear now) (getMonth now) 1 0)
                                 (make_date (getFullYear now) (getMonth now + 1) 1 0) d)
              (deposits st1)) in
          set_status (if default 0 (a_monthlyTarget account) <=? monthCollected
                      then OnTrack else Pending) account1
        else
          set_status (if bool_decide (a_status account1 = Inactive)
                      then Inactive else Active) account1 in
      if bool_decide (a_paymentMode account = Yearly) then set_isFullyPaid false a' else a' in
  let st2 := account_save aid account2 st1 in
  (audit_create
     (mkAuditEvent UPDATE_DEPOSIT DepositEntity (Some (d_id deposit')) None (c_id u)) st2,
   Responded 200 "Deposit updated successfully").

(** From the writes to the response; a date that does not parse is
    rejected here, after every policy check. *)
Definition update_commit (now : DateTime) (u : Caller) (b : UpdateBody)
    (deposit : Deposit) (account : Account) (T : Z) (st : Store) : Store * Outcome :=
  match ub_date b with
  | Some None => update_reject u INVALID_DATE 400 "Invalid date format" st
  | _ => update_reconcile now u (updated_deposit b deposit account) account T st
  end.

(** From the overall payable check to the end of the handler. *)
Definition update_policy (now : DateTime) (u : Caller) (b : UpdateBody)
    (deposit : Deposit) (account : Account) (T : Z) (st : Store) : Store * Outcome :=
  let aid := d_accountId deposit in
  let collectedAll := total_of (aggregate (by_account aid) (deposits st)) in
  let collectedExcludingThis := collectedAll - d_amount deposit in
  let newAmount := default (d_amount deposit) (ub_amount b) in
  if T <? collectedExcludingThis + newAmount then
    update_reject u TOTAL_PAYABLE_EXCEEDED 400
      ("Total payable exceeded: already " +:+ pretty collectedExcludingThis +:+
       ", trying to set this deposit to " +:+ pretty newAmount +:+
       ", total allowed " +:+ pretty T) st
  else
    let depositDate :=
      match ub_date b with Some parsed => parsed | None => Some (d_date deposit) end in
    match a_paymentMode account with
    | Yearly =>
        let required := default T (a_yearlyAmount account) in
        if negb (newAmount =? required) then
          update_reject u YEARLY_AMOUNT_MISMATCH 400
            ("Yearly account deposit must equal " +:+ pretty required) st
        else update_commit now u b deposit account T st
    | Monthly =>
        if missing_or_nonpositive (a_installmentAmount account) then
          update_reject u MISSING_INSTALLMENT 500
            "Account misconfigured: missing installmentAmount" st
        else
          let required := default 0 (a_installmentAmount account) in
          if negb (newAmount =? required) then
            update_reject u MONTHLY_AMOUNT_MISMATCH 400
              ("Monthly account deposit must equal installmentAmount (" +:+
               pretty required +:+ ")") st
          else
            match depositDate with
            | None => invalid_date_query st
            | Some dd =>
                let depositsThisMonth :=
                  List.filter (fun d => by_account aid d
                                        && dated (startOfMonth dd) (endOfMonth dd) d
                                        && not_id (d_id deposit) d)
                              (deposits st) in
                if (0 <? length depositsThisMonth)%nat then
                  update_reject u MONTHLY_MULTIPLE_DEPOSITS 400
                    "Monthly account can only have one deposit per month" st
                else update_commit now u b deposit account T st
            end
    | Daily =>
        if missing_or_nonpositive (a_monthlyTarget account) then
          update_reject u MISSING_MONTHLY_TARGET 500
            "Daily account misconfigured: missing monthlyTarget" st
        else
          let monthlyTarget := default 0 (a_monthlyTarget account) in
          match depositDate with
          | None => invalid_date_query st
          | Some dd =>
              let collectedThisMonthExcl :=
                total_of (aggregate
                  (fun d => by_account aid d
                            && dated (startOfMonth dd) (endOfMonth dd) d
                            && not_id (d_id deposit) d)
                  (deposits st)) in
              let adjustedMonthTotal := collectedThisMonthExcl + newAmount in
              if monthlyTarget <? adjustedMonthTotal then
                update_reject u DAILY_MONTHLY_TARGET_EXCEEDED 400
                  ("Daily account limit exceeded: monthly target is " +:+
                   pretty monthlyTarget +:+ ", would become " +:+
                   pretty adjustedMonthTotal) st
              else update_commit now u b deposit account T st
          end
    | ModeOther => update_commit now u b deposit account T st
    end.

Definition updateDeposit (now : DateTime) (u : Caller) (id : Id) (b : UpdateBody)
    (st : Store) : Store * Outcome :=
  if negb (bool_decide (c_role u = Admin)) then
    update_reject u ROLE_NOT_ALLOWED 403 "Only Admin can update deposits" st
  else
    match findById id (deposits st) with
    | None => update_reject u DEPOSIT_NOT_FOUND 404 "Deposit not found" st
    | Some deposit =>
        match accounts st !! d_accountId deposit with
        | None => update_reject u ACCOUNT_NOT_FOUND 404 "Associated account not found" st
        | Some account =>
            if match ub_amount b with Some amount => amount <=? 0 | None => false end then
              update_reject u INVALID_AMOUNT 400 "Amount must be a positive number" st
            else
              match a_totalPayableAmount account with
              | None =>
                  update_reject u MISSING_TOTAL_PAYABLE 500
                    "Account misconfigured: missing totalPayableAmount" st
              | Some T => update_policy now u b deposit account T st
              end
        end
    end.

(** ** [deleteDeposit] *)

Definition delete_failed (u : Caller) (r : Reason) : AuditEvent :=
  mkAuditEvent DELETE_DEPOSIT_FAILED DepositAttempt None (Some r) (c_id u).

Definition delete_reject (u : Caller) (r : Reason) (code : Z) (msg : string)
    (st : Store) : Store * Outcome :=
  (audit_create (delete_failed u r) st, RaisedError code msg).

(** [a || b || 0] on optional numbers *)
Definition first_truthy (a b : option Z) : Z :=
  if truthy a then default 0 a else if truthy b then default 0 b else 0.

(** [a ?? b ?? null] *)
Definition first_defined (a b : option Z) : option Z :=
  match a with
  | Some _ => a
  | None => b
  end.

(** From the recomputation of the balance to the response. *)
Definition delete_commit (u : Caller) (deposit : Deposit) (account : Account)
    (st : Store) : Store * Outcome :=
  let aid := d_accountId deposit in
  let others := fun d => by_account aid d && not_id (d_id deposit) d in
  let updatedCollected := total_of (aggregate others (deposits st)) in
  let account1 := set_balance (Z.max 0 updatedCollected) account in
  let totalPayable :=
    first_defined (a_totalPayableAmount account) (a_yearlyAmount account) in
  let account2 :=
    if match totalPayable with Some tp => tp <=? updatedCollected | None => false end then
      let a' := set_status OnTrack account1 in
      if bool_decide (a_paymentMode account = Yearly) then set_isFullyPaid true a' else a'
    else
      let window := fun d =>
        dated (startOfMonth (d_date deposit)) (endOfMonth (d_date deposit)) d in
      let a' :=
        match a_paymentMode account with
        | Monthly =>
            let otherThisMonth :=
              countDocuments (fun d => others d && window d) (deposits st) in
            set_status (if (0 <? otherThisMonth)%nat then Active else Pending) account1
        | Daily =>
            let collectedThisMonth :=
              total_of (aggregate (fun d => others d && window d) (deposits st)) in
            set_status
              (if truthy (a_monthlyTarget account)
                  && (default 0 (a_monthlyTarget account) <=? collectedThisMonth)
               then OnTrack else Pending) account1
        | _ =>
            set_status (if 0 <? a_balance account1 then Active else Inactive) account1
        end in
      if bool_decide (a_paymentMode account = Yearly) then set_isFullyPaid false a' else a' in
  let st1 :=
    audit_create
      (mkAuditEvent DELETE_DEPOSIT_ATTEMPT DepositEntity (Some (d_id deposit))
                    (Some DELETE_REQUEST) (c_id u)) st in
  let st2 := deposit_delete (d_id deposit) st1 in
  let st3 := account_save aid account2 st2 in
  (audit_create
     (mkAuditEvent DELETE_DEPOSIT DepositEntity (Some (d_id deposit)) None (c_id u)) st3,
   Responded 200 "Deposit deleted successfully and account balance adjusted").

Definition deleteDeposit (u : Caller) (id : Id) (st : Store) : Store * Outcome :=
  if negb (bool_decide (c_role u = Admin)) then
    delete_reject u ROLE_NOT_ALLOWED 403 "Only Admin can delete deposits" st
  else
    match findById id (deposits st) with
    | None => delete_reject u DEPOSIT_NOT_FOUND 404 "Deposit not found" st
    | Some deposit =>
        match accounts st !! d_accountId deposit with
        | None => delete_reject u ACCOUNT_NOT_FOUND 404 "Associated account not found" st
        | Some account =>
            let aid := d_accountId deposit in
            let collectedAll := total_of (aggregate (by_account aid) (deposits st)) in
            let newCollected := collectedAll - d_amount deposit in
            if bool_decide (a_paymentMode account = Yearly) then
              let depositCount := countDocuments (by_account aid) (deposits st) in
              if (depositCount =? 1)%nat then
                delete_reject u CANNOT_DELETE_ONLY_YEARLY_DEPOSIT 400
                  "Cannot delete the only yearly deposit — account would become invalid" st
              else
                let account1 :=
                  if a_isFullyPaid account
                     && (newCollected <?
                         first_truthy (a_totalPayableAmount account) (a_yearlyAmount account))
                  then set_isFullyPaid false account else account in
                delete_commit u deposit account1 st
            else delete_commit u deposit account st
        end
    end.

(** ** [bulkCreateDeposits] *)

(** One element of [req.body.deposits].  The handler destructures
    [accountId], [amount] and [collectedBy]; [bi_date] stands for a date the
    caller may send along. *)
Record BulkItem := mkBulkItem {
  bi_accountId : Id;
  bi_amount : Z;
  bi_collectedBy : Id;
  bi_date : option DateTime
}.

Record SuccessRecord := mkSuccessRecord {
  sr_accountId : Id;
  sr_accountNumber : string;
  sr_clientName : option string;
  sr_amount : Z
}.

Record FailureRecord := mkFailureRecord {
  fr_accountId : Id;
  fr_accountNumber : option string;
  fr_clientName : option string;
  fr_amount : Z;
  fr_error : string
}.

(** The loop state: the store and the three accumulators [success],
    [failed] and [failureSummary]. *)
Record BulkAcc := mkBulkAcc {
  bk_store : Store;
  bk_success : list SuccessRecord;
  bk_failed : list FailureRecord;
  bk_summary : gmap string nat
}.

(** [failureSummary[msg] = (failureSummary[msg] || 0) + 1] *)
Definition tally (msg : string) (summary : gmap string nat) : gmap string nat :=
  <[msg := S (default 0%nat (summary !! msg))]> summary.

(** [failed.push(r)] followed by the tally of [r]'s message *)
Definition push_failed (st : Store) (r : FailureRecord) (acc : BulkAcc) : BulkAcc :=
  mkBulkAcc st (bk_success acc) (bk_failed acc ++ [r])
            (tally (fr_error r) (bk_summary acc)).

Definition push_success (st : Store) (r : SuccessRecord) (acc : BulkAcc) : BulkAcc :=
  mkBulkAcc st (bk_success acc ++ [r]) (bk_failed acc) (bk_summary acc).

(** [msg || "Unknown error"] *)
Definition or_unknown (msg : string) : string :=
  if bool_decide (msg = "") then "Unknown error" else msg.

(** The duplicate pre-check of the batch: today for Daily, this month for
    Monthly, ever for Yearly. *)
Definition alreadyDeposited (now : DateTime) (aid : Id) (account : Account)
    (ds : list Deposit) : option Deposit :=
  match a_paymentMode account with
  | Daily =>
      findOne (fun d => by_account aid d
                        && dated_incl (startOfDay now) (endOfDay now) d) ds
  | Monthly =>
      findOne (fun d => by_account aid d
                        && dated_incl (make_date (getFullYear now) (getMonth now) 1 0)
                                      (lastSecondOfMonth now) d) ds
  | Yearly => findOne (by_account aid) ds
  | ModeOther => None
  end.

Definition duplicate_message (m : PaymentMode) : string :=
  match m with
  | Daily => "Today’s deposit already recorded"
  | Monthly => "This month’s deposit already recorded"
  | _ => "Yearly account already paid in full"
  end.

(** The body of the inner loop for one item [d]. *)
Definition bulk_item (now : DateTime) (sc : Scope) (u : Caller) (d : BulkItem)
    (acc : BulkAcc) : BulkAcc :=
  let st := bk_store acc in
  let accountId := bi_accountId d in
  let amount := bi_amount d in
  if negb (bi_collectedBy d =? c_id u)%N then
    push_failed st (mkFailureRecord accountId None None amount "COLLECTED_BY_MISMATCH") acc
  else
    match accounts st !! accountId with
    | None =>
        push_failed st (mkFailureRecord accountId None None amount "ACCOUNT_NOT_FOUND") acc
    | Some account =>
        match users st !! a_userId account with
        | None =>
            (* [populate] left [userId] null: [account.userId._id] throws and
               the item's [catch] records the failure *)
            push_failed st
              (mkFailureRecord accountId (Some (a_accountNumber account)) None amount
                 (or_unknown "Cannot read properties of null (reading '_id')")) acc
        | Some client =>
            let userId := a_userId account in
            let described := fun msg =>
              mkFailureRecord accountId (Some (a_accountNumber account))
                              (Some (u_name client)) amount msg in
            match alreadyDeposited now accountId account (deposits st) with
            | Some _ =>
                push_failed st (described (duplicate_message (a_paymentMode account))) acc
            | None =>
                let '(st', out) :=
                  createDeposit now sc u (mkCreateBody accountId userId amount None) st in
                match out with
                | Responded code message =>
                    if code =? 201 then
                      push_success st'
                        (mkSuccessRecord accountId (a_accountNumber account)
                                         (Some (u_name client)) amount) acc
                    else push_failed st' (described (or_unknown message)) acc
                | RaisedError _ message => push_failed st' (described (or_unknown message)) acc
                | Crashed message => push_failed st' (described (or_unknown message)) acc
                end
            end
        end
    end.

(** [for (const d of chunk) { ... }] *)
Definition bulk_chunk (now : DateTime) (sc : Scope) (u : Caller)
    (chunk : list BulkItem) (acc : BulkAcc) : BulkAcc :=
  foldl (fun a d => bulk_item now sc u d a) acc chunk.

(** [for (let i = 0; i < deposits.length; i += 10)] with
    [chunk = deposits.slice(i, i + 10)]; [fuel] bounds the number of rounds. *)
Fixpoint bulk_rounds (fuel : nat) (now : DateTime) (sc : Scope) (u : Caller)
    (items : list BulkItem) (i : nat) (acc : BulkAcc) : BulkAcc :=
  match fuel with
  | O => acc
  | S fuel' =>
      if (i <? length items)%nat then
        let chunk := take 10 (drop i items) in
        bulk_rounds fuel' now sc u items (i + 10) (bulk_chunk now sc u chunk acc)
      else acc
  end.

Record BulkReport := mkBulkReport {
  total : nat;
  successCount : nat;
  failedCount : nat;
  failedAccounts : list FailureRecord;
  successAccounts : list SuccessRecord;
  failureSummary : gmap string nat
}.

Inductive BulkOutcome :=
| BulkRefused (code : Z) (message : string)
| BulkDone (report : BulkReport).

(** The handler.  One round handles at least one item, so [length items]
    rounds are enough to leave the outer loop.  [now] stands for every
    reading of the clock while the batch runs. *)
Definition bulkCreateDeposits (now : DateTime) (sc : Scope) (u : Caller)
    (items : list BulkItem) (st : Store) : Store * BulkOutcome :=
  if (length items =? 0)%nat then (st, BulkRefused 400 "Deposits array required")
  else if negb (bool_decide (c_role u = Agent)) then
    (st, BulkRefused 403 "Only Agents can perform bulk deposits")
  else
    let acc := bulk_rounds (length items) now sc u items 0 (mkBulkAcc st [] [] ∅) in
    (bk_store acc,
     BulkDone (mkBulkReport (length items) (length (bk_success acc))
                            (length (bk_failed acc)) (bk_failed acc)
                            (bk_success acc) (bk_summary acc))).

(** * The read handlers *)

(** [req.user] as the read handlers look at it.  They name the role "User",
    which the write handlers treat like every role they do not name:
    [rd_isUser] is [req.user.role === "User"], and is looked at for a caller
    whose role is none of Admin, Manager and Agent. *)
Record Reader := mkReader {
  rd_caller : Caller;
  rd_isUser : bool
}.

(** What a read handler hands back: [res.json(body)], an error response
    sent with [res.status(code).json({ error })], the handler's own error
    (status set, then [throw], then [next(err)]), or an exception of the
    query. *)
Inductive Reply (A : Type) :=
| Sent (body : A)
| Declined (code : Z) (message : string)
| Thrown (code : Z) (message : string)
| Broke (message : string).
Arguments Sent {A} body.
Arguments Declined {A} code message.
Arguments Thrown {A} code message.
Arguments Broke {A} message.

(** The condition the handlers add to [filter] for the caller: none,
    [{ $in: scope.agents }], [req.user._id] as agent, or [req.user._id] as
    owner. *)
Inductive Restriction :=
| Unrestricted
| AmongAgents (agents : list Id)
| OfAgent (agent : Id)
| OfOwner (owner : Id).

(** [if (!scope.isAll) { if (role === "Manager") ... else if (role ===
    "Agent") ... else if (role === "User") ... }] *)
Definition restriction (sc : Scope) (r : Reader) : Restriction :=
  if sc_isAll sc then Unrestricted
  else
    match c_role (rd_caller r) with
    | Manager => AmongAgents (sc_agents sc)
    | Agent => OfAgent (c_id (rd_caller r))
    | Admin => Unrestricted
    | RoleOther => if rd_isUser r then OfOwner (c_id (rd_caller r)) else Unrestricted
    end.

(** On deposits the condition is on [collectedBy], for an owner on
    [userId]. *)
Definition deposit_allowed (res : Restriction) (d : Deposit) : bool :=
  match res with
  | Unrestricted => true
  | AmongAgents agents => bool_decide (d_collectedBy d ∈ agents)
  | OfAgent agent => (d_collectedBy d =? agent)%N
  | OfOwner owner => (d_userId d =? owner)%N
  end.


(** ** [getDeposits] *)

(** [req.query]: [q_date] is the [date] parameter; [q_startDate] and
    [q_endDate] are [None] for an absent or empty parameter, [Some None]
    for one that [new Date] cannot parse, [Some (Some d)] for a parsed one. *)
Record DepositsQuery := mkDepositsQuery {
  q_date : option string;
  q_startDate : option (option DateTime);
  q_endDate : option (option DateTime)
}.

(** [new Date(today.setHours(23, 59, 59, 999))] *)
Definition endOfToday (now : DateTime) : DateTime :=
  make_date (getFullYear now) (getMonth now) (getDate now) 86399999.

(** The [date] condition of the filter. *)
Inductive DateFilter :=
| AnyDate
| Within (lo hi : DateTime)
| InvalidDate.

Definition query_dates (now : DateTime) (q : DepositsQuery) : DateFilter :=
  if bool_decide (q_date q = Some "today") then Within (startOfDay now) (endOfToday now)
  else
    match q_startDate q, q_endDate q with
    | Some s, Some e =>
        match s, e with
        | Some lo, Some hi => Within lo hi
        | _, _ => InvalidDate
        end
    | _, _ => AnyDate
    end.

Definition date_allowed (f : DateFilter) (d : Deposit) : bool :=
  match f with
  | Within lo hi => dated_incl lo hi d
  | _ => true
  end.

(** One element of [formattedDeposits].  The timestamps [createdAt] and
    [updatedAt], which Mongoose keeps and the store does not carry, are
    left out. *)
Record FormattedDeposit := mkFormattedDeposit {
  fd_id : Id;
  fd_date : DateTime;
  fd_clientName : option string;
  fd_accountNumber : option string;
  fd_schemeType : string;
  fd_amount : Z;
  fd_collectedBy : Id;
  fd_userId : Id
}.

(** [s || null] *)
Definition or_null (s : string) : option string :=
  if bool_decide (s = EmptyString) then None else Some s.

(** The flattening of one document, its [accountId] populated from the
    accounts; [clientName] gives the field of this name of an account, which
    the account record does not carry. *)
Definition format_deposit (clientName : Id -> option string) (st : Store) (d : Deposit) :
    FormattedDeposit :=
  let account := accounts st !! d_accountId d in
  mkFormattedDeposit
    (d_id d) (d_date d)
    (match account with Some _ => clientName (d_accountId d) | None => None end)
    (match account with Some a => or_null (a_accountNumber a) | None => None end)
    (match account with
     | Some a => if bool_decide (a_schemeType a = EmptyString) then d_schemeType d
                 else a_schemeType a
     | None => d_schemeType d
     end)
    (d_amount d) (d_collectedBy d) (d_userId d).

Definition getDeposits (now : DateTime) (sc : Scope) (r : Reader) (q : DepositsQuery)
    (clientName : Id -> option string) (st : Store) : Reply (list FormattedDeposit) :=
  let res := restriction sc r in
  match query_dates now q with
  | InvalidDate => Broke "Cast to date failed"
  | dates =>
      let found :=
        List.filter (fun d => deposit_allowed res d && date_allowed dates d) (deposits st) in
      Sent (map (format_deposit clientName st) found)
  end.

(** ** [getDepositsByAccount]

    The body lists the documents found; [populate] replaces their
    [accountId] and [collectedBy] by sub-documents and does not change which
    documents are listed. *)
Definition getDepositsByAccount (sc : Scope) (r : Reader) (accountId : Id) (st : Store) :
    Reply (list Deposit) :=
  let res := restriction sc r in
  match List.filter (fun d => by_account accountId d && deposit_allowed res d)
                    (deposits st) with
  | [] => Declined 404 "No deposits found for this account"
  | found => Sent found
  end.

(** ** [getDepositsByDateRange]

    [from] and [to] are [None] when absent or empty, [Some None] when [new
    Date] cannot parse them.  The body is [{ count, deposits }]. *)
Definition getDepositsByDateRange (sc : Scope) (r : Reader)
    (from to : option (option DateTime)) (st : Store) : Reply (nat * list Deposit) :=
  match from, to with
  | Some f, Some t =>
      match f, t with
      | Some lo, Some hi =>
          let res := restriction sc r in
          let found :=
            List.filter (fun d => dated_incl lo hi d && deposit_allowed res d)
                        (deposits st) in
          Sent (length found, found)
      | _, _ => Thrown 400 "Invalid date format. Use YYYY-MM-DD"
      end
  | _, _ => Thrown 400 "Both 'from' and 'to' dates are required (YYYY-MM-DD)"
  end.

(** ** [getEligibleAccountsForBulk] *)



(** * The authentication controller

    The handlers of [authController.js] over the user collection.  Two
    things come from outside: bcrypt, whose [hash] draws a salt and whose
    [compare] checks a text against a hash, and the random draws of the
    one-time passwords and tokens, which the handlers receive here as
    arguments, as they receive the reading of the clock (milliseconds).
    The body fields of a request are strings. *)

(** The fields of the password reset, and of the change of email.  An
    unset field ([undefined]) is [None]. *)
Record ResetFields := mkResetFields {
  rf_otp : option string;
  rf_otpExpires : option N;
  rf_token : option string;
  rf_tokenExpires : option N
}.

Record EmailFields := mkEmailFields {
  ef_otp : option string;
  ef_otpExpires : option N;
  ef_pending : option string;
  ef_token : option string;
  ef_tokenExpires : option N
}.

(** A user document as the controller reads and writes it. *)
Record AuthUser := mkAuthUser {
  au_id : Id;
  au_name : string;
  au_email : string;
  au_password : string;
  au_role : string;
  au_companyId : option Id;
  au_createdAt : N;
  au_isBlocked : bool;
  au_reset : ResetFields;
  au_change : EmailFields
}.

(** A message handed to [sendEmail]: the recipient, the subject and the
    one-time password its text carries. *)
Record Mail := mkMail {
  m_to : string;
  m_subject : string;
  m_otp : string
}.

(** The user collection, in the order [findOne] goes through it, and the
    messages sent. *)
Record Directory := mkDirectory {
  members : list AuthUser;
  outbox : list Mail
}.

(** [User.findOne({ email })] and [User.findById(id)] *)
Definition find_email (email : string) (l : list AuthUser) : option AuthUser :=
  List.find (fun x => bool_decide (au_email x = email)) l.

Definition find_user (id : Id) (l : list AuthUser) : option AuthUser :=
  List.find (fun x => (au_id x =? id)%N) l.

(** [user.save()] *)
Definition user_save (user : AuthUser) (st : Directory) : Directory :=
  mkDirectory (map (fun x => if (au_id x =? au_id user)%N then user else x) (members st))
              (outbox st).

Definition send_mail (m : Mail) (st : Directory) : Directory :=
  mkDirectory (members st) (outbox st ++ [m]).

(** [!s] is false for a field holding a non-empty string *)
Definition present (s : option string) : bool :=
  match s with
  | Some x => negb (bool_decide (x = EmptyString))
  | None => false
  end.

(** [!d] is false for a date field that is set *)
Definition is_set (d : option N) : bool :=
  match d with
  | Some _ => true
  | None => false
  end.

(** [d < Date.now()] on a date field that is set *)
Definition expired (d : option N) (now : N) : bool :=
  match d with
  | Some t => (t <? now)%N
  | None => false
  end.

Definition with_password (p : string) (u : AuthUser) : AuthUser :=
  mkAuthUser (au_id u) (au_name u) (au_email u) p (au_role u) (au_companyId u)
             (au_createdAt u) (au_isBlocked u) (au_reset u) (au_change u).

Definition with_email (e : string) (u : AuthUser) : AuthUser :=
  mkAuthUser (au_id u) (au_name u) e (au_password u) (au_role u) (au_companyId u)
             (au_createdAt u) (au_isBlocked u) (au_reset u) (au_change u).

Definition with_reset (r : ResetFields) (u : AuthUser) : AuthUser :=
  mkAuthUser (au_id u) (au_name u) (au_email u) (au_password u) (au_role u) (au_companyId u)
             (au_createdAt u) (au_isBlocked u) r (au_change u).

Definition with_change (c : EmailFields) (u : AuthUser) : AuthUser :=
  mkAuthUser (au_id u) (au_name u) (au_email u) (au_password u) (au_role u) (au_companyId u)
             (au_createdAt u) (au_isBlocked u) (au_reset u) c.

(** The payload [genToken] signs, with the times [jwt.sign] adds for
    [expiresIn: "4h"] (seconds). *)
Record Token := mkToken {
  tk_id : Id;
  tk_companyId : option Id;
  tk_role : string;
  tk_issuedAt : N;
  tk_expiresAt : N
}.

Definition genToken (now : N) (user : AuthUser) : Token :=
  mkToken (au_id user) (au_companyId user) (au_role user)
          (now / 1000)%N (now / 1000 + 4 * 3600)%N.

(** The body of a successful login. *)
Record Session := mkSession {
  s_token : Token;
  s_id : Id;
  s_name : string;
  s_email : string;
  s_role : string;
  s_companyId : option Id;
  s_createdAt : N
}.

(** [Math.floor(100000 + Math.random() * 900000).toString()], for the
    draw [n = Math.floor(Math.random() * 900000)] *)
Definition otp_text (n : N) : string := pretty (100000 + n)%N.

Section AuthController.

(** [bcrypt.hash(text, 10)] with the salt it draws, and [bcrypt.compare]. *)
Variable hash : string -> N -> string.
Variable compare : string -> string -> bool.

(** POST /api/auth/login *)
Definition login (email password : string) (now : N) (st : Directory) : Reply Session :=
  match find_email email (members st) with
  | None => Declined 401 "Invalid credentials"
  | Some user =>
      if au_isBlocked user then
        Declined 403 "Your account has been blocked. Please contact support."
      else if negb (compare password (au_password user)) then
        Declined 401 "Invalid credentials"
      else
        Sent (mkSession (genToken now user) (au_id user) (au_name user) (au_email user)
                        (au_role user) (au_companyId user) (au_createdAt user))
  end.

(** [forgotPassword]; the mail is handed over without waiting for it. *)
Definition forgotPassword (email : string) (n salt now : N) (st : Directory) :
    Directory * Reply string :=
  match find_email email (members st) with
  | None => (st, Thrown 404 "User not found")
  | Some user =>
      let otp := otp_text n in
      let user' :=
        with_reset (mkResetFields (Some (hash otp salt)) (Some (now + 10 * 60 * 1000)%N)
                                  (rf_token (au_reset user))
                                  (rf_tokenExpires (au_reset user))) user in
      (send_mail (mkMail email "PAMS - Secure Password Reset OTP" otp) (user_save user' st),
       Sent "OTP sent to email")
  end.

(** [verifyOtp]; [token] is the text drawn for the reset token.  The body
    of the answer is the message and the token. *)
Definition verifyOtp (email otp token : string) (now : N) (st : Directory) :
    Directory * Reply (string * string) :=
  match find_email email (members st) with
  | None => (st, Thrown 400 "Invalid or expired OTP")
  | Some user =>
      let r := au_reset user in
      if negb (present (rf_otp r)) || negb (is_set (rf_otpExpires r)) then
        (st, Thrown 400 "Invalid or expired OTP")
      else if expired (rf_otpExpires r) now then (st, Thrown 400 "OTP expired")
      else if negb (compare otp (default EmptyString (rf_otp r))) then
        (st, Thrown 400 "Invalid OTP")
      else
        let user' :=
          with_reset (mkResetFields None None (Some token)
                                    (Some (now + 15 * 60 * 1000)%N)) user in
        (user_save user' st, Sent ("OTP verified successfully", token))
  end.

(** [resetPassword].  [user.resetToken] is read for the log before the
    guard [!user]: an unknown email is a [TypeError]. *)
Definition resetPassword (email newPassword resetToken : string) (salt now : N)
    (st : Directory) : Directory * Reply string :=
  match find_email email (members st) with
  | None => (st, Broke "Cannot read properties of null (reading 'resetToken')")
  | Some user =>
      let r := au_reset user in
      if negb (present (rf_token r)) || negb (is_set (rf_tokenExpires r)) then
        (st, Thrown 400 "Invalid reset request")
      else if expired (rf_tokenExpires r) now then (st, Thrown 400 "Reset token expired")
      else if negb (bool_decide (rf_token r = Some resetToken)) then
        (st, Thrown 400 "Invalid reset token")
      else
        let user' :=
          with_reset (mkResetFields (rf_otp r) (rf_otpExpires r) None None)
                     (with_password (hash newPassword salt) user) in
        (user_save user' st, Sent "Password reset successful")
  end.

(** [changePassword] of the authenticated user [userId] *)
Definition changePassword (userId : Id) (currentPassword newPassword : string) (salt : N)
    (st : Directory) : Directory * Reply string :=
  match find_user userId (members st) with
  | None => (st, Thrown 404 "User not found")
  | Some user =>
      if negb (compare currentPassword (au_password user)) then
        (st, Thrown 400 "Current password is incorrect")
      else
        (user_save (with_password (hash newPassword salt) user) st,
         Sent "Password changed successfully")
  end.

(** [requestEmailChange]; the handler waits for the mail: [failure] is
    [None] when [sendEmail] fulfils and the message of its error when it
    rejects, which is passed on after the user was saved. *)
Definition requestEmailChange (userId : Id) (newEmail : string) (n salt now : N)
    (failure : option string) (st : Directory) : Directory * Reply string :=
  match find_email newEmail (members st) with
  | Some _ => (st, Thrown 400 "This email is already registered with another account")
  | None =>
      match find_user userId (members st) with
      | None => (st, Thrown 404 "User not found")
      | Some user =>
          let otp := otp_text n in
          let c := au_change user in
          let user' :=
            with_change (mkEmailFields (Some (hash otp salt)) (Some (now + 10 * 60 * 1000)%N)
                                       (Some newEmail) (ef_token c) (ef_tokenExpires c))
                        user in
          let st' := user_save user' st in
          match failure with
          | None =>
              (send_mail (mkMail newEmail "PAMS - Verify your new email address" otp) st',
               Sent "OTP sent to new email")
          | Some message => (st', Broke message)
          end
      end
  end.

(** [verifyEmailOtp]; [token] is the text drawn for the verification
    token. *)
Definition verifyEmailOtp (userId : Id) (otp token : string) (now : N) (st : Directory) :
    Directory * Reply (string * string) :=
  match find_user userId (members st) with
  | None => (st, Thrown 400 "Invalid or expired verification request")
  | Some user =>
      let c := au_change user in
      if negb (present (ef_otp c)) || negb (is_set (ef_otpExpires c))
         || negb (present (ef_pending c)) then
        (st, Thrown 400 "Invalid or expired verification request")
      else if expired (ef_otpExpires c) now then (st, Thrown 400 "OTP expired")
      else if negb (compare otp (default EmptyString (ef_otp c))) then
        (st, Thrown 400 "Invalid OTP")
      else
        let user' :=
          with_change (mkEmailFields None None (ef_pending c) (Some token)
                                     (Some (now + 15 * 60 * 1000)%N)) user in
        (user_save user' st, Sent ("OTP verified successfully", token))
  end.

(** [updateEmail]; the body of the answer is the message and the new
    email. *)
Definition updateEmail (userId : Id) (emailVerifyToken : string) (now : N)
    (st : Directory) : Directory * Reply (string * string) :=
  match find_user userId (members st) with
  | None => (st, Thrown 400 "Invalid request or verification not completed")
  | Some user =>
      let c := au_change user in
      if negb (present (ef_token c)) || negb (is_set (ef_tokenExpires c))
         || negb (present (ef_pending c)) then
        (st, Thrown 400 "Invalid request or verification not completed")
      else if expired (ef_tokenExpires c) now then
        (st, Thrown 400 "Verification token expired")
      else if negb (bool_decide (ef_token c = Some emailVerifyToken)) then
        (st, Thrown 400 "Invalid verification token")
      else
        let email := default EmptyString (ef_pending c) in
        let user' :=
          with_change (mkEmailFields (ef_otp c) (ef_otpExpires c) None None None)
                      (with_email email user) in
        (user_save user' st, Sent ("Email updated successfully", email))
  end.

(** The requests that can write, each with what it carries. *)
Inductive AuthOp :=
| ForgotPassword (email : string) (n salt now : N)
| VerifyOtp (email otp token : string) (now : N)
| ResetPassword (email newPassword resetToken : string) (salt now : N)
| ChangePassword (userId : Id) (currentPassword newPassword : string) (salt : N)
| RequestEmailChange (userId : Id) (newEmail : string) (n salt now : N)
                     (failure : option string)
| VerifyEmailOtp (userId : Id) (otp token : string) (now : N)
| UpdateEmail (userId : Id) (emailVerifyToken : string) (now : N).

(** Whether a reply is [res.json] of a success. *)
Definition is_sent {A : Type} (r : Reply A) : bool :=
  match r with
  | Sent _ => true
  | _ => false
  end.

(** The directory a request leaves and whether it was answered with a
    success. *)
Definition auth_step (op : AuthOp) (st : Directory) : Directory * bool :=
  match op with
  | ForgotPassword email n salt now =>
      let r := forgotPassword email n salt now st in (fst r, is_sent (snd r))
  | VerifyOtp email otp token now =>
      let r := verifyOtp email otp token now st in (fst r, is_sent (snd r))
  | ResetPassword email newPassword resetToken salt now =>
      let r := resetPassword email newPassword resetToken salt now st in
      (fst r, is_sent (snd r))
  | ChangePassword userId currentPassword newPassword salt =>
      let r := changePassword userId currentPassword newPassword salt st in
      (fst r, is_sent (snd r))
  | RequestEmailChange userId newEmail n salt now failure =>
      let r := requestEmailChange userId newEmail n salt now failure st in
      (fst r, is_sent (snd r))
  | VerifyEmailOtp userId otp token now =>
      let r := verifyEmailOtp userId otp token now st in (fst r, is_sent (snd r))
  | UpdateEmail userId emailVerifyToken now =>
      let r := updateEmail userId emailVerifyToken now st in (fst r, is_sent (snd r))
  end.

Definition auth_run (ops : list AuthOp) (st : Directory) : Directory :=
  foldl (fun s op => fst (auth_step op s)) st ops.

End AuthController.

(** * Vocabulary of the properties *)

(** Deposits carry pairwise distinct identifiers, all below [next_id]. *)
Definition ids_fresh (st : Store) : Prop :=
  NoDup (map d_id (deposits st))
  /\ Forall (fun d => (d_id d < next_id st)%N) (deposits st).

(** The collected total of an account, as every handler computes it. *)
Definition collected (aid : Id) (st : Store) : Z :=
  sum_amounts (List.filter (by_account aid) (deposits st)).

(** The deposits of an account dated in the calendar month of [t]. *)
Definition in_month_of (t : DateTime) (aid : Id) (d : Deposit) : bool :=
  by_account aid d && dated (startOfMonth t) (endOfMonth t) d.

(** [createDeposit] ends in one of four ways: a rejection that only writes
    the [_FAILED] event; the maturity rejection, which also saves the account
    as Matured; a crash that writes nothing; or the commit, reached with a
    positive amount that fits under the payable total, on the loaded account
    up to its status and paid flag. *)
Inductive create_result (now : DateTime) (u : Caller) (b : CreateBody) (st : Store) :
    Store * Outcome -> Prop :=
| cr_rejected r code msg :
    r <> ACCOUNT_MATURED ->
    create_result now u b st (audit_create (create_failed u r) st, RaisedError code msg)
| cr_matured a T msg :
    accounts st !! cb_accountId b = Some a ->
    a_totalPayableAmount a = Some T ->
    collected (cb_accountId b) st + cb_amount b <= T ->
    dt_leb (a_maturityDate a) now = true ->
    create_result now u b st
      (audit_create (create_failed u ACCOUNT_MATURED)
                    (account_save (cb_accountId b) (set_status Matured a) st),
       RaisedError 400 msg)
| cr_crashed msg :
    create_result now u b st (st, Crashed msg)
| cr_committed a s f T :
    accounts st !! cb_accountId b = Some a ->
    a_totalPayableAmount a = Some T ->
    0 < cb_amount b ->
    collected (cb_accountId b) st + cb_amount b <= T ->
    dt_leb (a_maturityDate a) now = false ->
    (a_paymentMode a = Monthly ->
     List.filter (in_month_of now (cb_accountId b)) (deposits st) = []) ->
    create_result now u b st
      (create_commit now u b (set_status s (set_isFullyPaid f a)) T st).

(** [updateDeposit] ends in a rejection that only writes the [_FAILED]
    event, in a crash that writes nothing, or in the commit. *)
Inductive update_result (now : DateTime) (u : Caller) (id : Id) (b : UpdateBody)
    (st : Store) : Store * Outcome -> Prop :=
| ur_rejected r code msg :
    update_result now u id b st (audit_create (update_failed u r) st, RaisedError code msg)
| ur_crashed msg :
    update_result now u id b st (st, Crashed msg)
| ur_committed deposit a T :
    findById id (deposits st) = Some deposit ->
    accounts st !! d_accountId deposit = Some a ->
    a_totalPayableAmount a = Some T ->
    (forall amount, ub_amount b = Some amount -> 0 < amount) ->
    collected (d_accountId deposit) st - d_amount deposit + effective_amount b deposit <= T ->
    ub_date b <> Some None ->
    (a_paymentMode a = Monthly ->
     List.filter (fun d => in_month_of (effective_date b deposit) (d_accountId deposit) d
                           && not_id (d_id deposit) d) (deposits st) = []) ->
    update_result now u id b st (update_commit now u b deposit a T st).

(** [deleteDeposit] ends in a rejection that only writes the [_FAILED]
    event, or in the commit on the loaded account up to its paid flag. *)
Inductive delete_result (u : Caller) (id : Id) (st : Store) : Store * Outcome -> Prop :=
| dr_rejected r code msg :
    delete_result u id st (audit_create (delete_failed u r) st, RaisedError code msg)
| dr_committed deposit a f :
    findById id (deposits st) = Some deposit ->
    accounts st !! d_accountId deposit = Some a ->
    delete_result u id st (delete_commit u deposit (set_isFullyPaid f a) st).

(** The document a create inserts. *)
Definition new_deposit (now : DateTime) (u : Caller) (b : CreateBody) (a : Account)
    (st : Store) : Deposit :=
  mkDeposit (next_id st) now (cb_accountId b) (cb_userId b) (a_schemeType a)
            (cb_amount b) (c_id u).

(** The collection after [d'] is saved over the document with its identifier. *)
Definition replace_deposit (d' : Deposit) (ds : list Deposit) : list Deposit :=
  map (fun x => if (d_id x =? d_id d')%N then d' else x) ds.

(** Every stored deposit has a positive amount. *)
Definition amounts_positive (st : Store) : Prop :=
  Forall (fun d => 0 < d_amount d) (deposits st).

(** Every account's stored balance is the sum of its deposits and does not
    exceed its payable total. *)
Definition reconciled (st : Store) : Prop :=
  forall aid a, accounts st !! aid = Some a ->
    a_balance a = collected aid st
    /\ forall T, a_totalPayableAmount a = Some T -> a_balance a <= T.

(** The ledger invariant. *)
Definition ledger_consistent (st : Store) : Prop :=
  ids_fresh st /\ amounts_positive st /\ reconciled st.

(** The core operations, each with what its request carries. *)
Inductive Op :=
| OpCreate (now : DateTime) (sc : Scope) (u : Caller) (b : CreateBody)
| OpUpdate (now : DateTime) (u : Caller) (id : Id) (b : UpdateBody)
| OpDelete (u : Caller) (id : Id).

Definition step (op : Op) (st : Store) : Store * Outcome :=
  match op with
  | OpCreate now sc u b => createDeposit now sc u b st
  | OpUpdate now u id b => updateDeposit now u id b st
  | OpDelete u id => deleteDeposit u id st
  end.

(** The store after a sequence of operations, each run on the store the
    previous one left. *)
Definition run (ops : list Op) (st : Store) : Store :=
  foldl (fun s op => fst (step op s)) st ops.

(** The scope checks let the caller act on the client. *)
Definition scope_admits (sc : Scope) (u : Caller) (userId : Id) (st : Store) : Prop :=
  (c_role u = Agent ->
   exists client, users st !! userId = Some client /\ u_assignedTo client = Some (c_id u))
  /\ (c_role u = Manager -> userId ∈ sc_clients sc).

(** A create request that passes the role check, the amount validation,
    the account lookup, the owner check, the scope checks and the
    configuration check, on account [a] with payable total [T]. *)
Definition reaches_create_policy (sc : Scope) (u : Caller) (b : CreateBody) (st : Store)
    (a : Account) (T : Z) : Prop :=
  c_role u ∈ [Admin; Manager; Agent]
  /\ 0 < cb_amount b
  /\ accounts st !! cb_accountId b = Some a
  /\ a_userId a = cb_userId b
  /\ scope_admits sc u (cb_userId b) st
  /\ a_totalPayableAmount a = Some T.

(** An update request that passes the role check, the two lookups, the
    amount validation and the configuration check. *)
Definition reaches_update_policy (u : Caller) (id : Id) (b : UpdateBody) (st : Store)
    (deposit : Deposit) (a : Account) (T : Z) : Prop :=
  c_role u = Admin
  /\ findById id (deposits st) = Some deposit
  /\ accounts st !! d_accountId deposit = Some a
  /\ (forall amount, ub_amount b = Some amount -> 0 < amount)
  /\ a_totalPayableAmount a = Some T.

(** The handler threw its own error after writing exactly one audit event,
    tagged [act] with reason [r], and wrote no deposit. *)
Definition rejected_with (act : Action) (r : Reason) (st : Store)
    (res : Store * Outcome) : Prop :=
  exists code msg ev,
    snd res = RaisedError code msg
    /\ audit (fst res) = audit st ++ [ev]
    /\ ev_action ev = act
    /\ ev_reason ev = Some r
    /\ deposits (fst res) = deposits st.



(** Sum of the deposits of an account dated in the calendar month of [t]. *)
Definition month_sum (t : DateTime) (aid : Id) (st : Store) : Z :=
  sum_amounts (List.filter (in_month_of t aid) (deposits st)).

(** The same sum without the deposit [id]. *)
Definition month_sum_without (t : DateTime) (aid id : Id) (st : Store) : Z :=
  sum_amounts (List.filter (fun d => in_month_of t aid d && not_id id d) (deposits st)).

(** Every Monthly account has at most one deposit dated in any calendar
    month. *)
Definition monthly_exclusive (st : Store) : Prop :=
  forall aid a, accounts st !! aid = Some a -> a_paymentMode a = Monthly ->
    forall t, (countDocuments (in_month_of t aid) (deposits st) <= 1)%nat.

(** One item of a batch, seen from the audit log: either nothing is logged
    and the item is recorded as failed, or exactly one event is logged, a
    [_FAILED] one with a reason for an item recorded as failed and
    CREATE_DEPOSIT for an item recorded as a success. *)
Definition item_logged (acc acc' : BulkAcc) : Prop :=
  (audit (bk_store acc') = audit (bk_store acc)
   /\ length (bk_failed acc') = S (length (bk_failed acc))
   /\ bk_success acc' = bk_success acc)
  \/ (exists ev,
        audit (bk_store acc') = audit (bk_store acc) ++ [ev]
        /\ ((is_failed (ev_action ev) = true /\ is_Some (ev_reason ev)
             /\ length (bk_failed acc') = S (length (bk_failed acc))
             /\ bk_success acc' = bk_success acc)
            \/ (ev_action ev = CREATE_DEPOSIT
                /\ length (bk_success acc') = S (length (bk_success acc))
                /\ bk_failed acc' = bk_failed acc))).

(** The same request, or item, sent with another date. *)
Definition with_date (dt : option DateTime) (b : CreateBody) : CreateBody :=
  mkCreateBody (cb_accountId b) (cb_userId b) (cb_amount b) dt.

Definition item_with_date (dt : option DateTime) (d : BulkItem) : BulkItem :=
  mkBulkItem (bi_accountId d) (bi_amount d) (bi_collectedBy d) dt.

(** The mode-specific checks of an update, for a deposit that keeps its
    amount and its date. *)
Definition update_policy_holds (st : Store) (deposit : Deposit) (a : Account) (T : Z) : Prop :=
  match a_paymentMode a with
  | Yearly => d_amount deposit = default T (a_yearlyAmount a)
  | Monthly =>
      exists installment,
        a_installmentAmount a = Some installment /\ 0 < installment
        /\ d_amount deposit = installment
        /\ countDocuments
             (fun d => in_month_of (d_date deposit) (d_accountId deposit) d
                       && not_id (d_id deposit) d) (deposits st) = 0%nat
  | Daily =>
      exists M,
        a_monthlyTarget a = Some M /\ 0 < M
        /\ month_sum_without (d_date deposit) (d_accountId deposit) (d_id deposit) st
           + d_amount deposit <= M
  | ModeOther => True
  end.

(** The deposit with its scheme type taken from the account. *)
Definition resynced (deposit : Deposit) (a : Account) : Deposit :=
  mkDeposit (d_id deposit) (d_date deposit) (d_accountId deposit) (d_userId deposit)
            (a_schemeType a) (d_amount deposit) (d_collectedBy deposit).




(** ** Vocabulary of the further properties *)

(** The mode-specific checks of a create, as passed by a request that
    succeeds. *)
Definition create_mode_admits (now : DateTime) (b : CreateBody) (a : Account) (T : Z)
    (st : Store) : Prop :=
  match a_paymentMode a with
  | Yearly => a_isFullyPaid a = false /\ cb_amount b = default T (a_yearlyAmount a)
  | Monthly =>
      exists installment,
        a_installmentAmount a = Some installment /\ 0 < installment
        /\ cb_amount b = installment
        /\ List.filter (in_month_of now (cb_accountId b)) (deposits st) = []
  | Daily =>
      exists M,
        a_monthlyTarget a = Some M /\ 0 < M
        /\ month_sum now (cb_accountId b) st + cb_amount b <= M
  | ModeOther => True
  end.

(** The in-memory account when the commit of a create starts. *)
Definition create_prepared (now : DateTime) (b : CreateBody) (a : Account) (st : Store) :
    Account :=
  match a_paymentMode a with
  | Yearly => set_status OnTrack (set_isFullyPaid true a)
  | Daily =>
      set_status (if default 0 (a_monthlyTarget a)
                     <=? month_sum now (cb_accountId b) st + cb_amount b
                  then OnTrack else Pending) a
  | _ => a
  end.

(** The mode-specific checks of an update, as passed by a request that
    succeeds. *)
Definition update_mode_admits (b : UpdateBody) (deposit : Deposit) (a : Account) (T : Z)
    (st : Store) : Prop :=
  match a_paymentMode a with
  | Yearly => effective_amount b deposit = default T (a_yearlyAmount a)
  | Monthly =>
      exists installment,
        a_installmentAmount a = Some installment /\ 0 < installment
        /\ effective_amount b deposit = installment
        /\ List.filter (fun d => in_month_of (effective_date b deposit) (d_accountId deposit) d
                                 && not_id (d_id deposit) d) (deposits st) = []
  | Daily =>
      exists M,
        a_monthlyTarget a = Some M /\ 0 < M
        /\ month_sum_without (effective_date b deposit) (d_accountId deposit)
                             (d_id deposit) st
           + effective_amount b deposit <= M
  | ModeOther => True
  end.

(** The in-memory account when the commit of a delete starts. *)
Definition delete_prepared (deposit : Deposit) (a : Account) (st : Store) : Account :=
  if bool_decide (a_paymentMode a = Yearly)
     && a_isFullyPaid a
     && (collected (d_accountId deposit) st - d_amount deposit
         <? first_truthy (a_totalPayableAmount a) (a_yearlyAmount a))
  then set_isFullyPaid false a else a.

(** Two versions of an account with the same owner, number, scheme, payment
    mode, payable total, plan parameters and maturity date: they differ at
    most in balance, status and paid flag. *)
Definition same_plan (a a' : Account) : Prop :=
  a_userId a' = a_userId a
  /\ a_accountNumber a' = a_accountNumber a
  /\ a_schemeType a' = a_schemeType a
  /\ a_paymentMode a' = a_paymentMode a
  /\ a_totalPayableAmount a' = a_totalPayableAmount a
  /\ a_yearlyAmount a' = a_yearlyAmount a
  /\ a_installmentAmount a' = a_installmentAmount a
  /\ a_monthlyTarget a' = a_monthlyTarget a
  /\ a_maturityDate a' = a_maturityDate a.

(** The account collections of two stores hold the same accounts, each
    with the same plan. *)
Definition plans_kept (st st' : Store) : Prop :=
  forall aid,
    match accounts st !! aid, accounts st' !! aid with
    | Some a, Some a' => same_plan a a'
    | None, None => True
    | _, _ => False
    end.

(** The four ways an operation leaves the deposit collection: untouched,
    one deposit appended by a create that passed every check, one deposit
    saved by an update that passed every check, one deposit removed. *)
Inductive deposits_effect (op : Op) (st : Store) : list Deposit -> Prop :=
| de_none : deposits_effect op st (deposits st)
| de_created now sc u b a T :
    op = OpCreate now sc u b ->
    accounts st !! cb_accountId b = Some a ->
    a_totalPayableAmount a = Some T ->
    0 < cb_amount b ->
    collected (cb_accountId b) st + cb_amount b <= T ->
    create_mode_admits now b a T st ->
    deposits_effect op st
      (deposits st ++ [new_deposit now u b (create_prepared now b a st) st])
| de_updated now u id b deposit a T :
    op = OpUpdate now u id b ->
    deposit ∈ deposits st ->
    d_id deposit = id ->
    accounts st !! d_accountId deposit = Some a ->
    a_totalPayableAmount a = Some T ->
    (forall amount, ub_amount b = Some amount -> 0 < amount) ->
    collected (d_accountId deposit) st - d_amount deposit + effective_amount b deposit <= T ->
    update_mode_admits b deposit a T st ->
    deposits_effect op st (replace_deposit (updated_deposit b deposit a) (deposits st))
| de_deleted u id deposit a :
    op = OpDelete u id ->
    deposit ∈ deposits st ->
    d_id deposit = id ->
    accounts st !! d_accountId deposit = Some a ->
    deposits_effect op st
      (List.filter (fun x => negb (d_id x =? d_id deposit)%N) (deposits st)).

(** The amount a deposit of the account must have: the installment on a
    Monthly account, the yearly amount (or, without one, the payable total)
    on a Yearly account. *)
Definition plan_amount (a : Account) (v : Z) : Prop :=
  match a_paymentMode a with
  | Monthly => a_installmentAmount a = Some v
  | Yearly => forall T, a_totalPayableAmount a = Some T -> v = default T (a_yearlyAmount a)
  | _ => True
  end.

(** Every deposit of an existing account has the amount of its plan. *)
Definition amounts_follow_plan (st : Store) : Prop :=
  Forall (fun d => forall a, accounts st !! d_accountId d = Some a ->
                             plan_amount a (d_amount d)) (deposits st).

(** Every Daily account with a monthly target has, in each calendar month,
    deposits that sum to at most the target. *)
Definition daily_capped (st : Store) : Prop :=
  forall aid a M, accounts st !! aid = Some a -> a_paymentMode a = Daily ->
    a_monthlyTarget a = Some M ->
    forall t, month_sum t aid st <= M.





(** The account and the amount of a stored deposit, and of a success
    record. *)
Definition deposit_entry (d : Deposit) : Id * Z := (d_accountId d, d_amount d).
Definition success_entry (r : SuccessRecord) : Id * Z := (sr_accountId r, sr_amount r).

(** The identifiers of the documents a reply lists; none when the reply
    carries no list. *)
Definition listed {A : Type} (ids : A -> list Id) (rep : Reply A) : list Id :=
  match rep with
  | Sent body => ids body
  | _ => []
  end.

(** A condition on deposits that looks at the account, the client and the
    collector only. *)
Definition by_keys (p : Deposit -> bool) : Prop :=
  forall d d', d_accountId d' = d_accountId d -> d_userId d' = d_userId d ->
               d_collectedBy d' = d_collectedBy d -> p d' = p d.

(** What identifies a user and what only an administrator sets: the
    identifier, the name, the role, the company, the creation time and the
    blocked flag. *)
Definition identity (u : AuthUser) : Id * string * string * option Id * N * bool :=
  (au_id u, au_name u, au_role u, au_companyId u, au_createdAt u, au_isBlocked u).

(** What the round trips ask of bcrypt: a text matches its own hash, and a
    hash is not the empty string. *)
Definition bcrypt_sound (hash : string -> N -> string)
    (compare : string -> string -> bool) : Prop :=
  (forall text salt, compare text (hash text salt) = true)
  /\ (forall text salt, hash text salt <> EmptyString).

(** * Sample data

    Accounts, callers and stores on which the properties are instantiated. *)

Module Sample.

Definition jan : DateTime := mkDateTime (12 * 2024 + 0) 15 36000000.
Definition feb : DateTime := mkDateTime (12 * 2024 + 1) 10 36000000.
Definition mar : DateTime := mkDateTime (12 * 2024 + 2) 5 36000000.
Definition matures : DateTime := mkDateTime (12 * 2030) 1 0.
Definition matured_since : DateTime := mkDateTime (12 * 2020) 1 0.

Definition acc_monthly : Account :=
  mkAccount 7 "ACC-1" "RD" Monthly (Some 1200) None (Some 100) None 0 Inactive false matures.
Definition acc_daily : Account :=
  mkAccount 7 "ACC-2" "DD" Daily (Some 1000) None None (Some 300) 0 Inactive false matures.
Definition acc_yearly : Account :=
  mkAccount 7 "ACC-3" "FD" Yearly (Some 5000) None None None 0 Inactive false matures.
Definition acc_old : Account :=
  mkAccount 7 "ACC-4" "RD" Monthly (Some 1200) None (Some 100) None 0 Inactive false
            matured_since.

Definition admin : Caller := mkCaller 100 Admin.
Definition agent : Caller := mkCaller 9 Agent.
Definition no_scope : Scope := mkScope false [] [].

(** Four accounts of client 7, who is assigned to agent 9; no deposit yet. *)
Definition opened : Store :=
  mkStore (<[1%N := acc_monthly]> (<[2%N := acc_daily]> (<[3%N := acc_yearly]>
             (<[4%N := acc_old]> ∅))))
          [] (<[7%N := mkUser "Client" (Some 9%N)]> ∅) [] 1.

Definition pay (aid : Id) (amount : Z) : CreateBody := mkCreateBody aid 7 amount None.

(** The Monthly account after its January installment. *)
Definition monthly_paid : Store := fst (createDeposit jan no_scope admin (pay 1 100) opened).
Definition january_installment : Deposit := mkDeposit 1 jan 1 7 "RD" 100 100.
Definition acc_monthly_active : Account :=
  mkAccount 7 "ACC-1" "RD" Monthly (Some 1200) None (Some 100) None 100 Active false matures.

(** The Yearly account after its single payment. *)
Definition yearly_paid : Store := fst (createDeposit jan no_scope admin (pay 3 5000) opened).
Definition yearly_payment : Deposit := mkDeposit 1 jan 3 7 "FD" 5000 100.
Definition acc_yearly_paid : Account :=
  mkAccount 7 "ACC-3" "FD" Yearly (Some 5000) None None None 5000 OnTrack true matures.

(** The Daily account after 300 in each of January, February and March. *)
Definition daily_three_months : Store :=
  run [OpCreate jan no_scope admin (pay 2 300);
       OpCreate feb no_scope admin (pay 2 300);
       OpCreate mar no_scope admin (pay 2 300)] opened.


(** A batch of three: wrong collector, then twice the Monthly account. *)
Definition batch : list BulkItem :=
  [mkBulkItem 1 100 8 None; mkBulkItem 1 100 9 None; mkBulkItem 1 100 9 (Some feb)].

End Sample.

(** A directory of two users, and a stand-in for bcrypt. *)
Module AuthSample.

(** A stand-in for bcrypt that keeps the text readable. *)
Definition plain_hash (text : string) (salt : N) : string := "h:" +:+ text.
Definition plain_compare (text hashed : string) : bool :=
  bool_decide (hashed = "h:" +:+ text).

Definition unused_reset : ResetFields := mkResetFields None None None None.
Definition unused_change : EmailFields := mkEmailFields None None None None None.

Definition alice : AuthUser :=
  mkAuthUser 1 "Alice" "alice@pams.test" (plain_hash "secret" 0) "Agent" (Some 5%N) 0 false
             unused_reset unused_change.
Definition bob : AuthUser :=
  mkAuthUser 2 "Bob" "bob@pams.test" (plain_hash "hunter2" 0) "Manager" (Some 5%N) 0 true
             unused_reset unused_change.

Definition office : Directory := mkDirectory [alice; bob] [].

End AuthSample.

(** * Properties *)

(** Membership in a list written out. *)
Ltac in_list := repeat first [apply list_elem_of_here | apply list_elem_of_further].

(** ** Local time *)

Lemma ym_split (d : DateTime) : 12 * getFullYear d + getMonth d = dt_ym d.
Proof. unfold getFullYear, getMonth. symmetry. apply Z.div_mod. lia. Qed.

Lemma startOfMonth_ym (d : DateTime) : dt_ym (startOfMonth d) = dt_ym d.
Proof. apply ym_split. Qed.

Lemma endOfMonth_ym (d : DateTime) : dt_ym (endOfMonth d) = dt_ym d + 1.
Proof.
  unfold endOfMonth, setMonth. cbn [dt_ym].
  pose proof (ym_split (startOfMonth d)) as H.
  rewrite startOfMonth_ym in H. lia.
Qed.

(** The window [startOfMonth d, endOfMonth d) holds exactly the instants of
    the calendar month of [d]. *)
Lemma month_window (d x : DateTime) :
  in_range (startOfMonth d) (endOfMonth d) x = (dt_ym x =? dt_ym d).
Proof.
  unfold in_range, dt_leb, dt_ltb.
  rewrite endOfMonth_ym, startOfMonth_ym.
  change (dt_day (startOfMonth d)) with 1%positive.
  change (dt_ms (startOfMonth d)) with 0%N.
  change (dt_day (endOfMonth d)) with 1%positive.
  change (dt_ms (endOfMonth d)) with 0%N.
  destruct (Z.ltb_spec (dt_ym x) (dt_ym d)),
           (Z.eqb_spec (dt_ym x) (dt_ym d)),
           (Z.ltb_spec (dt_ym x) (dt_ym d + 1)),
           (Z.eqb_spec (dt_ym x) (dt_ym d + 1)),
           (Pos.ltb_spec (dt_day x) 1),
           (Pos.eqb_spec (dt_day x) 1),
           (N.ltb_spec (dt_ms x) 0); simpl; try reflexivity; try lia.
Qed.

(** ** Sums and queries *)

Lemma total_of_aggregate (p : Deposit -> bool) (ds : list Deposit) :
  total_of (aggregate p ds) = sum_amounts (List.filter p ds).
Proof. unfold aggregate. destruct (List.filter p ds); reflexivity. Qed.

Lemma sum_amounts_cons (d : Deposit) (l : list Deposit) :
  sum_amounts (d :: l) = d_amount d + sum_amounts l.
Proof. reflexivity. Qed.

Lemma sum_amounts_app (l1 l2 : list Deposit) :
  sum_amounts (l1 ++ l2) = sum_amounts l1 + sum_amounts l2.
Proof.
  induction l1 as [|d l1 IH]; [reflexivity|].
  rewrite <- app_comm_cons, !sum_amounts_cons, IH. lia.
Qed.

Lemma sum_amounts_nonneg (l : list Deposit) :
  Forall (fun d => 0 < d_amount d) l -> 0 <= sum_amounts l.
Proof.
  induction 1 as [|d l Hd _ IH]; [reflexivity|].
  rewrite sum_amounts_cons. lia.
Qed.

Lemma Forall_filter_keep {A} (P : A -> Prop) (p : A -> bool) (l : list A) :
  Forall P l -> Forall P (List.filter p l).
Proof.
  induction 1 as [|x l Hx _ IH]; cbn [List.filter]; [constructor|].
  destruct (p x); [constructor|]; assumption.
Qed.

Lemma filter_ext_in_list {A} (p q : A -> bool) (l : list A) :
  (forall x, x ∈ l -> p x = q x) -> List.filter p l = List.filter q l.
Proof.
  induction l as [|x l IH]; intros H; cbn [List.filter]; [reflexivity|].
  rewrite (H x) by (left). rewrite IH; [reflexivity|].
  intros y Hy. apply H. right. exact Hy.
Qed.

Lemma find_none_filter {A} (p : A -> bool) (l : list A) :
  List.find p l = None <-> List.filter p l = [].
Proof.
  induction l as [|x l IH]; cbn [List.find List.filter]; [tauto|].
  destruct (p x); [split; discriminate | exact IH].
Qed.

Lemma findById_some (id : Id) (ds : list Deposit) (d : Deposit) :
  findById id ds = Some d -> d ∈ ds /\ d_id d = id.
Proof.
  unfold findById. induction ds as [|x ds IH]; cbn [List.find]; [discriminate|].
  destruct (N.eqb_spec (d_id x) id) as [He|Hne].
  - intros [= <-]. split; [left | exact He].
  - intros H. destruct (IH H) as [Hin Hid]. split; [right; exact Hin | exact Hid].
Qed.


Lemma sum_after_save_other (p : Deposit -> bool) (d' : Deposit) (ds : list Deposit) :
  (forall x, x ∈ ds -> d_id x = d_id d' -> p x = false) -> p d' = false ->
  List.filter p (map (fun x => if (d_id x =? d_id d')%N then d' else x) ds)
  = List.filter p ds.
Proof.
  intros H Hp'. induction ds as [|x ds IH]; [reflexivity|].
  cbn [map List.filter].
  rewrite IH by (intros y Hy; apply H; right; exact Hy).
  destruct (N.eqb_spec (d_id x) (d_id d')) as [He|_]; [|reflexivity].
  rewrite Hp', (H x) by (left || exact He). reflexivity.
Qed.

(** Removing a document by identifier, seen through a selection. *)
Lemma filter_delete (p : Deposit -> bool) (id : Id) (ds : list Deposit) :
  List.filter p (List.filter (fun x => negb (d_id x =? id)%N) ds)
  = List.filter (fun x => p x && not_id id x) ds.
Proof.
  induction ds as [|x ds IH]; [reflexivity|].
  cbn [List.filter]. unfold not_id at 1.
  destruct (negb (d_id x =? id)%N); cbn [List.filter].
  - rewrite andb_true_r. destruct (p x); rewrite IH; reflexivity.
  - rewrite andb_false_r. exact IH.
Qed.

Lemma sum_without (p : Deposit -> bool) (d : Deposit) (ds : list Deposit) :
  NoDup (map d_id ds) -> d ∈ ds -> p d = true ->
  sum_amounts (List.filter (fun x => p x && not_id (d_id d) x) ds)
  = sum_amounts (List.filter p ds) - d_amount d.
Proof.
  intros Hnd Hin Hp.
  induction ds as [|x ds IH]; [inversion Hin|].
  cbn [map] in Hnd. apply NoDup_cons in Hnd as [Hx Hnd].
  cbn [List.filter]. unfold not_id at 1.
  apply elem_of_cons in Hin as [<-|Hin].
  - rewrite N.eqb_refl, Hp. cbn [negb andb]. rewrite sum_amounts_cons.
    assert (Hsame : List.filter (fun x => p x && not_id (d_id d) x) ds = List.filter p ds).
    { apply filter_ext_in_list. intros y Hy. unfold not_id.
      destruct (N.eqb_spec (d_id y) (d_id d)) as [He|_]; [|apply andb_true_r].
      exfalso. apply Hx. rewrite <- He. apply list_elem_of_fmap. exists y. split; [reflexivity | exact Hy]. }
    rewrite Hsame. lia.
  - specialize (IH Hnd Hin).
    destruct (N.eqb_spec (d_id x) (d_id d)) as [He|_].
    + exfalso. apply Hx. rewrite He. apply list_elem_of_fmap. exists d. split; [reflexivity | exact Hin].
    + cbn [negb]. rewrite andb_true_r. destruct (p x); [rewrite !sum_amounts_cons|]; lia.
Qed.

(** ** The ways a handler can end *)

Lemma set_status_isFullyPaid_id (a : Account) :
  set_status (a_status a) (set_isFullyPaid (a_isFullyPaid a) a) = a.
Proof. destruct a; reflexivity. Qed.

Lemma set_status_once (s : Status) (a : Account) :
  set_status s a = set_status s (set_isFullyPaid (a_isFullyPaid a) a).
Proof. destruct a; reflexivity. Qed.

Lemma cr_committed_same now u b st a T :
  accounts st !! cb_accountId b = Some a ->
  a_totalPayableAmount a = Some T ->
  0 < cb_amount b ->
  collected (cb_accountId b) st + cb_amount b <= T ->
  dt_leb (a_maturityDate a) now = false ->
  (a_paymentMode a = Monthly ->
   List.filter (in_month_of now (cb_accountId b)) (deposits st) = []) ->
  create_result now u b st (create_commit now u b a T st).
Proof.
  intros.
  replace (create_commit now u b a T st)
    with (create_commit now u b
            (set_status (a_status a) (set_isFullyPaid (a_isFullyPaid a) a)) T st)
    by (rewrite set_status_isFullyPaid_id; reflexivity).
  constructor; assumption.
Qed.

Lemma create_policy_result now u b a T st :
  accounts st !! cb_accountId b = Some a ->
  a_totalPayableAmount a = Some T ->
  0 < cb_amount b ->
  create_result now u b st (create_policy now u b a T st).
Proof.
  intros Ha HT Hpos. unfold create_policy, create_reject.
  rewrite total_of_aggregate. fold (collected (cb_accountId b) st).
  destruct (Z.ltb_spec T (collected (cb_accountId b) st + cb_amount b)) as [|Hfit];
    [constructor; discriminate|].
  destruct (dt_leb (a_maturityDate a) now) eqn:Hmat; [econstructor; eassumption|].
  destruct (a_paymentMode a) eqn:Hmode.
  - destruct (missing_or_nonpositive (a_monthlyTarget a)); [constructor; discriminate|].
    match goal with |- context [if ?c then _ else _] => destruct c end;
      [constructor; discriminate|].
    rewrite set_status_once. constructor; try assumption. congruence.
  - destruct (missing_or_nonpositive (a_installmentAmount a)); [constructor; discriminate|].
    destruct (negb _); [constructor; discriminate|].
    unfold findOne.
    match goal with |- context [List.find ?p ?l] => destruct (List.find p l) eqn:Hfind end;
      [constructor; discriminate|].
    apply cr_committed_same; try assumption.
    intros _. apply find_none_filter. exact Hfind.
  - destruct (a_isFullyPaid a); [constructor; discriminate|].
    destruct (negb _); [constructor; discriminate|].
    constructor; try assumption. congruence.
  - apply cr_committed_same; try assumption. congruence.
Qed.

Lemma createDeposit_result now sc u b st :
  create_result now u b st (createDeposit now sc u b st).
Proof.
  unfold createDeposit, create_reject.
  destruct (negb (bool_decide _)); [constructor; discriminate|].
  destruct (Z.leb_spec (cb_amount b) 0) as [|Hpos]; [constructor; discriminate|].
  destruct (accounts st !! cb_accountId b) as [a|] eqn:Ha; [|constructor; discriminate].
  destruct (negb (a_userId a =? cb_userId b)%N); [constructor; discriminate|].
  assert (Hdeny : forall c, match c with Deny _ r _ => r <> ACCOUNT_MATURED | _ => True end ->
            create_result now u b st
              match c with
              | Pass =>
                  match manager_scope sc u (cb_userId b) with
                  | Pass =>
                      match a_totalPayableAmount a with
                      | Some T => create_policy now u b a T st
                      | None =>
                          (audit_create (create_failed u MISSING_TOTAL_PAYABLE) st,
                           RaisedError 500
                             "Account configuration invalid (missing totalPayableAmount)")
                      end
                  | Deny code r msg => (audit_create (create_failed u r) st, RaisedError code msg)
                  | Fault msg => (st, Crashed msg)
                  end
              | Deny code r msg => (audit_create (create_failed u r) st, RaisedError code msg)
              | Fault msg => (st, Crashed msg)
              end).
  { intros [| |] Hc; [|constructor; exact Hc|constructor].
    unfold manager_scope.
    destruct (bool_decide (c_role u = Manager));
      [destruct (bool_decide _); [|constructor; discriminate]|];
      (destruct (a_totalPayableAmount a) as [T|] eqn:HT;
       [apply create_policy_result; assumption | constructor; discriminate]). }
  apply Hdeny. unfold agent_scope.
  destruct (bool_decide (c_role u = Agent)); [|exact I].
  destruct (users st !! cb_userId b) as [client|]; [|discriminate].
  destruct (u_assignedTo client); [|exact I].
  destruct (negb _); [discriminate | exact I].
Qed.

Lemma update_commit_result now u id b st deposit a T :
  findById id (deposits st) = Some deposit ->
  accounts st !! d_accountId deposit = Some a ->
  a_totalPayableAmount a = Some T ->
  (forall amount, ub_amount b = Some amount -> 0 < amount) ->
  collected (d_accountId deposit) st - d_amount deposit + effective_amount b deposit <= T ->
  (ub_date b <> Some None -> a_paymentMode a = Monthly ->
   List.filter (fun d => in_month_of (effective_date b deposit) (d_accountId deposit) d
                         && not_id (d_id deposit) d) (deposits st) = []) ->
  update_result now u id b st (update_commit now u b deposit a T st).
Proof.
  intros Hd Ha HT Hpos Hfit Hmon.
  destruct (ub_date b) as [[p|]|] eqn:Hdate.
  - apply ur_committed; try assumption; [congruence|]. apply Hmon. congruence.
  - unfold update_commit. rewrite Hdate. constructor.
  - apply ur_committed; try assumption; [congruence|]. apply Hmon. congruence.
Qed.

Lemma update_policy_result now u id b st deposit a T :
  findById id (deposits st) = Some deposit ->
  accounts st !! d_accountId deposit = Some a ->
  a_totalPayableAmount a = Some T ->
  (forall amount, ub_amount b = Some amount -> 0 < amount) ->
  update_result now u id b st (update_policy now u b deposit a T st).
Proof.
  intros Hd Ha HT Hpos. unfold update_policy, update_reject, invalid_date_query.
  rewrite total_of_aggregate. fold (collected (d_accountId deposit) st).
  fold (effective_amount b deposit).
  destruct (Z.ltb_spec T (collected (d_accountId deposit) st - d_amount deposit
                          + effective_amount b deposit)) as [|Hfit]; [constructor|].
  destruct (a_paymentMode a) eqn:Hmode.
  - destruct (missing_or_nonpositive (a_monthlyTarget a)); [constructor|].
    destruct (ub_date b) as [[p|]|] eqn:Hdate; [|constructor|];
      (match goal with |- context [if ?c then _ else _] => destruct c end; [constructor|]);
      (apply update_commit_result; try assumption; intros; congruence).
  - destruct (missing_or_nonpositive (a_installmentAmount a)); [constructor|].
    destruct (negb _); [constructor|].
    destruct (ub_date b) as [[p|]|] eqn:Hdate; [|constructor|].
    + match goal with |- context [List.filter ?p ?l] => destruct (List.filter p l) eqn:Hnone end;
        [|constructor].
      apply update_commit_result; try assumption. intros _ _.
      unfold effective_date, in_month_of. rewrite Hdate. exact Hnone.
    + match goal with |- context [List.filter ?p ?l] => destruct (List.filter p l) eqn:Hnone end;
        [|constructor].
      apply update_commit_result; try assumption. intros _ _.
      unfold effective_date, in_month_of. rewrite Hdate. exact Hnone.
  - destruct (negb _); [constructor|].
    apply update_commit_result; try assumption. intros; congruence.
  - apply update_commit_result; try assumption. intros; congruence.
Qed.

Lemma updateDeposit_result now u id b st :
  update_result now u id b st (updateDeposit now u id b st).
Proof.
  unfold updateDeposit, update_reject.
  destruct (negb (bool_decide _)); [constructor|].
  destruct (findById id (deposits st)) as [deposit|] eqn:Hd; [|constructor].
  destruct (accounts st !! d_accountId deposit) as [a|] eqn:Ha; [|constructor].
  destruct (ub_amount b) as [amount|] eqn:Hamt.
  - destruct (Z.leb_spec amount 0); [constructor|].
    destruct (a_totalPayableAmount a) as [T|] eqn:HT; [|constructor].
    apply update_policy_result; try assumption. rewrite Hamt. intros ? [= <-]. assumption.
  - destruct (a_totalPayableAmount a) as [T|] eqn:HT; [|constructor].
    apply update_policy_result; try assumption. rewrite Hamt. discriminate.
Qed.

Lemma set_isFullyPaid_id (a : Account) : set_isFullyPaid (a_isFullyPaid a) a = a.
Proof. destruct a; reflexivity. Qed.

Lemma deleteDeposit_result u id st :
  delete_result u id st (deleteDeposit u id st).
Proof.
  unfold deleteDeposit, delete_reject.
  destruct (negb (bool_decide _)); [constructor|].
  destruct (findById id (deposits st)) as [deposit|] eqn:Hd; [|constructor].
  destruct (accounts st !! d_accountId deposit) as [a|] eqn:Ha; [|constructor].
  assert (Hsame : delete_result u id st (delete_commit u deposit a st)).
  { replace (delete_commit u deposit a st)
      with (delete_commit u deposit (set_isFullyPaid (a_isFullyPaid a) a) st)
      by (rewrite set_isFullyPaid_id; reflexivity).
    constructor; assumption. }
  destruct (bool_decide (a_paymentMode a = Yearly)); [|exact Hsame].
  destruct (_ =? 1)%nat; [constructor|].
  match goal with |- context [if ?c then _ else _] => destruct c end;
    [constructor; assumption | exact Hsame].
Qed.

(** ** What the commits write *)

Lemma create_commit_deposits now u b a T st :
  deposits (fst (create_commit now u b a T st)) = deposits st ++ [new_deposit now u b a st].
Proof. reflexivity. Qed.

Lemma create_commit_next_id now u b a T st :
  next_id (fst (create_commit now u b a T st)) = N.succ (next_id st).
Proof. reflexivity. Qed.

Lemma create_commit_accounts now u b a T st :
  exists a',
    accounts (fst (create_commit now u b a T st)) = <[cb_accountId b := a']> (accounts st)
    /\ a_balance a' = a_balance a + cb_amount b
    /\ a_totalPayableAmount a' = a_totalPayableAmount a
    /\ a_paymentMode a' = a_paymentMode a.
Proof.
  unfold create_commit. cbn [fst accounts audit_create account_save deposit_insert].
  eexists. split; [reflexivity|].
  destruct (T <=? _); destruct (bool_decide (a_paymentMode a = Yearly));
    destruct (_ && _); auto.
Qed.

Lemma update_commit_reconcile now u b deposit a T st :
  ub_date b <> Some None ->
  update_commit now u b deposit a T st
  = update_reconcile now u (updated_deposit b deposit a) a T st.
Proof.
  intros Hdate. unfold update_commit.
  destruct (ub_date b) as [[p|]|]; [reflexivity | congruence | reflexivity].
Qed.

Lemma update_reconcile_deposits now u d' a T st :
  deposits (fst (update_reconcile now u d' a T st)) = replace_deposit d' (deposits st).
Proof. reflexivity. Qed.


Lemma update_reconcile_accounts now u d' a T st :
  exists a',
    accounts (fst (update_reconcile now u d' a T st)) = <[d_accountId d' := a']> (accounts st)
    /\ a_balance a'
       = sum_amounts (List.filter (by_account (d_accountId d')) (replace_deposit d' (deposits st)))
    /\ a_totalPayableAmount a' = a_totalPayableAmount a
    /\ a_paymentMode a' = a_paymentMode a.
Proof.
  unfold update_reconcile.
  cbn [fst accounts audit_create account_save deposit_save deposits].
  eexists. split; [reflexivity|]. rewrite total_of_aggregate.
  fold (replace_deposit d' (deposits st)).
  destruct (T <=? _); destruct (bool_decide (a_paymentMode a = Yearly));
    destruct (bool_decide (a_paymentMode a = Daily)); auto.
Qed.

Lemma delete_commit_deposits u deposit a st :
  deposits (fst (delete_commit u deposit a st))
  = List.filter (fun x => negb (d_id x =? d_id deposit)%N) (deposits st).
Proof. reflexivity. Qed.


Lemma delete_commit_accounts u deposit a st :
  exists a',
    accounts (fst (delete_commit u deposit a st)) = <[d_accountId deposit := a']> (accounts st)
    /\ a_balance a'
       = Z.max 0 (sum_amounts
                    (List.filter (fun d => by_account (d_accountId deposit) d
                                           && not_id (d_id deposit) d) (deposits st)))
    /\ a_totalPayableAmount a' = a_totalPayableAmount a
    /\ a_paymentMode a' = a_paymentMode a.
Proof.
  unfold delete_commit.
  cbn [fst accounts audit_create account_save deposit_delete deposits].
  eexists. split; [reflexivity|]. rewrite !total_of_aggregate.
  match goal with |- context [if ?c then _ else _] => destruct c end;
    destruct (bool_decide (a_paymentMode a = Yearly));
    destruct (a_paymentMode a) eqn:Hmode;
    (split; [reflexivity | split; [reflexivity | exact Hmode]]).
Qed.

(** ** The ledger invariant *)

Lemma same_id_same_deposit (ds : list Deposit) (x y : Deposit) :
  NoDup (map d_id ds) -> x ∈ ds -> y ∈ ds -> d_id x = d_id y -> x = y.
Proof.
  induction ds as [|z ds IH]; intros Hnd Hx Hy Hid; [inversion Hx|].
  cbn [map] in Hnd. apply NoDup_cons in Hnd as [Hz Hnd].
  apply elem_of_cons in Hx as [->|Hx]; apply elem_of_cons in Hy as [->|Hy].
  - reflexivity.
  - exfalso. apply Hz. rewrite Hid. apply list_elem_of_fmap. eauto.
  - exfalso. apply Hz. rewrite <- Hid. apply list_elem_of_fmap. eauto.
  - auto.
Qed.


Lemma replace_deposit_Forall (P : Deposit -> Prop) (d' : Deposit) (ds : list Deposit) :
  P d' -> Forall P ds -> Forall P (replace_deposit d' ds).
Proof.
  intros Hd. unfold replace_deposit. induction 1 as [|x ds Hx _ IH]; cbn [map]; constructor.
  - destruct (d_id x =? d_id d')%N; assumption.
  - exact IH.
Qed.


(** How [reconciled] moves when one account and its deposits change. *)
Lemma reconciled_step (st st' : Store) (aid : Id) (a a' : Account) :
  accounts st !! aid = Some a ->
  accounts st' = <[aid := a']> (accounts st) ->
  (forall other, other <> aid -> collected other st' = collected other st) ->
  a_balance a' = collected aid st' ->
  a_totalPayableAmount a' = a_totalPayableAmount a ->
  (forall T, a_totalPayableAmount a = Some T -> collected aid st' <= T) ->
  reconciled st -> reconciled st'.
Proof.
  intros Ha Hacc Hother Hbal Hcfg Hcap Hrec x ax Hx.
  rewrite Hacc in Hx. destruct (decide (aid = x)) as [<-|Hne].
  - rewrite lookup_insert_eq in Hx. injection Hx as <-.
    split; [exact Hbal|]. intros T HT. rewrite Hbal. apply Hcap. congruence.
  - rewrite lookup_insert_ne in Hx by exact Hne.
    rewrite Hother by congruence. apply Hrec. exact Hx.
Qed.

(** ** Operations and runs *)

Lemma ids_fresh_create_commit now u b a T st :
  ids_fresh st -> ids_fresh (fst (create_commit now u b a T st)).
Proof.
  intros (Hnd & Hlt). unfold ids_fresh.
  rewrite create_commit_deposits, create_commit_next_id. split.
  - rewrite map_app. apply NoDup_app. split; [exact Hnd|]. split.
    + intros i Hi Hk. cbn [map] in Hk. apply list_elem_of_singleton in Hk. subst i.
      apply list_elem_of_fmap in Hi as (y & Hy & Hin).
      rewrite Forall_forall in Hlt. specialize (Hlt y Hin).
      cbn [new_deposit d_id] in Hy. lia.
    + cbn [map]. apply NoDup_singleton.
  - apply Forall_app. split.
    + eapply Forall_impl; [exact Hlt|]. intros y Hy. cbn beta in *. lia.
    + constructor; [|constructor]. cbn [new_deposit d_id]. lia.
Qed.




Lemma filter_app_list {A} (p : A -> bool) (l1 l2 : list A) :
  List.filter p (l1 ++ l2) = List.filter p l1 ++ List.filter p l2.
Proof.
  induction l1 as [|x l1 IH]; [reflexivity|].
  cbn [app List.filter]. rewrite IH. destruct (p x); reflexivity.
Qed.

Lemma collected_after_insert (x : Id) (d : Deposit) (ds : list Deposit) :
  sum_amounts (List.filter (by_account x) (ds ++ [d]))
  = sum_amounts (List.filter (by_account x) ds)
    + (if by_account x d then d_amount d else 0).
Proof.
  rewrite filter_app_list, sum_amounts_app. cbn [List.filter].
  destruct (by_account x d); cbn [sum_amounts foldr]; lia.
Qed.

Lemma create_commit_consistent now u b a s f T st :
  accounts st !! cb_accountId b = Some a ->
  a_totalPayableAmount a = Some T ->
  0 < cb_amount b ->
  collected (cb_accountId b) st + cb_amount b <= T ->
  ledger_consistent st ->
  ledger_consistent (fst (create_commit now u b (set_status s (set_isFullyPaid f a)) T st)).
Proof.
  intros Ha HT Hpos Hfit ((Hnd & Hlt) & Hamt & Hrec).
  set (a0 := set_status s (set_isFullyPaid f a)).
  destruct (create_commit_accounts now u b a0 T st) as (a' & Hacc & Hbal & Hcfg & _).
  split; [|split].
  - apply ids_fresh_create_commit. split; assumption.
  - unfold amounts_positive. rewrite create_commit_deposits.
    apply Forall_app. split; [exact Hamt|]. constructor; [exact Hpos | constructor].
  - apply (reconciled_step st _ (cb_accountId b) a a'); try assumption.
    + intros other Hne. unfold collected. rewrite create_commit_deposits.
      rewrite collected_after_insert. unfold by_account at 2. cbn [new_deposit d_accountId].
      destruct (N.eqb_spec (cb_accountId b) other); [congruence | lia].
    + unfold collected. rewrite create_commit_deposits, collected_after_insert.
      unfold by_account at 2. cbn [new_deposit d_accountId d_amount]. rewrite N.eqb_refl.
      rewrite Hbal. change (a_balance a0) with (a_balance a).
      destruct (Hrec _ _ Ha) as [-> _]. reflexivity.
    + intros T' HT'. unfold collected. rewrite create_commit_deposits, collected_after_insert.
      unfold by_account at 2. cbn [new_deposit d_accountId d_amount]. rewrite N.eqb_refl.
      unfold collected in Hfit. assert (T' = T) by congruence. lia.
Qed.

Lemma account_only_consistent (st : Store) (aid : Id) (a a' : Account) :
  accounts st !! aid = Some a ->
  a_balance a' = a_balance a ->
  a_totalPayableAmount a' = a_totalPayableAmount a ->
  ledger_consistent st -> ledger_consistent (account_save aid a' st).
Proof.
  intros Ha Hbal Hcfg (Hids & Hamt & Hrec).
  split; [exact Hids | split; [exact Hamt|]].
  apply (reconciled_step st _ aid a a'); try assumption; try reflexivity.
  - rewrite Hbal. apply (Hrec _ _ Ha).
  - intros T HT. change (collected aid (account_save aid a' st)) with (collected aid st).
    destruct (Hrec _ _ Ha) as [<- Hcap]. auto.
Qed.

Lemma create_preserves now sc u b st :
  ledger_consistent st -> ledger_consistent (fst (createDeposit now sc u b st)).
Proof.
  intros Hst. destruct (createDeposit_result now sc u b st).
  - exact Hst.
  - apply account_only_consistent with (a := a); auto.
  - exact Hst.
  - apply create_commit_consistent; assumption.
Qed.







(** ** Requests that reach the policy checks *)

Lemma create_reject_rejected u r code msg st0 st :
  deposits st = deposits st0 -> audit st = audit st0 ->
  rejected_with CREATE_DEPOSIT_FAILED r st0 (create_reject u r code msg st).
Proof.
  intros Hd Ha. exists code, msg, (create_failed u r).
  cbn [create_reject fst snd audit_create audit deposits]. rewrite Ha. auto.
Qed.


Lemma delete_reject_rejected u r code msg st :
  rejected_with DELETE_DEPOSIT_FAILED r st (delete_reject u r code msg st).
Proof. exists code, msg, (delete_failed u r). cbn. auto. Qed.

Lemma scope_admits_pass sc u userId st :
  scope_admits sc u userId st ->
  agent_scope u userId st = Pass /\ manager_scope sc u userId = Pass.
Proof.
  intros [Hag Hman]. unfold agent_scope, manager_scope. split.
  - case_bool_decide as Hr; [|reflexivity].
    destruct (Hag Hr) as (client & -> & ->). rewrite N.eqb_refl. reflexivity.
  - case_bool_decide as Hr; [|reflexivity].
    rewrite bool_decide_eq_true_2 by auto. reflexivity.
Qed.

Lemma create_at_policy now sc u b st a T :
  reaches_create_policy sc u b st a T ->
  createDeposit now sc u b st = create_policy now u b a T st.
Proof.
  intros (Hrole & Hpos & Ha & Huser & Hscope & HT).
  apply scope_admits_pass in Hscope as [Hag Hman].
  unfold createDeposit.
  rewrite bool_decide_eq_true_2 by exact Hrole. cbn [negb].
  destruct (Z.leb_spec (cb_amount b) 0); [lia|].
  rewrite Ha, Huser, N.eqb_refl. cbn [negb]. rewrite Hag, Hman, HT. reflexivity.
Qed.

Lemma update_at_policy now u id b st deposit a T :
  reaches_update_policy u id b st deposit a T ->
  updateDeposit now u id b st = update_policy now u b deposit a T st.
Proof.
  intros (Hrole & Hd & Ha & Hpos & HT).
  unfold updateDeposit.
  rewrite bool_decide_eq_true_2 by exact Hrole. cbn [negb].
  rewrite Hd, Ha, HT.
  destruct (ub_amount b) as [amount|]; [|reflexivity].
  specialize (Hpos amount eq_refl). destruct (Z.leb_spec amount 0); [lia | reflexivity].
Qed.







(** C3 (as amended). A create that reaches the policy checks and passes the
    overall payable check, on an account whose maturityDate is at or before
    the current time, is rejected with ACCOUNT_MATURED; no deposit is
    written and the account is saved with status Matured, its other fields
    unchanged. *)
Theorem matured_account_rejects_create now sc u b st a T :
  reaches_create_policy sc u b st a T ->
  collected (cb_accountId b) st + cb_amount b <= T ->
  dt_leb (a_maturityDate a) now = true ->
  rejected_with CREATE_DEPOSIT_FAILED ACCOUNT_MATURED st (createDeposit now sc u b st)
  /\ deposits (fst (createDeposit now sc u b st)) = deposits st
  /\ accounts (fst (createDeposit now sc u b st))
     = <[cb_accountId b := set_status Matured a]> (accounts st).
Proof.
  intros Hreach Hfit Hmat.
  rewrite (create_at_policy now sc u b st a T Hreach).
  unfold create_policy. rewrite total_of_aggregate.
  fold (collected (cb_accountId b) st).
  destruct (Z.ltb_spec T (collected (cb_accountId b) st + cb_amount b)); [lia|].
  rewrite Hmat.
  split; [apply create_reject_rejected; reflexivity | split; reflexivity].
Qed.

(** C5. On a Yearly account that holds exactly one deposit, a delete of
    that deposit is always rejected: the deposit stays, the account is not
    modified, and for an Admin (the only role that gets past the role
    check) the reason is CANNOT_DELETE_ONLY_YEARLY_DEPOSIT. *)
Theorem only_yearly_deposit_kept u id st deposit a :
  findById id (deposits st) = Some deposit ->
  accounts st !! d_accountId deposit = Some a ->
  a_paymentMode a = Yearly ->
  countDocuments (by_account (d_accountId deposit)) (deposits st) = 1%nat ->
  (exists r, rejected_with DELETE_DEPOSIT_FAILED r st (deleteDeposit u id st)
             /\ (c_role u = Admin -> r = CANNOT_DELETE_ONLY_YEARLY_DEPOSIT))
  /\ deposits (fst (deleteDeposit u id st)) = deposits st
  /\ accounts (fst (deleteDeposit u id st)) = accounts st.
Proof.
  intros Hd Ha Hmode Hcount. unfold deleteDeposit.
  case_bool_decide as Hrole; cbn [negb].
  - rewrite Hd, Ha, Hcount. rewrite bool_decide_eq_true_2 by exact Hmode.
    cbn [Nat.eqb]. split; [|split; reflexivity].
    exists CANNOT_DELETE_ONLY_YEARLY_DEPOSIT. split; [apply delete_reject_rejected | auto].
  - split; [|split; reflexivity].
    exists ROLE_NOT_ALLOWED. split; [apply delete_reject_rejected | tauto].
Qed.

(** ** Daily accounts *)


Lemma in_month_of_spec (t : DateTime) (aid : Id) (d : Deposit) :
  in_month_of t aid d = (d_accountId d =? aid)%N && (dt_ym (d_date d) =? dt_ym t).
Proof. unfold in_month_of, by_account, dated. rewrite month_window. reflexivity. Qed.




(** ** Monthly accounts *)

Lemma filter_length_le {A} (p q : A -> bool) (l : list A) :
  (forall x, x ∈ l -> p x = true -> q x = true) ->
  (length (List.filter p l) <= length (List.filter q l))%nat.
Proof.
  induction l as [|x l IH]; intros H; [reflexivity|].
  cbn [List.filter].
  assert (IH' := IH (fun y Hy => H y (list_elem_of_further _ _ _ Hy))).
  destruct (p x) eqn:Hp.
  - rewrite (H x (list_elem_of_here _ _) Hp). cbn [length]. lia.
  - destruct (q x); cbn [length]; lia.
Qed.

(** Saving one document: a selection keeps what it held of the other
    documents and may gain the saved one. *)
Lemma filter_replace_length (p : Deposit -> bool) (d' : Deposit) (ds : list Deposit) :
  NoDup (map d_id ds) ->
  (length (List.filter p (replace_deposit d' ds))
   <= length (List.filter (fun x => p x && not_id (d_id d') x) ds)
      + (if p d' then 1 else 0))%nat.
Proof.
  unfold replace_deposit. induction ds as [|x ds IH]; [cbn; lia|].
  cbn [map]. intros [Hx Hnd]%NoDup_cons. cbn [List.filter]. unfold not_id at 1.
  destruct (N.eqb_spec (d_id x) (d_id d')) as [He|Hne].
  - rewrite andb_false_r.
    assert (Hsame : map (fun y => if (d_id y =? d_id d')%N then d' else y) ds = ds).
    { clear IH Hnd. induction ds as [|y ds IH]; [reflexivity|].
      cbn [map]. destruct (N.eqb_spec (d_id y) (d_id d')) as [He'|_].
      - exfalso. apply Hx. cbn [map]. rewrite He, He'. left.
      - rewrite IH; [reflexivity|]. intros Hc. apply Hx. cbn [map]. right. exact Hc. }
    rewrite Hsame.
    assert (Hle : (length (List.filter p ds)
                   <= length (List.filter (fun y => p y && not_id (d_id d') y) ds))%nat).
    { apply filter_length_le. intros y Hy Hp. rewrite Hp. unfold not_id.
      destruct (N.eqb_spec (d_id y) (d_id d')) as [He'|_]; [|reflexivity].
      exfalso. apply Hx. rewrite He, <- He'. apply list_elem_of_fmap. eauto. }
    destruct (p d'); cbn [length]; lia.
  - rewrite andb_true_r. specialize (IH Hnd).
    destruct (p x); cbn [length]; lia.
Qed.

Lemma exclusive_step (st st' : Store) (aid : Id) (a a' : Account) :
  accounts st !! aid = Some a ->
  accounts st' = <[aid := a']> (accounts st) ->
  a_paymentMode a' = a_paymentMode a ->
  (forall other t, other <> aid ->
     (countDocuments (in_month_of t other) (deposits st')
      <= countDocuments (in_month_of t other) (deposits st))%nat) ->
  (a_paymentMode a = Monthly ->
   forall t, (countDocuments (in_month_of t aid) (deposits st') <= 1)%nat) ->
  monthly_exclusive st -> monthly_exclusive st'.
Proof.
  intros Ha Hacc Hmode Hother Hthis Hex x ax Hx Hm t.
  rewrite Hacc in Hx. destruct (decide (aid = x)) as [<-|Hne].
  - rewrite lookup_insert_eq in Hx. injection Hx as <-. apply Hthis. congruence.
  - rewrite lookup_insert_ne in Hx by exact Hne.
    etrans; [apply Hother; congruence|]. apply (Hex x ax Hx Hm).
Qed.

Lemma in_month_same (t t' : DateTime) (aid : Id) (d : Deposit) :
  dt_ym t = dt_ym t' -> in_month_of t aid d = in_month_of t' aid d.
Proof. intros H. rewrite !in_month_of_spec, H. reflexivity. Qed.

Lemma create_commit_exclusive now u b a s f T st :
  accounts st !! cb_accountId b = Some a ->
  (a_paymentMode a = Monthly ->
   List.filter (in_month_of now (cb_accountId b)) (deposits st) = []) ->
  monthly_exclusive st ->
  monthly_exclusive (fst (create_commit now u b (set_status s (set_isFullyPaid f a)) T st)).
Proof.
  intros Ha Hnone Hex.
  set (a0 := set_status s (set_isFullyPaid f a)).
  destruct (create_commit_accounts now u b a0 T st) as (a' & Hacc & _ & _ & Hmode).
  apply (exclusive_step st _ (cb_accountId b) a a' Ha Hacc Hmode); [| |exact Hex].
  - intros other t Hne. unfold countDocuments.
    rewrite create_commit_deposits, filter_app_list. cbn [List.filter].
    rewrite in_month_of_spec. cbn [new_deposit d_accountId].
    destruct (N.eqb_spec (cb_accountId b) other) as [He|_]; [congruence|].
    cbn [andb]. rewrite app_nil_r. reflexivity.
  - intros Hm t. unfold countDocuments.
    rewrite create_commit_deposits, filter_app_list, length_app. cbn [List.filter].
    destruct (in_month_of t (cb_accountId b) (new_deposit now u b a0 st)) eqn:Hp.
    + rewrite in_month_of_spec in Hp. cbn [new_deposit d_date] in Hp.
      apply andb_prop in Hp as [_ Hym]. apply Z.eqb_eq in Hym.
      rewrite (filter_ext_in_list (in_month_of t (cb_accountId b))
                                  (in_month_of now (cb_accountId b))).
      * rewrite (Hnone Hm). reflexivity.
      * intros x _. apply in_month_same. congruence.
    + cbn [length]. specialize (Hex _ _ Ha Hm t). unfold countDocuments in Hex. lia.
Qed.

Lemma update_reconcile_exclusive now u b deposit a T st :
  deposit ∈ deposits st ->
  accounts st !! d_accountId deposit = Some a ->
  (a_paymentMode a = Monthly ->
   List.filter (fun d => in_month_of (effective_date b deposit) (d_accountId deposit) d
                         && not_id (d_id deposit) d) (deposits st) = []) ->
  ids_fresh st -> monthly_exclusive st ->
  monthly_exclusive (fst (update_reconcile now u (updated_deposit b deposit a) a T st)).
Proof.
  intros Hin Ha Hnone (Hnd & _) Hex.
  set (d' := updated_deposit b deposit a).
  destruct (update_reconcile_accounts now u d' a T st) as (a' & Hacc & _ & _ & Hmode).
  change (d_accountId d') with (d_accountId deposit) in Hacc.
  apply (exclusive_step st _ (d_accountId deposit) a a' Ha Hacc Hmode); [| |exact Hex].
  - intros other t Hne. unfold countDocuments. rewrite update_reconcile_deposits.
    unfold replace_deposit. rewrite sum_after_save_other; [reflexivity| |].
    + intros x Hx Hid. rewrite in_month_of_spec.
      rewrite (same_id_same_deposit (deposits st) x deposit Hnd Hx Hin Hid).
      destruct (N.eqb_spec (d_accountId deposit) other); [congruence | reflexivity].
    + rewrite in_month_of_spec. cbn [d' updated_deposit d_accountId].
      destruct (N.eqb_spec (d_accountId deposit) other); [congruence | reflexivity].
  - intros Hm t. unfold countDocuments. rewrite update_reconcile_deposits.
    etrans; [apply filter_replace_length; exact Hnd|].
    change (d_id d') with (d_id deposit).
    destruct (in_month_of t (d_accountId deposit) d') eqn:Hp.
    + rewrite in_month_of_spec in Hp. cbn [d' updated_deposit d_date d_accountId] in Hp.
      apply andb_prop in Hp as [_ Hym]. apply Z.eqb_eq in Hym.
      rewrite (filter_ext_in_list
                 (fun x => in_month_of t (d_accountId deposit) x && not_id (d_id deposit) x)
                 (fun x => in_month_of (effective_date b deposit) (d_accountId deposit) x
                           && not_id (d_id deposit) x)).
      * rewrite (Hnone Hm). reflexivity.
      * intros x _. f_equal. apply in_month_same. congruence.
    + rewrite Nat.add_0_r. etrans; [|apply (Hex _ _ Ha Hm t)].
      apply filter_length_le. intros x _ Hx. apply andb_prop in Hx. tauto.
Qed.

Lemma delete_commit_exclusive u deposit a f st :
  accounts st !! d_accountId deposit = Some a ->
  monthly_exclusive st ->
  monthly_exclusive (fst (delete_commit u deposit (set_isFullyPaid f a) st)).
Proof.
  intros Ha Hex.
  destruct (delete_commit_accounts u deposit (set_isFullyPaid f a) st)
    as (a' & Hacc & _ & _ & Hmode).
  assert (Hle : forall x t,
    (countDocuments (in_month_of t x)
       (deposits (fst (delete_commit u deposit (set_isFullyPaid f a) st)))
     <= countDocuments (in_month_of t x) (deposits st))%nat).
  { intros x t. unfold countDocuments. rewrite delete_commit_deposits, filter_delete.
    apply filter_length_le. intros y _ Hy. apply andb_prop in Hy. tauto. }
  apply (exclusive_step st _ (d_accountId deposit) a a' Ha Hacc Hmode); [| |exact Hex].
  - intros other t _. apply Hle.
  - intros Hm t. etrans; [apply Hle|]. apply (Hex _ _ Ha Hm t).
Qed.

Lemma account_only_exclusive (st : Store) (aid : Id) (a a' : Account) :
  accounts st !! aid = Some a ->
  a_paymentMode a' = a_paymentMode a ->
  monthly_exclusive st -> monthly_exclusive (account_save aid a' st).
Proof.
  intros Ha Hmode Hex.
  apply (exclusive_step st (account_save aid a' st) aid a a' Ha eq_refl Hmode);
    [| |exact Hex].
  - intros other t _. reflexivity.
  - intros Hm t. apply (Hex _ _ Ha Hm t).
Qed.

Lemma step_exclusive (op : Op) (st : Store) :
  ids_fresh st -> monthly_exclusive st -> monthly_exclusive (fst (step op st)).
Proof.
  intros Hids Hex. destruct op as [now sc u b | now u id b | u id]; cbn [step].
  - destruct (createDeposit_result now sc u b st) as
      [r code msg Hr | a T msg Ha HT Hfit Hmat | msg | a s f T Ha HT Hpos Hfit Hmat Hnone].
    + exact Hex.
    + apply account_only_exclusive with (a := a); auto.
    + exact Hex.
    + apply create_commit_exclusive; assumption.
  - destruct (updateDeposit_result now u id b st) as
      [r code msg | msg | deposit a T Hfind Ha HT Hpos Hfit Hdate Hnone];
      [exact Hex | exact Hex |].
    rewrite update_commit_reconcile by exact Hdate.
    apply findById_some in Hfind as [Hin _].
    apply update_reconcile_exclusive; assumption.
  - destruct (deleteDeposit_result u id st) as [r code msg | deposit a f Hfind Ha];
      [exact Hex|].
    apply delete_commit_exclusive; assumption.
Qed.





(** ** The audit trail *)

Lemma create_audit now sc u b st :
  match snd (createDeposit now sc u b st) with
  | RaisedError _ _ =>
      exists r, audit (fst (createDeposit now sc u b st)) = audit st ++ [create_failed u r]
  | Responded _ _ =>
      exists ev, audit (fst (createDeposit now sc u b st)) = audit st ++ [ev]
                 /\ ev_action ev = CREATE_DEPOSIT
  | Crashed _ => audit (fst (createDeposit now sc u b st)) = audit st
  end.
Proof.
  destruct (createDeposit_result now sc u b st); cbn [fst snd create_commit].
  - exists r. reflexivity.
  - exists ACCOUNT_MATURED. reflexivity.
  - reflexivity.
  - eexists. split; reflexivity.
Qed.

Lemma update_audit now u id b st :
  match snd (updateDeposit now u id b st) with
  | RaisedError _ _ =>
      exists r, audit (fst (updateDeposit now u id b st)) = audit st ++ [update_failed u r]
  | Responded _ _ =>
      exists ev, audit (fst (updateDeposit now u id b st)) = audit st ++ [ev]
                 /\ ev_action ev = UPDATE_DEPOSIT
  | Crashed _ => audit (fst (updateDeposit now u id b st)) = audit st
  end.
Proof.
  destruct (updateDeposit_result now u id b st) as
    [r code msg | msg | deposit a T Hfind Ha HT Hpos Hfit Hdate _]; cbn [fst snd].
  - exists r. reflexivity.
  - reflexivity.
  - rewrite update_commit_reconcile by exact Hdate. cbn [fst snd update_reconcile].
    eexists. split; reflexivity.
Qed.

Lemma delete_audit u id st :
  match snd (deleteDeposit u id st) with
  | RaisedError _ _ =>
      exists r, audit (fst (deleteDeposit u id st)) = audit st ++ [delete_failed u r]
  | Responded _ _ =>
      exists e1 e2, audit (fst (deleteDeposit u id st)) = audit st ++ [e1; e2]
                    /\ ev_action e1 = DELETE_DEPOSIT_ATTEMPT
                    /\ ev_action e2 = DELETE_DEPOSIT
  | Crashed _ => audit (fst (deleteDeposit u id st)) = audit st
  end.
Proof.
  destruct (deleteDeposit_result u id st) as [r code msg | deposit a f Hfind Ha];
    cbn [fst snd delete_commit].
  - exists r. reflexivity.
  - exists (mkAuditEvent DELETE_DEPOSIT_ATTEMPT DepositEntity (Some (d_id deposit))
                          (Some DELETE_REQUEST) (c_id u)),
           (mkAuditEvent DELETE_DEPOSIT DepositEntity (Some (d_id deposit)) None (c_id u)).
    split; [|split; reflexivity].
    cbn [audit audit_create account_save deposit_delete].
    rewrite <- app_assoc. reflexivity.
Qed.

Lemma push_failed_lengths st r acc :
  length (bk_failed (push_failed st r acc)) = S (length (bk_failed acc))
  /\ bk_success (push_failed st r acc) = bk_success acc.
Proof.
  cbn [push_failed bk_failed bk_success]. rewrite length_app. cbn [length].
  split; [lia | reflexivity].
Qed.

Lemma bulk_item_logged now sc u d acc :
  item_logged acc (bulk_item now sc u d acc).
Proof.
  unfold bulk_item.
  destruct (negb _); [left; split; [reflexivity | apply push_failed_lengths]|].
  destruct (accounts (bk_store acc) !! bi_accountId d) as [account|];
    [|left; split; [reflexivity | apply push_failed_lengths]].
  destruct (users (bk_store acc) !! a_userId account) as [client|];
    [|left; split; [reflexivity | apply push_failed_lengths]].
  destruct (alreadyDeposited _ _ _ _);
    [left; split; [reflexivity | apply push_failed_lengths]|].
  pose proof (create_audit now sc u
                (mkCreateBody (bi_accountId d) (a_userId account) (bi_amount d) None)
                (bk_store acc)) as Haud.
  pose proof (createDeposit_result now sc u
                (mkCreateBody (bi_accountId d) (a_userId account) (bi_amount d) None)
                (bk_store acc)) as Hres.
  destruct (createDeposit now sc u _ (bk_store acc)) as [st' out].
  cbn [fst snd] in Haud.
  destruct out as [code message | code message | message].
  - destruct Haud as (ev & Hev & Hact).
    inversion Hres; subst. cbn [Z.eqb Pos.eqb].
    right. exists ev. split; [exact Hev|]. right.
    cbn [push_success bk_success bk_failed]. rewrite length_app. cbn [length].
    split; [exact Hact | split; [lia | reflexivity]].
  - destruct Haud as (r & Hev). right. exists (create_failed u r).
    split; [exact Hev|]. left.
    split; [reflexivity | split; [eexists; reflexivity | apply push_failed_lengths]].
  - left. split; [exact Haud | apply push_failed_lengths].
Qed.


(** ** Dates of created deposits *)

Lemma create_deposits now sc u b st :
  (snd (createDeposit now sc u b st) = Responded 201 "Deposit created successfully"
   /\ exists d, deposits (fst (createDeposit now sc u b st)) = deposits st ++ [d]
                /\ d_date d = now /\ d_amount d = cb_amount b
                /\ d_accountId d = cb_accountId b)
  \/ ((forall code msg, snd (createDeposit now sc u b st) <> Responded code msg)
      /\ deposits (fst (createDeposit now sc u b st)) = deposits st).
Proof.
  destruct (createDeposit_result now sc u b st); cbn [fst snd].
  - right. split; [discriminate | reflexivity].
  - right. split; [discriminate | reflexivity].
  - right. split; [discriminate | reflexivity].
  - left. split; [reflexivity|]. eexists. rewrite create_commit_deposits.
    split; [reflexivity|]. split; [|split]; reflexivity.
Qed.

Lemma bulk_item_deposits now sc u d acc :
  exists new, deposits (bk_store (bulk_item now sc u d acc))
              = deposits (bk_store acc) ++ new
              /\ Forall (fun x => d_date x = now) new.
Proof.
  unfold bulk_item.
  destruct (negb _); [exists []; rewrite app_nil_r; split; [reflexivity | constructor]|].
  destruct (accounts (bk_store acc) !! bi_accountId d) as [account|];
    [|exists []; rewrite app_nil_r; split; [reflexivity | constructor]].
  destruct (users (bk_store acc) !! a_userId account) as [client|];
    [|exists []; rewrite app_nil_r; split; [reflexivity | constructor]].
  destruct (alreadyDeposited _ _ _ _);
    [exists []; rewrite app_nil_r; split; [reflexivity | constructor]|].
  pose proof (create_deposits now sc u
                (mkCreateBody (bi_accountId d) (a_userId account) (bi_amount d) None)
                (bk_store acc)) as Hcr.
  destruct (createDeposit now sc u _ (bk_store acc)) as [st' out].
  cbn [fst snd] in Hcr.
  assert (Hnew : exists new, deposits st' = deposits (bk_store acc) ++ new
                             /\ Forall (fun x => d_date x = now) new).
  { destruct Hcr as [(_ & x & Hx & Hdate & _) | (_ & Hsame)].
    - exists [x]. split; [exact Hx | constructor; [exact Hdate | constructor]].
    - exists []. rewrite app_nil_r. split; [exact Hsame | constructor]. }
  destruct out as [code message | code message | message];
    [destruct (code =? 201)| |]; exact Hnew.
Qed.

Lemma bulk_chunk_deposits now sc u chunk acc :
  exists new, deposits (bk_store (bulk_chunk now sc u chunk acc))
              = deposits (bk_store acc) ++ new
              /\ Forall (fun x => d_date x = now) new.
Proof.
  unfold bulk_chunk. revert acc.
  induction chunk as [|d chunk IH]; intros acc; cbn [foldl].
  - exists []. rewrite app_nil_r. split; [reflexivity | constructor].
  - destruct (IH (bulk_item now sc u d acc)) as (new2 & H2 & F2).
    destruct (bulk_item_deposits now sc u d acc) as (new1 & H1 & F1).
    exists (new1 ++ new2). rewrite H2, H1, app_assoc.
    split; [reflexivity | apply Forall_app; split; assumption].
Qed.

(** The rounds of ten handle the items one after the other. *)
Lemma bulk_rounds_all now sc u items fuel i acc :
  (length (drop i items) <= fuel)%nat ->
  bulk_rounds fuel now sc u items i acc = bulk_chunk now sc u (drop i items) acc.
Proof.
  revert i acc. induction fuel as [|fuel IH]; intros i acc Hfuel; cbn [bulk_rounds].
  - destruct (drop i items); [reflexivity | cbn [length] in Hfuel; lia].
  - rewrite length_drop in Hfuel. destruct (Nat.ltb_spec i (length items)) as [Hlt|Hge].
    + rewrite IH by (rewrite length_drop; lia).
      unfold bulk_chunk. rewrite <- foldl_app.
      rewrite <- drop_drop, take_drop. reflexivity.
    + rewrite drop_ge by lia. reflexivity.
Qed.

Lemma bulk_store_is_chunk now sc u items st :
  items <> [] -> c_role u = Agent ->
  bulkCreateDeposits now sc u items st
  = let acc := bulk_chunk now sc u items (mkBulkAcc st [] [] ∅) in
    (bk_store acc,
     BulkDone (mkBulkReport (length items) (length (bk_success acc))
                            (length (bk_failed acc)) (bk_failed acc)
                            (bk_success acc) (bk_summary acc))).
Proof.
  intros Hne Hrole. unfold bulkCreateDeposits.
  destruct items as [|d items]; [congruence|].
  cbn [length Nat.eqb]. rewrite bool_decide_eq_true_2 by exact Hrole. cbn [negb].
  rewrite bulk_rounds_all by (rewrite drop_0; reflexivity).
  rewrite drop_0. reflexivity.
Qed.

Lemma bulk_chunk_ignores_dates now sc u dt items acc :
  bulk_chunk now sc u (map (item_with_date dt) items) acc = bulk_chunk now sc u items acc.
Proof.
  unfold bulk_chunk. revert acc. induction items as [|d items IH]; intros acc.
  - reflexivity.
  - cbn [map foldl].
    change (bulk_item now sc u (item_with_date dt d) acc) with (bulk_item now sc u d acc).
    apply IH.
Qed.

(** C9. A create that succeeds stores a deposit dated with the server
    clock of the request, whatever date the body carries: the handler gives
    the same result for every value of the body's date.  The same holds for
    every deposit a bulk create stores and for the dates its items carry. *)
Theorem created_deposit_dated_by_server :
  (forall now sc u b st code msg,
     snd (createDeposit now sc u b st) = Responded code msg ->
     exists d, deposits (fst (createDeposit now sc u b st)) = deposits st ++ [d]
               /\ d_date d = now)
  /\ (forall now sc u b st dt,
        createDeposit now sc u (with_date dt b) st = createDeposit now sc u b st)
  /\ (forall now sc u items st,
        exists new, deposits (fst (bulkCreateDeposits now sc u items st))
                    = deposits st ++ new
                    /\ Forall (fun d => d_date d = now) new)
  /\ (forall now sc u items st dt,
        bulkCreateDeposits now sc u (map (item_with_date dt) items) st
        = bulkCreateDeposits now sc u items st).
Proof.
  split; [|split; [|split]].
  - intros now sc u b st code msg Hok.
    destruct (create_deposits now sc u b st) as [(_ & d & Hd & Hdate & _) | (Hno & _)].
    + exists d. auto.
    + exfalso. exact (Hno code msg Hok).
  - intros now sc u b st dt. reflexivity.
  - intros now sc u items st. unfold bulkCreateDeposits.
    destruct (length items =? 0)%nat;
      [exists []; rewrite app_nil_r; split; [reflexivity | constructor]|].
    destruct (negb _);
      [exists []; rewrite app_nil_r; split; [reflexivity | constructor]|].
    cbn [fst]. rewrite bulk_rounds_all by (rewrite drop_0; reflexivity).
    rewrite drop_0. apply bulk_chunk_deposits.
  - intros now sc u items st dt. unfold bulkCreateDeposits.
    rewrite length_map.
    destruct (length items =? 0)%nat; [reflexivity|].
    destruct (negb _); [reflexivity|].
    rewrite !bulk_rounds_all by (rewrite drop_0, ?length_map; reflexivity).
    rewrite !drop_0, bulk_chunk_ignores_dates. reflexivity.
Qed.

(** ** Updates that change nothing *)

Lemma findById_replace (id : Id) (d d' : Deposit) (ds : list Deposit) :
  findById id ds = Some d -> d_id d' = d_id d ->
  findById id (replace_deposit d' ds) = Some d'.
Proof.
  unfold findById, replace_deposit. intros Hfind Hid.
  induction ds as [|x ds IH]; cbn [List.find map] in *; [discriminate|].
  destruct (N.eqb_spec (d_id x) id) as [He|Hne].
  - injection Hfind as ->. rewrite Hid, N.eqb_refl, Hid, He, N.eqb_refl. reflexivity.
  - apply findById_some in Hfind as Hd. destruct Hd as [_ Hd]. fold (findById id ds) in Hfind.
    destruct (N.eqb_spec (d_id x) (d_id d')) as [He'|_]; [congruence|].
    destruct (N.eqb_spec (d_id x) id); [congruence|]. apply IH. exact Hfind.
Qed.

(** C10. An update by an Admin whose body has neither amount nor date, on
    an existing deposit of an existing account whose configuration and
    deposits pass the policy checks, succeeds; the stored deposit keeps its
    amount, its date and every other field except schemeType, which is
    taken from the account, and no other deposit changes. *)
Theorem update_without_fields_keeps_deposit now u id st deposit a T :
  c_role u = Admin ->
  findById id (deposits st) = Some deposit ->
  accounts st !! d_accountId deposit = Some a ->
  a_totalPayableAmount a = Some T ->
  collected (d_accountId deposit) st <= T ->
  update_policy_holds st deposit a T ->
  let res := updateDeposit now u id (mkUpdateBody None None) st in
  snd res = Responded 200 "Deposit updated successfully"
  /\ findById id (deposits (fst res)) = Some (resynced deposit a)
  /\ d_amount (resynced deposit a) = d_amount deposit
  /\ d_date (resynced deposit a) = d_date deposit
  /\ deposits (fst res)
     = map (fun x => if (d_id x =? d_id deposit)%N then resynced deposit a else x)
           (deposits st).
Proof.
  intros Hrole Hfind Ha HT Hfit Hpol res. subst res.
  assert (Hreach : reaches_update_policy u id (mkUpdateBody None None) st deposit a T).
  { repeat split; try assumption. cbn [ub_amount]. discriminate. }
  rewrite (update_at_policy now u id _ st deposit a T Hreach).
  assert (Hgo : update_policy now u (mkUpdateBody None None) deposit a T st
                = update_reconcile now u (resynced deposit a) a T st).
  { unfold update_policy. rewrite total_of_aggregate.
    fold (collected (d_accountId deposit) st).
    cbn [ub_amount ub_date default from_option Datatypes.id].
    destruct (Z.ltb_spec T (collected (d_accountId deposit) st - d_amount deposit
                            + d_amount deposit)); [lia|].
    unfold update_policy_holds in Hpol.
    destruct (a_paymentMode a).
    - destruct Hpol as (M & HM & Hpos & Hle). rewrite HM.
      cbn [missing_or_nonpositive default from_option Datatypes.id].
      destruct (Z.leb_spec M 0); [lia|]. rewrite total_of_aggregate.
      change (sum_amounts (List.filter
                (fun d => by_account (d_accountId deposit) d
                          && dated (startOfMonth (d_date deposit))
                                   (endOfMonth (d_date deposit)) d
                          && not_id (d_id deposit) d) (deposits st)))
        with (month_sum_without (d_date deposit) (d_accountId deposit) (d_id deposit) st).
      destruct (Z.ltb_spec M (month_sum_without (d_date deposit) (d_accountId deposit)
                                (d_id deposit) st + d_amount deposit)); [lia|].
      reflexivity.
    - destruct Hpol as (inst & Hinst & Hpos & Hamt & Hnone). rewrite Hinst.
      cbn [missing_or_nonpositive default from_option Datatypes.id].
      destruct (Z.leb_spec inst 0); [lia|].
      rewrite Hamt, Z.eqb_refl. cbn [negb].
      unfold countDocuments, in_month_of in Hnone. rewrite Hnone. reflexivity.
    - rewrite Hpol, Z.eqb_refl. reflexivity.
    - reflexivity. }
  rewrite Hgo. rewrite update_reconcile_deposits.
  split; [reflexivity|]. split; [|split; [reflexivity | split; reflexivity]].
  apply findById_replace with (d := deposit); [exact Hfind | reflexivity].
Qed.

(** ** Bulk reports *)






(** * Worked instances *)

Lemma opened_ids_fresh : ids_fresh Sample.opened.
Proof. split; [apply NoDup_nil_2 | constructor]. Qed.

Lemma opened_consistent : ledger_consistent Sample.opened.
Proof.
  split; [exact opened_ids_fresh | split; [constructor|]].
  intros aid a H. unfold Sample.opened in H. cbn [accounts] in H.
  repeat (apply lookup_insert_Some in H as [[<- <-]|[_ H]];
          [split; [reflexivity | intros T [= <-]; vm_compute; discriminate]|]).
  rewrite lookup_empty in H. discriminate.
Qed.

Lemma opened_exclusive : monthly_exclusive Sample.opened.
Proof. intros aid a _ _ t. cbn. lia. Qed.

Lemma admin_reaches_policy (aid : Id) (amount : Z) (a : Account) (T : Z) :
  0 < amount -> accounts Sample.opened !! aid = Some a -> a_userId a = 7%N ->
  a_totalPayableAmount a = Some T ->
  reaches_create_policy Sample.no_scope Sample.admin (Sample.pay aid amount)
                        Sample.opened a T.
Proof.
  intros Hpos Ha Hu HT. split; [in_list|]. split; [exact Hpos|].
  split; [exact Ha|]. split; [exact Hu|]. split; [|exact HT].
  split; discriminate.
Qed.



(** C3 as stated fails: on the account matured since 2020, a create of 5000
    against a payable total of 1200 is turned away by the overall payable
    check; the reason is not ACCOUNT_MATURED and the account is not saved
    as Matured. *)
Lemma matured_create_counterexample :
  let res := createDeposit Sample.jan Sample.no_scope Sample.admin (Sample.pay 4 5000)
                           Sample.opened in
  dt_leb (a_maturityDate Sample.acc_old) Sample.jan = true
  /\ accounts Sample.opened !! 4%N = Some Sample.acc_old
  /\ ~ rejected_with CREATE_DEPOSIT_FAILED ACCOUNT_MATURED Sample.opened res
  /\ rejected_with CREATE_DEPOSIT_FAILED TOTAL_PAYABLE_EXCEEDED Sample.opened res
  /\ accounts (fst res) !! 4%N = Some Sample.acc_old
  /\ a_status Sample.acc_old <> Matured.
Proof.
  cbv zeta. split; [reflexivity|]. split; [reflexivity|]. split; [|split; [|split]].
  - intros (code & msg & ev & _ & Haud & _ & Hr & _).
    vm_compute in Haud. injection Haud as <-. discriminate Hr.
  - eexists _, _, _. vm_compute. repeat split.
  - vm_compute. reflexivity.
  - discriminate.
Qed.

(** C3 as amended, on the account matured since 2020 and an installment
    that fits. *)
Lemma matured_account_witness :
  rejected_with CREATE_DEPOSIT_FAILED ACCOUNT_MATURED Sample.opened
    (createDeposit Sample.jan Sample.no_scope Sample.admin (Sample.pay 4 100) Sample.opened)
  /\ accounts (fst (createDeposit Sample.jan Sample.no_scope Sample.admin (Sample.pay 4 100)
                                  Sample.opened))
     = <[4%N := set_status Matured Sample.acc_old]> (accounts Sample.opened).
Proof.
  assert (H := matured_account_rejects_create Sample.jan Sample.no_scope Sample.admin
                 (Sample.pay 4 100) Sample.opened Sample.acc_old 1200).
  destruct H as (H1 & _ & H3).
  - apply admin_reaches_policy; [lia | reflexivity | reflexivity | reflexivity].
  - vm_compute. discriminate.
  - reflexivity.
  - split; [exact H1 | exact H3].
Defined.


(** C5 on the Yearly account after its single payment. *)
Lemma only_yearly_deposit_witness :
  (exists r, rejected_with DELETE_DEPOSIT_FAILED r Sample.yearly_paid
               (deleteDeposit Sample.admin 1 Sample.yearly_paid)
             /\ (c_role Sample.admin = Admin -> r = CANNOT_DELETE_ONLY_YEARLY_DEPOSIT))
  /\ deposits (fst (deleteDeposit Sample.admin 1 Sample.yearly_paid))
     = deposits Sample.yearly_paid
  /\ accounts (fst (deleteDeposit Sample.admin 1 Sample.yearly_paid))
     = accounts Sample.yearly_paid.
Proof.
  apply (only_yearly_deposit_kept Sample.admin 1%N Sample.yearly_paid
           Sample.yearly_payment Sample.acc_yearly_paid);
    vm_compute; reflexivity.
Defined.





(** C9 on the first installment, sent with a date of its own. *)
Lemma created_date_witness :
  exists d,
    deposits (fst (createDeposit Sample.jan Sample.no_scope Sample.admin
                     (with_date (Some Sample.feb) (Sample.pay 1 100)) Sample.opened))
    = deposits Sample.opened ++ [d]
    /\ d_date d = Sample.jan.
Proof.
  apply (proj1 created_deposit_dated_by_server Sample.jan Sample.no_scope Sample.admin
           (with_date (Some Sample.feb) (Sample.pay 1 100)) Sample.opened
           201 "Deposit created successfully").
  vm_compute. reflexivity.
Defined.

(** C10 on the January installment. *)
Lemma update_without_fields_witness :
  snd (updateDeposit Sample.feb Sample.admin 1 (mkUpdateBody None None) Sample.monthly_paid)
  = Responded 200 "Deposit updated successfully"
  /\ findById 1 (deposits (fst (updateDeposit Sample.feb Sample.admin 1
                                  (mkUpdateBody None None) Sample.monthly_paid)))
     = Some (resynced Sample.january_installment Sample.acc_monthly_active).
Proof.
  destruct (update_without_fields_keeps_deposit Sample.feb Sample.admin 1%N
              Sample.monthly_paid Sample.january_installment Sample.acc_monthly_active 1200)
    as (H1 & H2 & _).
  - reflexivity.
  - vm_compute. reflexivity.
  - vm_compute. reflexivity.
  - reflexivity.
  - vm_compute. discriminate.
  - exists 100. split; [reflexivity|]. split; [lia|]. split; [reflexivity|].
    vm_compute. reflexivity.
  - split; [exact H1 | exact H2].
Defined.

(** * Further properties of the handlers *)

(** ** What a success went through *)

Lemma missing_or_nonpositive_false (x : option Z) :
  missing_or_nonpositive x = false -> exists v, x = Some v /\ 0 < v.
Proof.
  destruct x as [v|]; cbn [missing_or_nonpositive]; [|discriminate].
  intros H. exists v. split; [reflexivity|]. apply Z.leb_gt. exact H.
Qed.

Lemma create_policy_success now u b a T st code msg :
  snd (create_policy now u b a T st) = Responded code msg ->
  collected (cb_accountId b) st + cb_amount b <= T
  /\ dt_leb (a_maturityDate a) now = false
  /\ create_mode_admits now b a T st
  /\ create_policy now u b a T st = create_commit now u b (create_prepared now b a st) T st.
Proof.
  unfold create_policy, create_reject, create_mode_admits, create_prepared.
  rewrite !total_of_aggregate. fold (collected (cb_accountId b) st).
  destruct (Z.ltb_spec T (collected (cb_accountId b) st + cb_amount b)) as [|Hfit];
    [discriminate|].
  destruct (dt_leb (a_maturityDate a) now) eqn:Hmat; [discriminate|].
  change (sum_amounts (List.filter
            (fun d => by_account (cb_accountId b) d
                      && dated (startOfMonth now) (endOfMonth now) d) (deposits st)))
    with (month_sum now (cb_accountId b) st).
  destruct (a_paymentMode a) eqn:Hmode.
  - destruct (missing_or_nonpositive (a_monthlyTarget a)) eqn:Hcfg; [discriminate|].
    apply missing_or_nonpositive_false in Hcfg as (M & HM & Hpos). rewrite HM.
    cbn [default from_option Datatypes.id].
    destruct (Z.ltb_spec M (month_sum now (cb_accountId b) st + cb_amount b));
      [discriminate|].
    intros _. repeat split; try assumption. exists M. auto.
  - destruct (missing_or_nonpositive (a_installmentAmount a)) eqn:Hcfg; [discriminate|].
    apply missing_or_nonpositive_false in Hcfg as (inst & Hinst & Hpos). rewrite Hinst.
    cbn [default from_option Datatypes.id].
    destruct (Z.eqb_spec (cb_amount b) inst) as [Hamt|]; [|discriminate]. cbn [negb].
    unfold findOne.
    match goal with |- context [List.find ?p ?l] => destruct (List.find p l) eqn:Hfind end;
      [discriminate|].
    intros _. repeat split; try assumption. exists inst.
    repeat split; try assumption. apply find_none_filter. exact Hfind.
  - destruct (a_isFullyPaid a) eqn:Hpaid; [discriminate|].
    destruct (Z.eqb_spec (cb_amount b) (default T (a_yearlyAmount a))) as [Hamt|];
      [|discriminate].
    intros _. repeat split; assumption.
  - intros _. repeat split; assumption.
Qed.

Lemma create_success_admits now sc u b st code msg :
  snd (createDeposit now sc u b st) = Responded code msg ->
  exists a T,
    accounts st !! cb_accountId b = Some a
    /\ a_userId a = cb_userId b
    /\ a_totalPayableAmount a = Some T
    /\ 0 < cb_amount b
    /\ collected (cb_accountId b) st + cb_amount b <= T
    /\ dt_leb (a_maturityDate a) now = false
    /\ create_mode_admits now b a T st
    /\ createDeposit now sc u b st
       = create_commit now u b (create_prepared now b a st) T st.
Proof.
  unfold createDeposit, create_reject.
  destruct (negb (bool_decide _)); [discriminate|].
  destruct (Z.leb_spec (cb_amount b) 0) as [|Hpos]; [discriminate|].
  destruct (accounts st !! cb_accountId b) as [a|] eqn:Ha; [|discriminate].
  destruct (N.eqb_spec (a_userId a) (cb_userId b)) as [Hu|]; [|discriminate]. cbn [negb].
  destruct (agent_scope u (cb_userId b) st); [|discriminate..].
  destruct (manager_scope sc u (cb_userId b)); [|discriminate..].
  destruct (a_totalPayableAmount a) as [T|] eqn:HT; [|discriminate].
  intros Hok. apply create_policy_success in Hok as (Hfit & Hmat & Hadm & Heq).
  exists a, T. repeat split; assumption.
Qed.

Lemma update_policy_success now u b deposit a T st code msg :
  snd (update_policy now u b deposit a T st) = Responded code msg ->
  collected (d_accountId deposit) st - d_amount deposit + effective_amount b deposit <= T
  /\ ub_date b <> Some None
  /\ update_mode_admits b deposit a T st
  /\ update_policy now u b deposit a T st
     = update_reconcile now u (updated_deposit b deposit a) a T st.
Proof.
  unfold update_policy, update_reject, invalid_date_query, update_mode_admits.
  rewrite !total_of_aggregate. fold (collected (d_accountId deposit) st).
  fold (effective_amount b deposit).
  destruct (Z.ltb_spec T (collected (d_accountId deposit) st - d_amount deposit
                          + effective_amount b deposit)) as [|Hfit]; [discriminate|].
  assert (Hcommit : forall c m,
            snd (update_commit now u b deposit a T st) = Responded c m ->
            ub_date b <> Some None
            /\ update_commit now u b deposit a T st
               = update_reconcile now u (updated_deposit b deposit a) a T st).
  { intros c m. unfold update_commit, update_reject.
    destruct (ub_date b) as [[p|]|]; [|discriminate|]; intros _; split; congruence. }
  destruct (a_paymentMode a) eqn:Hmode.
  - destruct (missing_or_nonpositive (a_monthlyTarget a)) eqn:Hcfg; [discriminate|].
    apply missing_or_nonpositive_false in Hcfg as (M & HM & Hpos). rewrite HM.
    cbn [default from_option Datatypes.id].
    destruct (ub_date b) as [[p|]|] eqn:Hdate; [|discriminate|];
      rewrite total_of_aggregate;
      (match goal with |- context [if ?c then _ else _] => destruct c eqn:Hle end;
       [discriminate|]);
      intros Hok; destruct (Hcommit _ _ Hok) as [Hd Heq];
      (split; [exact Hfit | split; [exact Hd | split; [|exact Heq]]]);
      exists M; (split; [reflexivity | split; [exact Hpos|]]);
      apply Z.ltb_ge in Hle; unfold month_sum_without, in_month_of, effective_date;
      rewrite Hdate; exact Hle.
  - destruct (missing_or_nonpositive (a_installmentAmount a)) eqn:Hcfg; [discriminate|].
    apply missing_or_nonpositive_false in Hcfg as (inst & Hinst & Hpos). rewrite Hinst.
    cbn [default from_option Datatypes.id].
    destruct (Z.eqb_spec (effective_amount b deposit) inst) as [Hamt|]; [|discriminate].
    cbn [negb].
    destruct (ub_date b) as [[p|]|] eqn:Hdate; [|discriminate|];
      (match goal with |- context [List.filter ?p ?l] =>
         destruct (List.filter p l) eqn:Hnone end; [|discriminate]);
      intros Hok; destruct (Hcommit _ _ Hok) as [Hd Heq];
      (split; [exact Hfit | split; [exact Hd | split; [|exact Heq]]]);
      exists inst; (split; [reflexivity | split; [exact Hpos | split; [exact Hamt|]]]);
      unfold in_month_of, effective_date; rewrite Hdate; exact Hnone.
  - destruct (Z.eqb_spec (effective_amount b deposit) (default T (a_yearlyAmount a)))
      as [Hamt|]; [|discriminate].
    intros Hok. destruct (Hcommit _ _ Hok) as [Hd Heq]. repeat split; assumption.
  - intros Hok. destruct (Hcommit _ _ Hok) as [Hd Heq]. repeat split; assumption.
Qed.

Lemma update_success_admits now u id b st code msg :
  snd (updateDeposit now u id b st) = Responded code msg ->
  exists deposit a T,
    c_role u = Admin
    /\ findById id (deposits st) = Some deposit
    /\ accounts st !! d_accountId deposit = Some a
    /\ a_totalPayableAmount a = Some T
    /\ (forall amount, ub_amount b = Some amount -> 0 < amount)
    /\ collected (d_accountId deposit) st - d_amount deposit
       + effective_amount b deposit <= T
    /\ ub_date b <> Some None
    /\ update_mode_admits b deposit a T st
    /\ updateDeposit now u id b st
       = update_reconcile now u (updated_deposit b deposit a) a T st.
Proof.
  unfold updateDeposit, update_reject.
  case_bool_decide as Hrole; cbn [negb]; [|discriminate].
  destruct (findById id (deposits st)) as [deposit|] eqn:Hd; [|discriminate].
  destruct (accounts st !! d_accountId deposit) as [a|] eqn:Ha; [|discriminate].
  destruct (match ub_amount b with Some amount => amount <=? 0 | None => false end) eqn:Hg;
    [discriminate|].
  assert (Hpos : forall amount, ub_amount b = Some amount -> 0 < amount).
  { intros amount E. rewrite E in Hg. apply Z.leb_gt. exact Hg. }
  destruct (a_totalPayableAmount a) as [T|] eqn:HT; [|discriminate].
  intros Hok. apply update_policy_success in Hok as (Hfit & Hdate & Hadm & Heq).
  exists deposit, a, T. repeat split; assumption.
Qed.

Lemma delete_success u id st code msg :
  snd (deleteDeposit u id st) = Responded code msg ->
  exists deposit a,
    c_role u = Admin
    /\ findById id (deposits st) = Some deposit
    /\ accounts st !! d_accountId deposit = Some a
    /\ (a_paymentMode a = Yearly ->
        countDocuments (by_account (d_accountId deposit)) (deposits st) <> 1%nat)
    /\ deleteDeposit u id st = delete_commit u deposit (delete_prepared deposit a st) st.
Proof.
  unfold deleteDeposit, delete_reject, delete_prepared.
  case_bool_decide as Hrole; cbn [negb]; [|discriminate].
  destruct (findById id (deposits st)) as [deposit|] eqn:Hd; [|discriminate].
  destruct (accounts st !! d_accountId deposit) as [a|] eqn:Ha; [|discriminate].
  rewrite total_of_aggregate. fold (collected (d_accountId deposit) st).
  case_bool_decide as Hmode; cbn [andb].
  - destruct (Nat.eqb_spec (countDocuments (by_account (d_accountId deposit)) (deposits st)) 1)
      as [|Hcount]; [discriminate|].
    intros _. exists deposit, a. repeat split; auto.
    rewrite (bool_decide_eq_true_2 _ Hmode). reflexivity.
  - intros _. exists deposit, a. repeat split; auto; try congruence.
    rewrite (bool_decide_eq_false_2 _ Hmode). reflexivity.
Qed.

(** ** What no operation touches *)

Lemma same_plan_refl (a : Account) : same_plan a a.
Proof. repeat split. Qed.

Lemma same_plan_trans (a b c : Account) : same_plan a b -> same_plan b c -> same_plan a c.
Proof. unfold same_plan. intros H1 H2. intuition congruence. Qed.

Lemma same_plan_set_status (s : Status) (a x : Account) :
  same_plan a x -> same_plan a (set_status s x).
Proof. intros H. exact H. Qed.

Lemma same_plan_set_balance (v : Z) (a x : Account) :
  same_plan a x -> same_plan a (set_balance v x).
Proof. intros H. exact H. Qed.

Lemma same_plan_set_isFullyPaid (f : bool) (a x : Account) :
  same_plan a x -> same_plan a (set_isFullyPaid f x).
Proof. intros H. exact H. Qed.

(** Goes through an account built from [a] by field updates and tests. *)
Ltac plan_kept :=
  repeat first
    [ apply same_plan_refl
    | apply same_plan_set_status
    | apply same_plan_set_balance
    | apply same_plan_set_isFullyPaid
    | match goal with
      | |- same_plan _ (if ?c then _ else _) => destruct c
      | |- same_plan _ (match ?m with Daily => _ | _ => _ end) => destruct m
      end ].

Lemma create_commit_plan now u b a T st :
  exists a',
    accounts (fst (create_commit now u b a T st)) = <[cb_accountId b := a']> (accounts st)
    /\ same_plan a a'.
Proof.
  unfold create_commit. cbn [fst accounts audit_create account_save deposit_insert].
  eexists. split; [reflexivity|]. cbn zeta. plan_kept.
Qed.

Lemma update_reconcile_plan now u d' a T st :
  exists a',
    accounts (fst (update_reconcile now u d' a T st)) = <[d_accountId d' := a']> (accounts st)
    /\ same_plan a a'.
Proof.
  unfold update_reconcile. cbn [fst accounts audit_create account_save deposit_save].
  eexists. split; [reflexivity|]. cbn zeta. plan_kept.
Qed.

Lemma delete_commit_plan u deposit a st :
  exists a',
    accounts (fst (delete_commit u deposit a st)) = <[d_accountId deposit := a']> (accounts st)
    /\ same_plan a a'.
Proof.
  unfold delete_commit. cbn [fst accounts audit_create account_save deposit_delete].
  eexists. split; [reflexivity|]. cbn zeta. plan_kept.
Qed.

(** An operation leaves the account collection as it is or saves one
    existing account with its plan unchanged. *)
Lemma step_accounts (op : Op) (st : Store) :
  accounts (fst (step op st)) = accounts st
  \/ exists aid a a',
       accounts st !! aid = Some a
       /\ accounts (fst (step op st)) = <[aid := a']> (accounts st)
       /\ same_plan a a'.
Proof.
  destruct op as [now sc u b | now u id b | u id]; cbn [step].
  - destruct (createDeposit_result now sc u b st) as
      [r code msg Hr | a T msg Ha HT Hfit Hmat | msg | a s f T Ha HT Hpos Hfit Hmat Hnone].
    + left. reflexivity.
    + right. exists (cb_accountId b), a, (set_status Matured a).
      split; [exact Ha | split; [reflexivity | apply same_plan_set_status, same_plan_refl]].
    + left. reflexivity.
    + right.
      destruct (create_commit_plan now u b (set_status s (set_isFullyPaid f a)) T st)
        as (a' & Hacc & Hplan).
      exists (cb_accountId b), a, a'. split; [exact Ha | split; [exact Hacc | exact Hplan]].
  - destruct (updateDeposit_result now u id b st) as
      [r code msg | msg | deposit a T Hfind Ha HT Hpos Hfit Hdate _];
      [left; reflexivity | left; reflexivity |].
    right. rewrite update_commit_reconcile by exact Hdate.
    destruct (update_reconcile_plan now u (updated_deposit b deposit a) a T st)
      as (a' & Hacc & Hplan).
    exists (d_accountId deposit), a, a'. split; [exact Ha | split; [exact Hacc | exact Hplan]].
  - destruct (deleteDeposit_result u id st) as [r code msg | deposit a f Hfind Ha];
      [left; reflexivity|].
    right. destruct (delete_commit_plan u deposit (set_isFullyPaid f a) st)
      as (a' & Hacc & Hplan).
    exists (d_accountId deposit), a, a'. split; [exact Ha | split; [exact Hacc | exact Hplan]].
Qed.

Lemma plans_kept_refl (st : Store) : plans_kept st st.
Proof. intros aid. destruct (accounts st !! aid); [apply same_plan_refl | exact I]. Qed.

Lemma plans_kept_trans (s1 s2 s3 : Store) :
  plans_kept s1 s2 -> plans_kept s2 s3 -> plans_kept s1 s3.
Proof.
  intros H12 H23 aid. specialize (H12 aid). specialize (H23 aid).
  destruct (accounts s1 !! aid), (accounts s2 !! aid), (accounts s3 !! aid);
    try contradiction; try exact I.
  eapply same_plan_trans; eassumption.
Qed.

Lemma step_plans_kept (op : Op) (st : Store) : plans_kept st (fst (step op st)).
Proof.
  destruct (step_accounts op st) as [Hsame | (aid0 & a & a' & Ha & Hacc & Hplan)];
    intros aid.
  - rewrite Hsame. destruct (accounts st !! aid); [apply same_plan_refl | exact I].
  - rewrite Hacc. destruct (decide (aid0 = aid)) as [<-|Hne].
    + rewrite lookup_insert_eq, Ha. exact Hplan.
    + rewrite lookup_insert_ne by exact Hne.
      destruct (accounts st !! aid); [apply same_plan_refl | exact I].
Qed.

Lemma step_users (op : Op) (st : Store) : users (fst (step op st)) = users st.
Proof.
  destruct op as [now sc u b | now u id b | u id]; cbn [step].
  - destruct (createDeposit_result now sc u b st); reflexivity.
  - destruct (updateDeposit_result now u id b st) as
      [r code msg | msg | deposit a T Hfind Ha HT Hpos Hfit Hdate _];
      [reflexivity | reflexivity |].
    rewrite update_commit_reconcile by exact Hdate. reflexivity.
  - destruct (deleteDeposit_result u id st); reflexivity.
Qed.

(** X1. Over any sequence of creates, updates and deletes no account is
    added or removed and every account keeps its owner, number, scheme,
    payment mode, payable total, plan parameters and maturity date; the
    users are left as they are; and a single operation changes at most one
    account. *)
Theorem operations_keep_account_plans (ops : list Op) (st : Store) :
  plans_kept st (run ops st)
  /\ users (run ops st) = users st
  /\ forall op, exists aid0, forall aid, aid <> aid0 ->
       accounts (fst (step op st)) !! aid = accounts st !! aid.
Proof.
  split; [|split].
  - revert st. induction ops as [|op ops IH]; intros st; [apply plans_kept_refl|].
    cbn [run foldl]. eapply plans_kept_trans; [apply step_plans_kept | apply IH].
  - revert st. induction ops as [|op ops IH]; intros st; [reflexivity|].
    cbn [run foldl]. etrans; [apply IH | apply step_users].
  - intros op. destruct (step_accounts op st) as [Hsame | (aid0 & a & a' & Ha & Hacc & _)].
    + exists 0%N. intros aid _. rewrite Hsame. reflexivity.
    + exists aid0. intros aid Hne. rewrite Hacc. apply lookup_insert_ne. congruence.
Qed.

(** X2. A create, update or delete that does not answer with a success
    writes no deposit; it leaves the accounts as they are too, except for a
    create turned away at the maturity gate, which saves the account of the
    request with status Matured and nothing else changed. *)
Theorem failed_operation_writes_nothing (op : Op) (st : Store) :
  (forall code msg, snd (step op st) <> Responded code msg) ->
  deposits (fst (step op st)) = deposits st
  /\ next_id (fst (step op st)) = next_id st
  /\ (accounts (fst (step op st)) = accounts st
      \/ exists now sc u b a,
           op = OpCreate now sc u b
           /\ accounts st !! cb_accountId b = Some a
           /\ dt_leb (a_maturityDate a) now = true
           /\ accounts (fst (step op st))
              = <[cb_accountId b := set_status Matured a]> (accounts st)).
Proof.
  destruct op as [now sc u b | now u id b | u id]; cbn [step]; intros Hfail.
  - destruct (createDeposit_result now sc u b st) as
      [r code msg Hr | a T msg Ha HT Hfit Hmat | msg | a s f T Ha HT Hpos Hfit Hmat Hnone].
    + repeat split. left. reflexivity.
    + repeat split. right. exists now, sc, u, b, a. repeat split; assumption.
    + repeat split. left. reflexivity.
    + exfalso. eapply Hfail. reflexivity.
  - destruct (updateDeposit_result now u id b st) as
      [r code msg | msg | deposit a T Hfind Ha HT Hpos Hfit Hdate _].
    + repeat split. left. reflexivity.
    + repeat split. left. reflexivity.
    + exfalso. rewrite update_commit_reconcile in Hfail by exact Hdate.
      eapply Hfail. reflexivity.
  - destruct (deleteDeposit_result u id st) as [r code msg | deposit a f Hfind Ha].
    + repeat split. left. reflexivity.
    + exfalso. eapply Hfail. reflexivity.
Qed.

(** ** The audit log only grows *)

Lemma step_audit (op : Op) (st : Store) :
  exists new, audit (fst (step op st)) = audit st ++ new /\ (length new <= 2)%nat.
Proof.
  destruct op as [now sc u b | now u id b | u id]; cbn [step].
  - pose proof (create_audit now sc u b st) as H.
    destruct (snd (createDeposit now sc u b st)).
    + destruct H as (ev & -> & _). exists [ev]. split; [reflexivity | cbn; lia].
    + destruct H as (r & ->). eexists [_]. split; [reflexivity | cbn; lia].
    + exists []. rewrite app_nil_r. split; [exact H | cbn; lia].
  - pose proof (update_audit now u id b st) as H.
    destruct (snd (updateDeposit now u id b st)).
    + destruct H as (ev & -> & _). exists [ev]. split; [reflexivity | cbn; lia].
    + destruct H as (r & ->). eexists [_]. split; [reflexivity | cbn; lia].
    + exists []. rewrite app_nil_r. split; [exact H | cbn; lia].
  - pose proof (delete_audit u id st) as H.
    destruct (snd (deleteDeposit u id st)).
    + destruct H as (e1 & e2 & -> & _). exists [e1; e2]. split; [reflexivity | cbn; lia].
    + destruct H as (r & ->). eexists [_]. split; [reflexivity | cbn; lia].
    + exists []. rewrite app_nil_r. split; [exact H | cbn; lia].
Qed.

Lemma run_audit (ops : list Op) (st : Store) :
  exists new, audit (run ops st) = audit st ++ new
              /\ (length new <= 2 * length ops)%nat.
Proof.
  revert st. induction ops as [|op ops IH]; intros st.
  - exists []. rewrite app_nil_r. split; [reflexivity | cbn; lia].
  - cbn [run foldl]. destruct (step_audit op st) as (n1 & H1 & L1).
    destruct (IH (fst (step op st))) as (n2 & H2 & L2).
    exists (n1 ++ n2). unfold run in H2. rewrite H2, H1, app_assoc, length_app.
    split; [reflexivity | cbn [length]; lia].
Qed.

Lemma bulk_chunk_audit now sc u items acc :
  exists new, audit (bk_store (bulk_chunk now sc u items acc))
              = audit (bk_store acc) ++ new
              /\ (length new <= length items)%nat.
Proof.
  unfold bulk_chunk. revert acc. induction items as [|d items IH]; intros acc; cbn [foldl].
  - exists []. rewrite app_nil_r. split; [reflexivity | cbn; lia].
  - destruct (IH (bulk_item now sc u d acc)) as (n2 & H2 & L2).
    destruct (bulk_item_logged now sc u d acc) as [(H1 & _) | (ev & H1 & _)].
    + exists n2. rewrite H2, H1. split; [reflexivity | cbn [length]; lia].
    + exists (ev :: n2). rewrite H2, H1, <- app_assoc.
      split; [reflexivity | cbn [length]; lia].
Qed.

(** X3. The audit log is append-only: after any sequence of creates, updates
    and deletes the log starts with the log as it was, followed by at most
    two new events per operation; after a bulk create it starts with the
    log as it was, followed by at most one new event per item. *)
Theorem audit_log_only_grows :
  (forall ops st,
     exists new, audit (run ops st) = audit st ++ new
                 /\ (length new <= 2 * length ops)%nat)
  /\ (forall now sc u items st,
        exists new, audit (fst (bulkCreateDeposits now sc u items st)) = audit st ++ new
                    /\ (length new <= length items)%nat).
Proof.
  split; [apply run_audit|].
  intros now sc u items st. unfold bulkCreateDeposits.
  destruct (length items =? 0)%nat;
    [exists []; rewrite app_nil_r; split; [reflexivity | cbn; lia]|].
  destruct (negb _); [exists []; rewrite app_nil_r; split; [reflexivity | cbn; lia]|].
  cbn [fst]. rewrite bulk_rounds_all by (rewrite drop_0; reflexivity).
  rewrite drop_0. apply bulk_chunk_audit.
Qed.

(** ** How an operation changes the deposits *)

Lemma failed_step_deposits (op : Op) (st : Store) :
  (forall code msg, snd (step op st) <> Responded code msg) ->
  deposits (fst (step op st)) = deposits st.
Proof.
  destruct op as [now sc u b | now u id b | u id]; cbn [step]; intros Hfail.
  - destruct (createDeposit_result now sc u b st); try reflexivity.
    exfalso. eapply Hfail. reflexivity.
  - destruct (updateDeposit_result now u id b st) as
      [r code msg | msg | deposit a T Hfind Ha HT Hpos Hfit Hdate _]; try reflexivity.
    exfalso. rewrite update_commit_reconcile in Hfail by exact Hdate.
    eapply Hfail. reflexivity.
  - destruct (deleteDeposit_result u id st); try reflexivity.
    exfalso. eapply Hfail. reflexivity.
Qed.

Lemma step_deposits_effect (op : Op) (st : Store) :
  deposits_effect op st (deposits (fst (step op st))).
Proof.
  destruct (snd (step op st)) as [code msg | code msg | msg] eqn:Hout.
  - destruct op as [now sc u b | now u id b | u id]; cbn [step] in *.
    + apply create_success_admits in Hout
        as (a & T & Ha & _ & HT & Hpos & Hfit & _ & Hadm & ->).
      rewrite create_commit_deposits. eapply de_created; eauto.
    + apply update_success_admits in Hout
        as (deposit & a & T & _ & Hd & Ha & HT & Hpos & Hfit & _ & Hadm & ->).
      rewrite update_reconcile_deposits. apply findById_some in Hd as [Hin Hid].
      eapply de_updated; eauto.
    + apply delete_success in Hout as (deposit & a & _ & Hd & Ha & _ & ->).
      rewrite delete_commit_deposits. apply findById_some in Hd as [Hin Hid].
      eapply de_deleted; eauto.
  - rewrite failed_step_deposits; [constructor|]. intros c m. rewrite Hout. discriminate.
  - rewrite failed_step_deposits; [constructor|]. intros c m. rewrite Hout. discriminate.
Qed.


(** ** Deposits follow the plan of their account *)

Lemma plan_amount_kept (a a' : Account) (v : Z) :
  same_plan a a' -> plan_amount a v -> plan_amount a' v.
Proof.
  unfold plan_amount. intros (_ & _ & _ & Hm & HT & Hy & Hi & _) H.
  rewrite Hm, Hi, HT, Hy. exact H.
Qed.

Lemma step_follows_plan (op : Op) (st : Store) :
  amounts_follow_plan st -> amounts_follow_plan (fst (step op st)).
Proof.
  intros Hst. unfold amounts_follow_plan in *.
  assert (Hkept : forall d,
            (forall a, accounts st !! d_accountId d = Some a -> plan_amount a (d_amount d)) ->
            forall a', accounts (fst (step op st)) !! d_accountId d = Some a' ->
                       plan_amount a' (d_amount d)).
  { intros d Hd a' Ha'. pose proof (step_plans_kept op st (d_accountId d)) as Hp.
    rewrite Ha' in Hp. destruct (accounts st !! d_accountId d) as [a|]; [|contradiction].
    eapply plan_amount_kept; [exact Hp | apply Hd; reflexivity]. }
  assert (Hold : Forall (fun d => forall a', accounts (fst (step op st)) !! d_accountId d = Some a'
                                             -> plan_amount a' (d_amount d)) (deposits st)).
  { eapply Forall_impl; [exact Hst|]. exact Hkept. }
  destruct (step_deposits_effect op st) as
    [ | now sc u b a T _ Ha HT Hpos Hfit Hadm
      | now u id b deposit a T _ Hin Hid Ha HT Hpos Hfit Hadm
      | u id deposit a _ Hin Hid Ha ].
  - exact Hold.
  - apply Forall_app. split; [exact Hold|]. constructor; [|constructor].
    apply Hkept. cbn [new_deposit d_accountId d_amount]. intros a0 Ha0.
    assert (a0 = a) by congruence. subst a0.
    unfold create_mode_admits in Hadm. unfold plan_amount.
    destruct (a_paymentMode a); [exact I | | | exact I].
    + destruct Hadm as (inst & Hinst & _ & Hamt & _). congruence.
    + destruct Hadm as (_ & Hamt). intros T' HT'. congruence.
  - apply replace_deposit_Forall; [|exact Hold].
    apply Hkept. cbn [updated_deposit d_accountId d_amount]. intros a0 Ha0.
    assert (a0 = a) by congruence. subst a0.
    unfold update_mode_admits in Hadm. unfold plan_amount.
    destruct (a_paymentMode a); [exact I | | | exact I].
    + destruct Hadm as (inst & Hinst & _ & Hamt & _). congruence.
    + intros T' HT'. congruence.
  - apply Forall_filter_keep. exact Hold.
Qed.

(** X4. If every deposit of a Monthly account equals the account's
    installmentAmount and every deposit of a Yearly account equals its
    yearlyAmount (its totalPayableAmount when it has none), this is still so
    after any sequence of creates, updates and deletes. *)
Theorem deposits_keep_plan_amounts (ops : list Op) (st : Store) :
  amounts_follow_plan st ->
  forall d a, d ∈ deposits (run ops st) ->
    accounts (run ops st) !! d_accountId d = Some a ->
    match a_paymentMode a with
    | Monthly => a_installmentAmount a = Some (d_amount d)
    | Yearly =>
        forall T, a_totalPayableAmount a = Some T ->
                  d_amount d = default T (a_yearlyAmount a)
    | _ => True
    end.
Proof.
  intros Hst.
  assert (Hrun : amounts_follow_plan (run ops st)).
  { revert st Hst. induction ops as [|op ops IH]; intros st Hst; [exact Hst|].
    cbn [run foldl]. apply IH, step_follows_plan, Hst. }
  intros d a Hin Ha. unfold amounts_follow_plan in Hrun.
  rewrite Forall_forall in Hrun. exact (Hrun d Hin a Ha).
Qed.

(** ** Daily accounts stay within the monthly target *)

Lemma sum_after_replace (p : Deposit -> bool) (d d' : Deposit) (ds : list Deposit) :
  NoDup (map d_id ds) -> d ∈ ds -> d_id d' = d_id d ->
  sum_amounts (List.filter p (replace_deposit d' ds))
  = sum_amounts (List.filter (fun x => p x && not_id (d_id d) x) ds)
    + (if p d' then d_amount d' else 0).
Proof.
  intros Hnd Hin Hid. unfold replace_deposit. rewrite Hid.
  induction ds as [|x ds IH]; [inversion Hin|].
  cbn [map] in Hnd. apply NoDup_cons in Hnd as [Hx Hnd].
  cbn [map List.filter]. unfold not_id at 1.
  apply elem_of_cons in Hin as [<-|Hin].
  - rewrite N.eqb_refl, andb_false_r.
    assert (Hsame : map (fun y => if (d_id y =? d_id d)%N then d' else y) ds = ds).
    { clear IH Hnd. induction ds as [|y ds IH]; [reflexivity|].
      cbn [map]. destruct (N.eqb_spec (d_id y) (d_id d)) as [He|_].
      - exfalso. apply Hx. cbn [map]. rewrite He. left.
      - rewrite IH; [reflexivity|]. intros Hc. apply Hx. cbn [map]. right. exact Hc. }
    rewrite Hsame.
    assert (Hrest : List.filter (fun y => p y && not_id (d_id d) y) ds = List.filter p ds).
    { apply filter_ext_in_list. intros y Hy. unfold not_id.
      destruct (N.eqb_spec (d_id y) (d_id d)) as [He|_]; [|apply andb_true_r].
      exfalso. apply Hx. rewrite <- He. apply list_elem_of_fmap. eauto. }
    rewrite Hrest. destruct (p d'); [rewrite sum_amounts_cons|]; lia.
  - destruct (N.eqb_spec (d_id x) (d_id d)) as [He|_].
    + exfalso. apply Hx. rewrite He. apply list_elem_of_fmap. eauto.
    + rewrite andb_true_r. specialize (IH Hnd Hin).
      destruct (p x); [rewrite !sum_amounts_cons|]; lia.
Qed.

Lemma sum_filter_le (p q : Deposit -> bool) (ds : list Deposit) :
  (forall x, q x = true -> p x = true) ->
  Forall (fun d => 0 < d_amount d) ds ->
  sum_amounts (List.filter q ds) <= sum_amounts (List.filter p ds).
Proof.
  intros Hqp. induction 1 as [|x ds Hx _ IH]; [reflexivity|].
  cbn [List.filter]. destruct (q x) eqn:Hq.
  - rewrite (Hqp x Hq), !sum_amounts_cons. lia.
  - destruct (p x); [rewrite sum_amounts_cons|]; lia.
Qed.

Lemma sum_amounts_nil : sum_amounts [] = 0.
Proof. reflexivity. Qed.

Lemma sum_amounts_one (d : Deposit) : sum_amounts [d] = d_amount d.
Proof. rewrite sum_amounts_cons, sum_amounts_nil. lia. Qed.

Lemma step_daily_capped (op : Op) (st : Store) :
  ids_fresh st -> amounts_positive st -> daily_capped st ->
  daily_capped (fst (step op st)).
Proof.
  intros (Hnd & _) Hamt Hcap aid a' M Ha' Hmode HM t.
  pose proof (step_plans_kept op st aid) as Hp. rewrite Ha' in Hp.
  destruct (accounts st !! aid) as [a|] eqn:Ha; [|contradiction].
  destruct Hp as (_ & _ & _ & Hm & _ & _ & _ & Ht & _).
  rewrite Hm in Hmode. rewrite Ht in HM.
  specialize (Hcap aid a M Ha Hmode HM). unfold month_sum in *.
  destruct (step_deposits_effect op st) as
    [ | now sc u b a0 T _ Ha0 HT Hpos Hfit Hadm
      | now u id b deposit a0 T _ Hin Hid Ha0 HT Hpos Hfit Hadm
      | u id deposit a0 _ Hin Hid Ha0 ].
  - apply Hcap.
  - rewrite filter_app_list, sum_amounts_app. cbn [List.filter].
    rewrite in_month_of_spec. cbn [new_deposit d_accountId d_date d_amount].
    destruct (N.eqb_spec (cb_accountId b) aid) as [He|_]; cbn [andb].
    + subst aid. assert (a0 = a) by congruence. subst a0.
      destruct (Z.eqb_spec (dt_ym now) (dt_ym t)) as [Hym|_].
      * unfold create_mode_admits in Hadm. rewrite Hmode in Hadm.
        destruct Hadm as (M' & HM' & _ & Hle). assert (M' = M) by congruence. subst M'.
        rewrite sum_amounts_one. cbn [new_deposit d_amount]. unfold month_sum in Hle.
        rewrite (filter_ext_in_list (in_month_of t (cb_accountId b))
                                    (in_month_of now (cb_accountId b)));
          [lia|]. intros x _. apply in_month_same. congruence.
      * rewrite sum_amounts_nil. specialize (Hcap t). lia.
    + rewrite sum_amounts_nil. specialize (Hcap t). lia.
  - rewrite (sum_after_replace _ deposit) by (assumption || reflexivity).
    rewrite in_month_of_spec. cbn [updated_deposit d_accountId d_date d_amount].
    assert (Hless : sum_amounts (List.filter
                      (fun x => in_month_of t aid x && not_id (d_id deposit) x) (deposits st))
                    <= sum_amounts (List.filter (in_month_of t aid) (deposits st))).
    { apply sum_filter_le; [|exact Hamt]. intros x Hx. apply andb_prop in Hx. tauto. }
    destruct (N.eqb_spec (d_accountId deposit) aid) as [He|_]; cbn [andb].
    + subst aid. assert (a0 = a) by congruence. subst a0.
      destruct (Z.eqb_spec (dt_ym (effective_date b deposit)) (dt_ym t)) as [Hym|_].
      * unfold update_mode_admits in Hadm. rewrite Hmode in Hadm.
        destruct Hadm as (M' & HM' & _ & Hle). assert (M' = M) by congruence. subst M'.
        unfold month_sum_without in Hle.
        rewrite (filter_ext_in_list
                   (fun x => in_month_of t (d_accountId deposit) x
                             && not_id (d_id deposit) x)
                   (fun x => in_month_of (effective_date b deposit) (d_accountId deposit) x
                             && not_id (d_id deposit) x));
          [lia|]. intros x _. f_equal. apply in_month_same. congruence.
      * specialize (Hcap t). lia.
    + specialize (Hcap t). lia.
  - rewrite filter_delete. specialize (Hcap t).
    assert (Hless : sum_amounts (List.filter
                      (fun x => in_month_of t aid x && not_id (d_id deposit) x) (deposits st))
                    <= sum_amounts (List.filter (in_month_of t aid) (deposits st))).
    { apply sum_filter_le; [|exact Hamt]. intros x Hx. apply andb_prop in Hx. tauto. }
    lia.
Qed.


(** ** Yearly accounts are paid once *)

Lemma create_commit_yearly now u b a T st :
  a_paymentMode a = Yearly ->
  exists a',
    accounts (fst (create_commit now u b (set_status OnTrack (set_isFullyPaid true a)) T st))
      !! cb_accountId b = Some a'
    /\ a_isFullyPaid a' = true
    /\ a_status a' = OnTrack
    /\ a_balance a' = a_balance a + cb_amount b
    /\ same_plan a a'.
Proof.
  intros Hmode. unfold create_commit.
  cbn [fst accounts audit_create account_save deposit_insert].
  rewrite lookup_insert_eq. eexists. split; [reflexivity|].
  cbn [set_status set_isFullyPaid set_balance a_status a_balance a_paymentMode
       a_isFullyPaid].
  rewrite (bool_decide_eq_false_2 (OnTrack = Inactive)) by discriminate.
  rewrite andb_false_r. rewrite (bool_decide_eq_true_2 _ Hmode).
  destruct (T <=? _); repeat split.
Qed.

(** X6. A create that succeeds on a Yearly account was for exactly the
    yearly amount (the payable total when the account has none) and leaves
    the account fully paid and OnTrack, its balance raised by the amount;
    no create on that account can succeed on the store it leaves. *)
Theorem yearly_account_paid_once now sc u b st a code msg :
  accounts st !! cb_accountId b = Some a ->
  a_paymentMode a = Yearly ->
  snd (createDeposit now sc u b st) = Responded code msg ->
  (exists T, a_totalPayableAmount a = Some T
             /\ cb_amount b = default T (a_yearlyAmount a))
  /\ (exists a', accounts (fst (createDeposit now sc u b st)) !! cb_accountId b = Some a'
                 /\ a_isFullyPaid a' = true /\ a_status a' = OnTrack
                 /\ a_balance a' = a_balance a + cb_amount b)
  /\ forall now' sc' u' b' code' msg',
       cb_accountId b' = cb_accountId b ->
       snd (createDeposit now' sc' u' b' (fst (createDeposit now sc u b st)))
       <> Responded code' msg'.
Proof.
  intros Ha Hmode Hok.
  apply create_success_admits in Hok
    as (a0 & T & Ha0 & _ & HT & _ & _ & _ & Hadm & Heq).
  assert (a0 = a) by congruence. subst a0.
  unfold create_mode_admits in Hadm. rewrite Hmode in Hadm. destruct Hadm as (_ & Hamt).
  unfold create_prepared in Heq. rewrite Hmode in Heq. rewrite Heq.
  destruct (create_commit_yearly now u b a T st Hmode)
    as (a' & Ha' & Hpaid & Hstat & Hbal & Hplan).
  split; [exists T; auto|]. split; [exists a'; auto|].
  intros now' sc' u' b' code' msg' Hsame Hok'.
  apply create_success_admits in Hok'
    as (a1 & T1 & Ha1 & _ & _ & _ & _ & _ & Hadm1 & _).
  rewrite Hsame, Ha' in Ha1. injection Ha1 as <-.
  unfold create_mode_admits in Hadm1.
  destruct Hplan as (_ & _ & _ & Hm & _). rewrite Hm, Hmode in Hadm1.
  destruct Hadm1 as (Hnot & _). congruence.
Qed.

(** ** Create, then delete *)

Lemma filter_all_kept {A} (p : A -> bool) (l : list A) :
  (forall x, x ∈ l -> p x = true) -> List.filter p l = l.
Proof.
  induction l as [|x l IH]; intros H; [reflexivity|].
  cbn [List.filter]. rewrite (H x) by left. f_equal. apply IH.
  intros y Hy. apply H. right. exact Hy.
Qed.

Lemma findById_fresh (id : Id) (d : Deposit) (ds : list Deposit) :
  (forall x, x ∈ ds -> d_id x <> id) -> d_id d = id ->
  findById id (ds ++ [d]) = Some d.
Proof.
  intros Hfresh Hid. unfold findById.
  induction ds as [|x ds IH]; cbn [app List.find].
  - rewrite Hid, N.eqb_refl. reflexivity.
  - destruct (N.eqb_spec (d_id x) id) as [He|_].
    + exfalso. exact (Hfresh x (list_elem_of_here _ _) He).
    + apply IH. intros y Hy. apply Hfresh. right. exact Hy.
Qed.

(** X7. On a consistent ledger, after a create that succeeds on an account
    that is not Yearly, an Admin's delete of the deposit just created
    succeeds and gives back the deposit collection as it was before the
    create, and the account with its plan and its balance of before. *)
Theorem create_then_delete_restores now sc u b st a admin code msg :
  ledger_consistent st ->
  c_role admin = Admin ->
  accounts st !! cb_accountId b = Some a ->
  a_paymentMode a <> Yearly ->
  snd (createDeposit now sc u b st) = Responded code msg ->
  let st1 := fst (createDeposit now sc u b st) in
  let res := deleteDeposit admin (next_id st) st1 in
  snd res = Responded 200 "Deposit deleted successfully and account balance adjusted"
  /\ deposits (fst res) = deposits st
  /\ exists a2, accounts (fst res) !! cb_accountId b = Some a2
                /\ a_balance a2 = a_balance a
                /\ same_plan a a2.
Proof.
  intros ((Hnd & Hlt) & Hamt & Hrec) Hrole Ha Hmode Hok st1 res. subst st1 res.
  apply create_success_admits in Hok
    as (a0 & T & Ha0 & _ & HT & Hpos & _ & _ & _ & Heq).
  assert (a0 = a) by congruence. subst a0. rewrite Heq.
  set (a1 := create_prepared now b a st).
  set (nd := new_deposit now u b a1 st).
  set (st1 := fst (create_commit now u b a1 T st)).
  destruct (create_commit_plan now u b a1 T st) as (a' & Hacc & Hplan).
  assert (Hplan1 : same_plan a a1).
  { unfold a1, create_prepared. destruct (a_paymentMode a); plan_kept. }
  assert (Hplan' : same_plan a a') by (eapply same_plan_trans; eassumption).
  assert (Hfresh : forall x, x ∈ deposits st -> d_id x <> next_id st).
  { intros x Hx. rewrite Forall_forall in Hlt. specialize (Hlt x Hx). cbn beta in Hlt. lia. }
  assert (Hfind : findById (next_id st) (deposits st1) = Some nd).
  { unfold st1. rewrite create_commit_deposits. apply findById_fresh; [exact Hfresh|].
    reflexivity. }
  assert (Hlook : accounts st1 !! d_accountId nd = Some a').
  { unfold st1. rewrite Hacc. apply lookup_insert_eq. }
  assert (Hmode' : a_paymentMode a' <> Yearly).
  { destruct Hplan' as (_ & _ & _ & Hm & _). congruence. }
  unfold deleteDeposit. rewrite (bool_decide_eq_true_2 _ Hrole). cbn [negb].
  rewrite Hfind, Hlook. rewrite (bool_decide_eq_false_2 _ Hmode').
  assert (Hback : List.filter (fun x => negb (d_id x =? d_id nd)%N) (deposits st1)
                  = deposits st).
  { unfold st1. rewrite create_commit_deposits, filter_app_list. cbn [List.filter].
    fold nd. rewrite N.eqb_refl. cbn [negb]. rewrite app_nil_r.
    apply filter_all_kept. intros x Hx. apply negb_true_iff, N.eqb_neq.
    exact (Hfresh x Hx). }
  split; [reflexivity|]. split; [rewrite delete_commit_deposits; exact Hback|].
  destruct (delete_commit_accounts admin nd a' st1) as (a2 & Hacc2 & Hbal2 & _ & _).
  destruct (delete_commit_plan admin nd a' st1) as (a2' & Hacc2' & Hplan2).
  assert (a2' = a2).
  { assert (H : accounts (fst (delete_commit admin nd a' st1)) !! d_accountId nd = Some a2')
      by (rewrite Hacc2'; apply lookup_insert_eq).
    rewrite Hacc2, lookup_insert_eq in H. congruence. }
  subst a2'. exists a2. split; [rewrite Hacc2; apply lookup_insert_eq|].
  split; [|eapply same_plan_trans; eassumption].
  rewrite Hbal2, <- filter_delete, Hback.
  destruct (Hrec _ _ Ha) as [Hb _]. fold (collected (d_accountId nd) st).
  change (d_accountId nd) with (cb_accountId b). rewrite <- Hb.
  assert (0 <= a_balance a).
  { rewrite Hb. apply sum_amounts_nonneg, Forall_filter_keep. exact Hamt. }
  lia.
Qed.

(** ** The status a delete leaves *)

Lemma count_without (p : Deposit -> bool) (d : Deposit) (ds : list Deposit) :
  NoDup (map d_id ds) -> d ∈ ds -> p d = true ->
  S (length (List.filter (fun x => p x && not_id (d_id d) x) ds))
  = length (List.filter p ds).
Proof.
  intros Hnd Hin Hp.
  induction ds as [|x ds IH]; [inversion Hin|].
  cbn [map] in Hnd. apply NoDup_cons in Hnd as [Hx Hnd].
  cbn [List.filter]. unfold not_id at 1.
  apply elem_of_cons in Hin as [<-|Hin].
  - rewrite N.eqb_refl, Hp. cbn [negb andb length]. f_equal. f_equal.
    apply filter_ext_in_list. intros y Hy. unfold not_id.
    destruct (N.eqb_spec (d_id y) (d_id d)) as [He|_]; [|apply andb_true_r].
    exfalso. apply Hx. rewrite <- He. apply list_elem_of_fmap. exists y.
    split; [reflexivity | exact Hy].
  - specialize (IH Hnd Hin).
    destruct (N.eqb_spec (d_id x) (d_id d)) as [He|_].
    + exfalso. apply Hx. rewrite He. apply list_elem_of_fmap. exists d.
      split; [reflexivity | exact Hin].
    + cbn [negb]. rewrite andb_true_r. destruct (p x); cbn [length]; lia.
Qed.

(** X8. On a consistent ledger whose Monthly accounts have at most one
    deposit a month and whose Daily accounts are within their monthly
    target, a delete that succeeds on an account with a payable total never
    leaves the account OnTrack: a Monthly or Daily account becomes Pending,
    any other account Active or Inactive as its new balance is positive or
    not, and a Yearly account is no longer marked fully paid.  The new
    balance is the old one less the deleted amount. *)
Theorem delete_reopens_account u id st code msg :
  ledger_consistent st -> monthly_exclusive st -> daily_capped st ->
  snd (deleteDeposit u id st) = Responded code msg ->
  exists deposit a a',
    findById id (deposits st) = Some deposit
    /\ accounts st !! d_accountId deposit = Some a
    /\ accounts (fst (deleteDeposit u id st)) !! d_accountId deposit = Some a'
    /\ a_balance a' = a_balance a - d_amount deposit
    /\ (is_Some (a_totalPayableAmount a) ->
        a_status a' = match a_paymentMode a with
                      | Monthly | Daily => Pending
                      | _ => if 0 <? a_balance a' then Active else Inactive
                      end
        /\ (a_paymentMode a = Yearly -> a_isFullyPaid a' = false)).
Proof.
  intros ((Hnd & Hlt) & Hamt & Hrec) Hexcl Hcap Hok.
  apply delete_success in Hok as (deposit & a & _ & Hfind & Ha & _ & Heq).
  exists deposit, a. rewrite Heq.
  destruct (findById_some _ _ _ Hfind) as [Hin _].
  destruct (Hrec _ _ Ha) as [Hbal Hle].
  set (aid := d_accountId deposit) in *.
  assert (Hown : by_account aid deposit = true) by apply N.eqb_refl.
  assert (Hpos : 0 < d_amount deposit).
  { unfold amounts_positive in Hamt. rewrite Forall_forall in Hamt. exact (Hamt _ Hin). }
  assert (Hsum : sum_amounts (List.filter (fun d => by_account aid d
                                                   && not_id (d_id deposit) d) (deposits st))
                 = a_balance a - d_amount deposit).
  { rewrite (sum_without (by_account aid) deposit _ Hnd Hin Hown), Hbal. reflexivity. }
  assert (Hrest : 0 <= a_balance a - d_amount deposit).
  { rewrite <- Hsum. apply sum_amounts_nonneg, Forall_filter_keep. exact Hamt. }
  assert (Hinm : in_month_of (d_date deposit) aid deposit = true).
  { rewrite in_month_of_spec. fold (by_account aid deposit). rewrite Hown, Z.eqb_refl.
    reflexivity. }
  assert (Hwin : forall l : list Deposit,
             List.filter (fun d => by_account aid d && not_id (d_id deposit) d
                                   && dated (startOfMonth (d_date deposit))
                                            (endOfMonth (d_date deposit)) d) l
             = List.filter (fun d => in_month_of (d_date deposit) aid d
                                     && not_id (d_id deposit) d) l).
  { intros l. apply filter_ext_in_list. intros x _. unfold in_month_of.
    destruct (by_account aid x), (not_id (d_id deposit) x), (dated _ _ x); reflexivity. }
  set (a0 := delete_prepared deposit a st).
  assert (Hplan0 : same_plan a a0).
  { unfold a0, delete_prepared. destruct (_ && _ && _); plan_kept. }
  destruct Hplan0 as (_ & _ & _ & Hm0 & HT0 & Hy0 & _ & HM0 & _).
  unfold delete_commit.
  cbn [fst accounts audit_create account_save deposit_delete deposits].
  fold aid. rewrite lookup_insert_eq. rewrite !total_of_aggregate, Hsum.
  eexists. split; [exact Hfind|]. split; [exact Ha|]. split; [reflexivity|].
  rewrite Hm0, HT0, Hy0, HM0.
  split.
  { destruct (a_paymentMode a); cbn beta iota zeta;
      match goal with |- a_balance (if ?c then _ else _) = _ => destruct c end;
      destruct (bool_decide _);
      cbn [a_balance set_isFullyPaid set_status set_balance]; lia. }
  intros [T HT]. rewrite HT. cbn [first_defined].
  assert ((T <=? a_balance a - d_amount deposit) = false) as ->.
  { apply Z.leb_gt. specialize (Hle T HT). lia. }
  destruct (a_paymentMode a) eqn:Hmode.
  - (* Daily *)
    rewrite (bool_decide_eq_false_2 (Daily = Yearly)) by discriminate.
    split; [|discriminate].
    cbn [a_status set_status]. rewrite Hwin.
    rewrite (sum_without (in_month_of (d_date deposit) aid) deposit _ Hnd Hin Hinm).
    destruct (a_monthlyTarget a) as [M|] eqn:HM; cbn [truthy andb]; [|reflexivity].
    specialize (Hcap aid a M Ha Hmode HM (d_date deposit)). unfold month_sum in Hcap.
    cbn [default from_option Datatypes.id].
    assert ((M <=? sum_amounts (List.filter (in_month_of (d_date deposit) aid) (deposits st))
                   - d_amount deposit) = false) as -> by (apply Z.leb_gt; lia).
    rewrite andb_false_r. reflexivity.
  - (* Monthly *)
    rewrite (bool_decide_eq_false_2 (Monthly = Yearly)) by discriminate.
    split; [|discriminate].
    cbn [a_status set_status]. unfold countDocuments. rewrite Hwin.
    specialize (Hexcl aid a Ha Hmode (d_date deposit)). unfold countDocuments in Hexcl.
    pose proof (count_without (in_month_of (d_date deposit) aid) deposit _ Hnd Hin Hinm)
      as Hc.
    destruct (List.filter (fun d => in_month_of (d_date deposit) aid d
                                    && not_id (d_id deposit) d) (deposits st)) eqn:Hf;
      [reflexivity|].
    cbn [length] in Hc. lia.
  - (* Yearly *)
    rewrite (bool_decide_eq_true_2 (Yearly = Yearly)) by reflexivity.
    split; [|intros _]; reflexivity.
  - rewrite (bool_decide_eq_false_2 (ModeOther = Yearly)) by discriminate.
    split; [|discriminate]. reflexivity.
Qed.

(** ** Worked instances of the further properties *)

Lemma opened_follows_plan : amounts_follow_plan Sample.opened.
Proof. constructor. Qed.

Lemma opened_positive : amounts_positive Sample.opened.
Proof. constructor. Qed.

Lemma opened_capped : daily_capped Sample.opened.
Proof.
  intros aid a M H Hmode HM t. change (0 <= M).
  unfold Sample.opened in H. cbn [accounts] in H.
  repeat (apply lookup_insert_Some in H as [[<- <-]|[_ H]];
          [first [discriminate Hmode | injection HM as <-; lia]|]).
  rewrite lookup_empty in H. discriminate.
Qed.

(** X2 on a create turned away at the maturity gate. *)
Lemma failed_operation_witness :
  let op := OpCreate Sample.jan Sample.no_scope Sample.admin (Sample.pay 4 100) in
  snd (step op Sample.opened)
  = RaisedError 400 "Account has matured, no more deposits allowed"
  /\ deposits (fst (step op Sample.opened)) = []
  /\ next_id (fst (step op Sample.opened)) = 1%N.
Proof.
  intros op. split; [vm_compute; reflexivity|].
  assert (H : forall code msg, snd (step op Sample.opened) <> Responded code msg)
    by (intros code msg; vm_compute; discriminate).
  destruct (failed_operation_writes_nothing op Sample.opened H) as (Hd & Hn & _).
  split; [exact Hd | exact Hn].
Defined.

(** X4 on two installments of the Monthly account. *)
Lemma plan_amounts_witness :
  let ops := [OpCreate Sample.jan Sample.no_scope Sample.admin (Sample.pay 1 100);
              OpCreate Sample.feb Sample.no_scope Sample.admin (Sample.pay 1 100)] in
  amounts_follow_plan Sample.opened
  /\ forall d a, d ∈ deposits (run ops Sample.opened) ->
       accounts (run ops Sample.opened) !! d_accountId d = Some a ->
       match a_paymentMode a with
       | Monthly => a_installmentAmount a = Some (d_amount d)
       | Yearly =>
           forall T, a_totalPayableAmount a = Some T ->
                     d_amount d = default T (a_yearlyAmount a)
       | _ => True
       end.
Proof.
  intros ops. split; [exact opened_follows_plan|].
  exact (deposits_keep_plan_amounts ops Sample.opened opened_follows_plan).
Defined.


(** X6 on the single payment of the Yearly account. *)
Lemma yearly_paid_once_witness :
  (exists a', accounts Sample.yearly_paid !! 3%N = Some a'
              /\ a_isFullyPaid a' = true /\ a_status a' = OnTrack
              /\ a_balance a' = 0 + 5000)
  /\ forall code msg,
       snd (createDeposit Sample.feb Sample.no_scope Sample.admin (Sample.pay 3 5000)
                          Sample.yearly_paid)
       <> Responded code msg.
Proof.
  destruct (yearly_account_paid_once Sample.jan Sample.no_scope Sample.admin
              (Sample.pay 3 5000) Sample.opened Sample.acc_yearly
              201 "Deposit created successfully")
    as (_ & Hacc & Hnext).
  - reflexivity.
  - reflexivity.
  - vm_compute. reflexivity.
  - split; [exact Hacc|]. intros code msg.
    exact (Hnext Sample.feb Sample.no_scope Sample.admin (Sample.pay 3 5000) code msg
                 eq_refl).
Defined.

(** X7 on the January installment, created and deleted again. *)
Lemma create_then_delete_witness :
  ledger_consistent Sample.opened
  /\ deposits (fst (deleteDeposit Sample.admin 1 Sample.monthly_paid)) = []
  /\ exists a2, accounts (fst (deleteDeposit Sample.admin 1 Sample.monthly_paid)) !! 1%N
                = Some a2
                /\ a_balance a2 = 0
                /\ same_plan Sample.acc_monthly a2.
Proof.
  split; [exact opened_consistent|].
  refine (proj2 (create_then_delete_restores Sample.jan Sample.no_scope Sample.admin
                   (Sample.pay 1 100) Sample.opened Sample.acc_monthly Sample.admin
                   201 "Deposit created successfully" opened_consistent _ _ _ _)).
  - reflexivity.
  - reflexivity.
  - discriminate.
  - vm_compute. reflexivity.
Defined.

(** X8 on the delete of the January installment. *)
Lemma delete_reopens_witness :
  ledger_consistent Sample.monthly_paid
  /\ exists deposit a a',
       findById 1 (deposits Sample.monthly_paid) = Some deposit
       /\ accounts Sample.monthly_paid !! d_accountId deposit = Some a
       /\ accounts (fst (deleteDeposit Sample.admin 1 Sample.monthly_paid))
            !! d_accountId deposit = Some a'
       /\ a_balance a' = a_balance a - d_amount deposit
       /\ (is_Some (a_totalPayableAmount a) ->
           a_status a' = match a_paymentMode a with
                         | Monthly | Daily => Pending
                         | _ => if 0 <? a_balance a' then Active else Inactive
                         end
           /\ (a_paymentMode a = Yearly -> a_isFullyPaid a' = false)).
Proof.
  assert (Hc : ledger_consistent Sample.monthly_paid).
  { apply (create_preserves Sample.jan Sample.no_scope Sample.admin (Sample.pay 1 100)).
    exact opened_consistent. }
  split; [exact Hc|].
  refine (delete_reopens_account Sample.admin 1%N Sample.monthly_paid 200
            "Deposit deleted successfully and account balance adjusted" Hc _ _ _).
  - apply (step_exclusive
             (OpCreate Sample.jan Sample.no_scope Sample.admin (Sample.pay 1 100))
             Sample.opened opened_ids_fresh opened_exclusive).
  - apply (step_daily_capped
             (OpCreate Sample.jan Sample.no_scope Sample.admin (Sample.pay 1 100))
             Sample.opened opened_ids_fresh opened_positive opened_capped).
  - vm_compute. reflexivity.
Defined.

(** ** Batches *)







(** ** One payment per account and batch *)







(** ** Who writes deposits *)

Lemma scope_pass_admits sc u userId st :
  agent_scope u userId st = Pass -> manager_scope sc u userId = Pass ->
  scope_admits sc u userId st.
Proof.
  unfold agent_scope, manager_scope, scope_admits. intros Hag Hman. split; intros Hr.
  - rewrite (bool_decide_eq_true_2 _ Hr) in Hag.
    destruct (users st !! userId) as [client|]; [|discriminate].
    destruct (u_assignedTo client) as [ag|] eqn:Has; [|discriminate].
    destruct (N.eqb_spec ag (c_id u)) as [->|]; [|discriminate].
    exists client. split; [reflexivity | exact Has].
  - rewrite (bool_decide_eq_true_2 _ Hr) in Hman.
    case_bool_decide; [assumption | discriminate].
Qed.

Lemma create_success_scope now sc u b st code msg :
  snd (createDeposit now sc u b st) = Responded code msg ->
  c_role u ∈ [Admin; Manager; Agent] /\ scope_admits sc u (cb_userId b) st.
Proof.
  unfold createDeposit, create_reject.
  case_bool_decide as Hrole; cbn [negb]; [|discriminate].
  destruct (cb_amount b <=? 0); [discriminate|].
  destruct (accounts st !! cb_accountId b) as [a|]; [|discriminate].
  destruct (negb _); [discriminate|].
  destruct (agent_scope u (cb_userId b) st) eqn:Hag; [|discriminate|discriminate].
  destruct (manager_scope sc u (cb_userId b)) eqn:Hman; [|discriminate|discriminate].
  intros _. split; [exact Hrole | apply scope_pass_admits; assumption].
Qed.

Lemma create_success_deposit now sc u b st code msg :
  snd (createDeposit now sc u b st) = Responded code msg ->
  exists a,
    accounts st !! cb_accountId b = Some a
    /\ a_userId a = cb_userId b
    /\ deposits (fst (createDeposit now sc u b st))
       = deposits st ++ [mkDeposit (next_id st) now (cb_accountId b) (a_userId a)
                                   (a_schemeType a) (cb_amount b) (c_id u)].
Proof.
  intros Hok. apply create_success_admits in Hok
    as (a & T & Ha & Hu & _ & _ & _ & _ & _ & Heq).
  exists a. split; [exact Ha|]. split; [exact Hu|].
  rewrite Heq, create_commit_deposits. unfold new_deposit. rewrite Hu.
  assert (Hs : a_schemeType (create_prepared now b a st) = a_schemeType a).
  { unfold create_prepared. destruct (a_paymentMode a); reflexivity. }
  rewrite Hs. reflexivity.
Qed.

(** X11. A create that succeeds was sent by an Admin, a Manager or an
    Agent, for a client within the caller's scope (assigned to the Agent,
    among the Manager's clients) who owns the account; the one deposit it
    stores is dated with the server clock and carries that client, the
    account's scheme and the caller as collector.  An update or a delete
    that succeeds was sent by an Admin. *)
Theorem writes_are_authorized (op : Op) (st : Store) code msg :
  snd (step op st) = Responded code msg ->
  match op with
  | OpCreate now sc u b =>
      c_role u ∈ [Admin; Manager; Agent]
      /\ scope_admits sc u (cb_userId b) st
      /\ exists a,
           accounts st !! cb_accountId b = Some a
           /\ a_userId a = cb_userId b
           /\ deposits (fst (step op st))
              = deposits st ++ [mkDeposit (next_id st) now (cb_accountId b) (a_userId a)
                                          (a_schemeType a) (cb_amount b) (c_id u)]
  | OpUpdate _ u _ _ => c_role u = Admin
  | OpDelete u _ => c_role u = Admin
  end.
Proof.
  destruct op as [now sc u b | now u id b | u id]; cbn [step]; intros Hok.
  - destruct (create_success_scope _ _ _ _ _ _ _ Hok) as [Hrole Hscope].
    split; [exact Hrole|]. split; [exact Hscope|].
    exact (create_success_deposit _ _ _ _ _ _ _ Hok).
  - apply update_success_admits in Hok as (deposit & a & T & Hrole & _). exact Hrole.
  - apply delete_success in Hok as (deposit & a & Hrole & _). exact Hrole.
Qed.

(** ** What a batch stores *)

Lemma bulk_item_stores now sc u d acc :
  exists new s,
    deposits (bk_store (bulk_item now sc u d acc)) = deposits (bk_store acc) ++ new
    /\ bk_success (bulk_item now sc u d acc) = bk_success acc ++ s
    /\ map deposit_entry new = map success_entry s
    /\ Forall (fun x => d_collectedBy x = c_id u /\ d_date x = now) new.
Proof.
  assert (Hnone : forall acc' : BulkAcc,
            deposits (bk_store acc') = deposits (bk_store acc) ->
            bk_success acc' = bk_success acc ->
            exists new s,
              deposits (bk_store acc') = deposits (bk_store acc) ++ new
              /\ bk_success acc' = bk_success acc ++ s
              /\ map deposit_entry new = map success_entry s
              /\ Forall (fun x => d_collectedBy x = c_id u /\ d_date x = now) new).
  { intros acc' Hd Hs. exists [], []. rewrite !app_nil_r.
    split; [exact Hd|]. split; [exact Hs|]. split; [reflexivity | constructor]. }
  unfold bulk_item.
  destruct (negb _); [apply Hnone; reflexivity|].
  destruct (accounts (bk_store acc) !! bi_accountId d) as [account|];
    [|apply Hnone; reflexivity].
  destruct (users (bk_store acc) !! a_userId account) as [client|];
    [|apply Hnone; reflexivity].
  destruct (alreadyDeposited _ _ _ _); [apply Hnone; reflexivity|].
  set (b := mkCreateBody (bi_accountId d) (a_userId account) (bi_amount d) None).
  pose proof (create_success_deposit now sc u b (bk_store acc)) as Hdep.
  destruct (create_deposits now sc u b (bk_store acc)) as [[Hok _] | [Hfail Hsame]].
  - destruct (Hdep _ _ Hok) as (a & _ & _ & Hnew).
    destruct (createDeposit now sc u b (bk_store acc)) as [st' out].
    cbn [fst snd] in *. subst out. cbn [Z.eqb Pos.eqb].
    eexists _, _. cbn [push_success bk_store bk_success].
    split; [exact Hnew|]. split; [reflexivity|]. split; [reflexivity|].
    constructor; [split; reflexivity | constructor].
  - destruct (createDeposit now sc u b (bk_store acc)) as [st' out].
    cbn [fst snd] in *.
    destruct out as [code message | code message | message];
      [exfalso; exact (Hfail code message eq_refl) | |];
      (apply Hnone; [exact Hsame | reflexivity]).
Qed.

Lemma bulk_chunk_stores now sc u items acc :
  exists new s,
    deposits (bk_store (bulk_chunk now sc u items acc)) = deposits (bk_store acc) ++ new
    /\ bk_success (bulk_chunk now sc u items acc) = bk_success acc ++ s
    /\ map deposit_entry new = map success_entry s
    /\ Forall (fun x => d_collectedBy x = c_id u /\ d_date x = now) new.
Proof.
  unfold bulk_chunk. revert acc. induction items as [|d items IH]; intros acc; cbn [foldl].
  - exists [], []. rewrite !app_nil_r. repeat split; constructor.
  - destruct (IH (bulk_item now sc u d acc)) as (n2 & s2 & Hd2 & Hs2 & He2 & Hf2).
    destruct (bulk_item_stores now sc u d acc) as (n1 & s1 & Hd1 & Hs1 & He1 & Hf1).
    exists (n1 ++ n2), (s1 ++ s2). rewrite Hd2, Hs2, Hd1, Hs1, !app_assoc, !map_app, He1, He2.
    split; [reflexivity|]. split; [reflexivity|]. split; [reflexivity|].
    apply Forall_app. split; assumption.
Qed.

(** X12. What a batch answered with a report has stored is what the report
    lists as successes: the deposit collection grew by one deposit for every
    success record, in the same order and for the same account and amount,
    each collected by the caller and dated with the clock of the batch; the
    items reported as failed stored nothing. *)
Theorem bulk_stores_its_successes now sc u (items : list BulkItem) (st : Store)
    (report : BulkReport) :
  snd (bulkCreateDeposits now sc u items st) = BulkDone report ->
  exists new,
    deposits (fst (bulkCreateDeposits now sc u items st)) = deposits st ++ new
    /\ map deposit_entry new = map success_entry (successAccounts report)
    /\ length new = successCount report
    /\ Forall (fun d => d_collectedBy d = c_id u /\ d_date d = now) new.
Proof.
  intros Hdone.
  assert (Hne : items <> []).
  { intros ->. discriminate Hdone. }
  assert (Hrole : c_role u = Agent).
  { unfold bulkCreateDeposits in Hdone.
    destruct (length items =? 0)%nat; [discriminate|].
    case_bool_decide; [assumption | discriminate]. }
  rewrite (bulk_store_is_chunk now sc u items st Hne Hrole) in Hdone |- *.
  cbn zeta in *. cbn [fst snd] in *. injection Hdone as <-.
  cbn [successAccounts successCount].
  destruct (bulk_chunk_stores now sc u items (mkBulkAcc st [] [] ∅))
    as (new & s & Hd & Hs & He & Hf).
  cbn [bk_store bk_success app] in Hd, Hs.
  exists new. rewrite Hs. split; [exact Hd|]. split; [exact He|]. split; [|exact Hf].
  rewrite <- (length_map deposit_entry new), He, length_map. reflexivity.
Qed.

(** ** Worked instances on the batch of three *)

Lemma batch_report :
  snd (bulkCreateDeposits Sample.jan Sample.no_scope Sample.agent Sample.batch Sample.opened)
  = BulkDone
      (let acc := bulk_chunk Sample.jan Sample.no_scope Sample.agent Sample.batch
                             (mkBulkAcc Sample.opened [] [] ∅) in
       mkBulkReport (length Sample.batch) (length (bk_success acc))
                    (length (bk_failed acc)) (bk_failed acc)
                    (bk_success acc) (bk_summary acc)).
Proof. rewrite bulk_store_is_chunk; [reflexivity | discriminate | reflexivity]. Qed.



(** X11 on the first installment. *)
Lemma authorized_write_witness :
  c_role Sample.admin ∈ [Admin; Manager; Agent]
  /\ scope_admits Sample.no_scope Sample.admin 7 Sample.opened
  /\ exists a, accounts Sample.opened !! 1%N = Some a
                /\ deposits Sample.monthly_paid
                   = [mkDeposit 1 Sample.jan 1 (a_userId a) (a_schemeType a) 100 100].
Proof.
  destruct (writes_are_authorized
              (OpCreate Sample.jan Sample.no_scope Sample.admin (Sample.pay 1 100))
              Sample.opened 201 "Deposit created successfully")
    as (Hrole & Hscope & a & Ha & _ & Hd).
  - vm_compute. reflexivity.
  - split; [exact Hrole|]. split; [exact Hscope|].
    exists a. split; [exact Ha | exact Hd].
Defined.

(** X12 on the batch of three. *)
Lemma bulk_stored_witness :
  exists report new,
    snd (bulkCreateDeposits Sample.jan Sample.no_scope Sample.agent Sample.batch
                            Sample.opened) = BulkDone report
    /\ deposits (fst (bulkCreateDeposits Sample.jan Sample.no_scope Sample.agent
                                         Sample.batch Sample.opened))
       = new
    /\ length new = successCount report.
Proof.
  destruct (bulk_stores_its_successes Sample.jan Sample.no_scope Sample.agent Sample.batch
              Sample.opened _ batch_report) as (new & Hd & _ & Hlen & _).
  eexists _, new. split; [exact batch_report|]. split; [exact Hd | exact Hlen].
Defined.

(** * Properties of the read handlers *)

Lemma deposit_allowed_keys (res : Restriction) : by_keys (deposit_allowed res).
Proof.
  intros d d' _ Hu Hc. destruct res; cbn [deposit_allowed]; rewrite ?Hu, ?Hc; reflexivity.
Qed.

Lemma getDeposits_listed now sc r q clientName st :
  query_dates now q = AnyDate ->
  listed (map fd_id) (getDeposits now sc r q clientName st)
  = map d_id (List.filter (deposit_allowed (restriction sc r)) (deposits st)).
Proof.
  intros Hq. unfold getDeposits. rewrite Hq. cbn [listed date_allowed].
  rewrite map_map. cbn [format_deposit fd_id].
  f_equal. apply filter_ext_in_list. intros x _. apply andb_true_r.
Qed.

Lemma getDepositsByAccount_listed sc r accountId st :
  listed (map d_id) (getDepositsByAccount sc r accountId st)
  = map d_id (List.filter (fun d => by_account accountId d
                                    && deposit_allowed (restriction sc r) d) (deposits st)).
Proof.
  unfold getDepositsByAccount. destruct (List.filter _ (deposits st)); reflexivity.
Qed.

Lemma elem_of_filter_ids (p : Deposit -> bool) (ds : list Deposit) (id : Id) :
  id ∈ map d_id (List.filter p ds) <-> exists d, d ∈ ds /\ p d = true /\ d_id d = id.
Proof.
  rewrite list_elem_of_fmap. split.
  - intros (d & -> & Hd). apply list_elem_of_In, List.filter_In in Hd as [Hin Hp].
    exists d. split; [apply list_elem_of_In, Hin | auto].
  - intros (d & Hin & Hp & <-). exists d. split; [reflexivity|].
    apply list_elem_of_In, List.filter_In. split; [apply list_elem_of_In, Hin | exact Hp].
Qed.

(** What an operation does to the identifiers a condition on the keys
    selects: a create can add the next identifier, a delete takes away the
    identifier of its request, an update changes nothing. *)
Lemma step_selected (p : Deposit -> bool) (op : Op) (st : Store) :
  by_keys p -> ids_fresh st ->
  (forall id, id ∈ map d_id (List.filter p (deposits (fst (step op st)))) ->
     id ∈ map d_id (List.filter p (deposits st))
     \/ (id = next_id st /\ exists now sc u b, op = OpCreate now sc u b))
  /\ (forall id, id ∈ map d_id (List.filter p (deposits st)) ->
        id ∈ map d_id (List.filter p (deposits (fst (step op st))))
        \/ exists u, op = OpDelete u id).
Proof.
  intros Hkeys (Hnd & _).
  destruct (step_deposits_effect op st) as
    [ | now sc u b a T Hop Ha HT Hpos Hfit Hadm
      | now u id0 b deposit a T Hop Hin Hid Ha HT Hpos Hfit Hadm
      | u id0 deposit a Hop Hin Hid Ha ].
  - split; intros id H; left; exact H.
  - split; intros id H.
    + rewrite filter_app_list, map_app in H. apply elem_of_app in H as [H|H];
        [left; exact H|].
      right. cbn [List.filter] in H. destruct (p _); [|inversion H].
      cbn [map new_deposit d_id] in H. apply list_elem_of_singleton in H.
      split; [exact H | eauto].
    + left. rewrite filter_app_list, map_app. apply elem_of_app. left. exact H.
  - assert (Hsame : forall id,
              id ∈ map d_id (List.filter p (replace_deposit (updated_deposit b deposit a)
                                                            (deposits st)))
              <-> id ∈ map d_id (List.filter p (deposits st))).
    { intros id. rewrite !elem_of_filter_ids. unfold replace_deposit. split.
      - intros (d' & Hd' & Hp & Hd). apply list_elem_of_fmap in Hd' as (x & -> & Hx).
        cbn [updated_deposit d_id] in *.
        destruct (N.eqb_spec (d_id x) (d_id deposit)) as [He|_].
        + assert (x = deposit) as -> by (eapply same_id_same_deposit; eassumption).
          exists deposit. split; [exact Hin|]. split; [|exact Hd].
          rewrite <- Hp. symmetry. apply Hkeys; reflexivity.
        + exists x. auto.
      - intros (x & Hx & Hp & Hd).
        exists (if (d_id x =? d_id (updated_deposit b deposit a))%N
                then updated_deposit b deposit a else x).
        split; [apply list_elem_of_fmap; exists x; split; [reflexivity | exact Hx]|].
        cbn [updated_deposit d_id].
        destruct (N.eqb_spec (d_id x) (d_id deposit)) as [He|_]; [|auto].
        assert (x = deposit) as -> by (eapply same_id_same_deposit; eassumption).
        split; [|exact Hd]. rewrite <- Hp. apply Hkeys; reflexivity. }
    split; intros id H; left; apply Hsame; exact H.
  - split; intros id H.
    + left. rewrite filter_delete in H. apply elem_of_filter_ids in H as (d & Hd & Hp & He).
      apply elem_of_filter_ids. exists d. apply andb_true_iff in Hp as [Hp _]. auto.
    + destruct (N.eqb_spec id id0) as [->|Hne]; [right; eauto|].
      left. rewrite filter_delete. apply elem_of_filter_ids in H as (d & Hd & Hp & He).
      apply elem_of_filter_ids. exists d. split; [exact Hd|]. split; [|exact He].
      rewrite Hp. unfold not_id. rewrite He, Hid.
      destruct (N.eqb_spec id id0); [contradiction | reflexivity].
Qed.

(** X13. Creates, updates and deletes change what a reader is shown only
    by the deposit they add or remove: on a store with distinct deposit
    identifiers, the list [getDeposits] answers without a date filter, and
    the list [getDepositsByAccount] answers for an account, name after an
    operation the identifiers they named before, except that a create may
    add the identifier of its new deposit and a delete removes the
    identifier of its request.  An update, which can change neither the
    account nor the client nor the collector of a deposit, changes neither
    list. *)
Theorem writes_keep_visibility (op : Op) (st : Store) now sc r q clientName accountId :
  ids_fresh st -> query_dates now q = AnyDate ->
  let seen := fun s => listed (map fd_id) (getDeposits now sc r q clientName s) in
  let seen_of := fun s => listed (map d_id) (getDepositsByAccount sc r accountId s) in
  (forall id, id ∈ seen (fst (step op st)) ->
     id ∈ seen st \/ (id = next_id st /\ exists n s u b, op = OpCreate n s u b))
  /\ (forall id, id ∈ seen st ->
        id ∈ seen (fst (step op st)) \/ exists u, op = OpDelete u id)
  /\ (forall id, id ∈ seen_of (fst (step op st)) ->
        id ∈ seen_of st \/ (id = next_id st /\ exists n s u b, op = OpCreate n s u b))
  /\ (forall id, id ∈ seen_of st ->
        id ∈ seen_of (fst (step op st)) \/ exists u, op = OpDelete u id).
Proof.
  intros Hids Hq seen seen_of. subst seen seen_of. cbn beta.
  rewrite !getDeposits_listed by exact Hq. rewrite !getDepositsByAccount_listed.
  destruct (step_selected (deposit_allowed (restriction sc r)) op st
              (deposit_allowed_keys _) Hids) as [H1 H2].
  assert (Hk : by_keys (fun d => by_account accountId d
                                 && deposit_allowed (restriction sc r) d)).
  { intros d d' Ha Hu Hc. unfold by_account. rewrite Ha.
    rewrite (deposit_allowed_keys _ d d' Ha Hu Hc). reflexivity. }
  destruct (step_selected _ op st Hk Hids) as [H3 H4].
  split; [exact H1|]. split; [exact H2|]. split; [exact H3 | exact H4].
Qed.

(** ** Eligible accounts *)




(** ** Today's deposits *)

Lemma whole_day_window (now : DateTime) :
  (dt_ms now <= 86399999)%N ->
  in_range_incl (startOfDay now) (endOfToday now) now = true.
Proof.
  intros Hms. unfold in_range_incl, dt_leb, dt_ltb, startOfDay, endOfToday, make_date, getDate.
  cbn [dt_ym dt_day dt_ms]. rewrite ym_split.
  rewrite Z.ltb_irrefl, Z.eqb_refl, Pos.ltb_irrefl, Pos.eqb_refl. cbn [orb andb].
  destruct (N.ltb_spec (dt_ms now) 0); [lia|].
  destruct (N.ltb_spec 86399999 (dt_ms now)); [lia|]. reflexivity.
Qed.

(** X15. On a store with distinct deposit identifiers, a deposit an Agent
    creates is listed to that Agent by [getDeposits] with [date=today] at
    the same clock, with the amount of the request and the Agent as
    collector, and it is not listed to any other Agent whose scope is
    restricted. *)
Theorem created_deposit_listed_today now sc u b st code msg q clientName :
  ids_fresh st ->
  (dt_ms now <= 86399999)%N ->
  c_role u = Agent ->
  q_date q = Some "today" ->
  snd (createDeposit now sc u b st) = Responded code msg ->
  let st' := fst (createDeposit now sc u b st) in
  (forall sc1 isUser,
     exists l,
       getDeposits now sc1 (mkReader u isUser) q clientName st' = Sent l
       /\ exists f, f ∈ l /\ fd_id f = next_id st /\ fd_amount f = cb_amount b
                    /\ fd_collectedBy f = c_id u /\ fd_date f = now)
  /\ forall sc2 other isUser,
       sc_isAll sc2 = false -> c_role other = Agent -> c_id other <> c_id u ->
       next_id st ∉ listed (map fd_id)
                      (getDeposits now sc2 (mkReader other isUser) q clientName st').
Proof.
  intros Hids Hms Hrole Hq Hok st'.
  destruct (create_success_deposit _ _ _ _ _ _ _ Hok) as (a & Ha & Hu & Hd).
  fold st' in Hd.
  set (nd := mkDeposit (next_id st) now (cb_accountId b) (a_userId a) (a_schemeType a)
                       (cb_amount b) (c_id u)) in *.
  assert (Hdates : query_dates now q = Within (startOfDay now) (endOfToday now)).
  { unfold query_dates. rewrite (bool_decide_eq_true_2 _ Hq). reflexivity. }
  split.
  - intros sc1 isUser. unfold getDeposits. rewrite Hdates. eexists. split; [reflexivity|].
    exists (format_deposit clientName st' nd). split; [|repeat split].
    apply list_elem_of_fmap. exists nd. split; [reflexivity|].
    apply list_elem_of_In, List.filter_In. split.
    + apply list_elem_of_In. rewrite Hd. apply elem_of_app. right. left.
    + apply andb_true_iff. split.
      * unfold restriction. cbn [rd_caller]. rewrite Hrole.
        destruct (sc_isAll sc1); cbn [deposit_allowed nd d_collectedBy]; [reflexivity|].
        apply N.eqb_refl.
      * cbn [date_allowed]. unfold dated_incl. cbn [nd d_date].
        apply whole_day_window, Hms.
  - intros sc2 other isUser Hall Hrole2 Hne Hin.
    unfold getDeposits in Hin. rewrite Hdates in Hin. cbn [listed] in Hin.
    rewrite map_map in Hin. cbn [format_deposit fd_id] in Hin.
    apply elem_of_filter_ids in Hin as (d & Hdin & Hp & Hid).
    apply andb_true_iff in Hp as [Hp _].
    unfold restriction in Hp. cbn [rd_caller] in Hp. rewrite Hall, Hrole2 in Hp.
    cbn [deposit_allowed] in Hp. apply N.eqb_eq in Hp.
    rewrite Hd in Hdin. apply elem_of_app in Hdin as [Hold|Hnew].
    + destruct Hids as [_ Hlt]. rewrite Forall_forall in Hlt.
      specialize (Hlt d Hold). cbn beta in Hlt. lia.
    + apply list_elem_of_singleton in Hnew. subst d. cbn [nd d_collectedBy] in Hp.
      congruence.
Qed.

(** * Properties of the authentication controller *)

Lemma find_email_found (e : string) (l : list AuthUser) (u : AuthUser) :
  find_email e l = Some u -> u ∈ l /\ au_email u = e.
Proof.
  unfold find_email. induction l as [|x l IH]; cbn [List.find]; [discriminate|].
  case_bool_decide as He.
  - intros [= <-]. split; [left | exact He].
  - intros H. destruct (IH H). split; [right|]; assumption.
Qed.

Lemma find_user_found (id : Id) (l : list AuthUser) (u : AuthUser) :
  find_user id l = Some u -> u ∈ l /\ au_id u = id.
Proof.
  unfold find_user. induction l as [|x l IH]; cbn [List.find]; [discriminate|].
  destruct (N.eqb_spec (au_id x) id) as [He|_].
  - intros [= <-]. split; [left | exact He].
  - intros H. destruct (IH H). split; [right|]; assumption.
Qed.

Lemma find_email_none (e : string) (l : list AuthUser) (u : AuthUser) :
  find_email e l = None -> u ∈ l -> au_email u <> e.
Proof.
  unfold find_email. induction l as [|x l IH]; cbn [List.find]; intros Hf Hin.
  - inversion Hin.
  - case_bool_decide as He; [discriminate|].
    apply elem_of_cons in Hin as [->|Hin]; [exact He | exact (IH Hf Hin)].
Qed.

(** After [user.save()] the query by which the user was found finds the
    saved document. *)
Lemma find_email_saved (e : string) (u u' : AuthUser) (st : Directory) :
  find_email e (members st) = Some u -> au_id u' = au_id u -> au_email u' = e ->
  find_email e (members (user_save u' st)) = Some u'.
Proof.
  unfold find_email, user_save. cbn [members]. intros Hf Hid He.
  induction (members st) as [|x l IH]; cbn [List.find map] in *; [discriminate|].
  destruct (N.eqb_spec (au_id x) (au_id u')) as [Hx|Hx].
  - rewrite (bool_decide_eq_true_2 _ He). reflexivity.
  - case_bool_decide as Hxe.
    + injection Hf as <-. congruence.
    + exact (IH Hf).
Qed.

Lemma find_user_saved (id : Id) (u u' : AuthUser) (st : Directory) :
  find_user id (members st) = Some u -> au_id u' = au_id u ->
  find_user id (members (user_save u' st)) = Some u'.
Proof.
  intros Hf Hid. destruct (find_user_found _ _ _ Hf) as [_ Hu].
  revert Hf. unfold find_user, user_save. cbn [members].
  induction (members st) as [|x l IH]; cbn [List.find map]; [discriminate|].
  destruct (N.eqb_spec (au_id x) (au_id u')) as [Hx|Hx].
  - intros _. rewrite Hid, Hu, N.eqb_refl. reflexivity.
  - destruct (N.eqb_spec (au_id x) id) as [Hxi|_]; [congruence | exact IH].
Qed.

(** A saved document that takes an email nobody has is the one this email
    finds. *)
Lemma find_email_taken (e : string) (id : Id) (u u' : AuthUser) (st : Directory) :
  find_email e (members st) = None -> find_user id (members st) = Some u ->
  au_id u' = au_id u -> au_email u' = e ->
  find_email e (members (user_save u' st)) = Some u'.
Proof.
  intros Hnone Hf Hid He. destruct (find_user_found _ _ _ Hf) as [_ Hu].
  revert Hnone Hf. unfold find_email, find_user, user_save. cbn [members].
  induction (members st) as [|x l IH]; cbn [List.find map]; [discriminate|].
  case_bool_decide as Hxe; [discriminate|]. intros Hnone.
  destruct (N.eqb_spec (au_id x) (au_id u')) as [Hx|Hx].
  - intros _. rewrite (bool_decide_eq_true_2 _ He). reflexivity.
  - rewrite (bool_decide_eq_false_2 _ Hxe).
    destruct (N.eqb_spec (au_id x) id) as [Hxi|_]; [congruence | exact (IH Hnone)].
Qed.

Lemma find_email_still_none (e : string) (u' : AuthUser) (st : Directory) :
  find_email e (members st) = None -> au_email u' <> e ->
  find_email e (members (user_save u' st)) = None.
Proof.
  unfold find_email, user_save. cbn [members]. intros Hnone He.
  induction (members st) as [|x l IH]; cbn [List.find map] in *; [reflexivity|].
  case_bool_decide as Hxe; [discriminate|].
  destruct (au_id x =? au_id u')%N.
  - rewrite (bool_decide_eq_false_2 _ He). exact (IH Hnone).
  - rewrite (bool_decide_eq_false_2 _ Hxe). exact (IH Hnone).
Qed.

Lemma user_save_identity (u u' : AuthUser) (st : Directory) :
  u ∈ members st -> au_id u' = au_id u -> identity u' = identity u ->
  NoDup (map au_id (members st)) ->
  map identity (members (user_save u' st)) = map identity (members st).
Proof.
  unfold user_save. cbn [members]. intros Hin Hid Hident Hnd.
  induction (members st) as [|x l IH]; [reflexivity|].
  cbn [map] in *. apply NoDup_cons in Hnd as [Hx Hnd].
  destruct (N.eqb_spec (au_id x) (au_id u')) as [He|_].
  - apply elem_of_cons in Hin as [->|Hin].
    + rewrite Hident. f_equal.
      clear IH. induction l as [|y l IH]; [reflexivity|]. cbn [map].
      destruct (N.eqb_spec (au_id y) (au_id u')) as [Hy|_].
      * exfalso. apply Hx. rewrite <- Hid, <- Hy. left.
      * f_equal. apply IH.
        -- intros H. apply Hx. right. exact H.
        -- cbn [map] in Hnd. apply NoDup_cons in Hnd as [_ Hnd]. exact Hnd.
    + exfalso. apply Hx. rewrite He, Hid. apply list_elem_of_fmap.
      exists u. split; [reflexivity | exact Hin].
  - f_equal. apply elem_of_cons in Hin as [->|Hin].
    + clear IH. induction l as [|y l IH]; [reflexivity|]. cbn [map].
      destruct (N.eqb_spec (au_id y) (au_id u')) as [Hy|_].
      * exfalso. apply Hx. rewrite <- Hid, <- Hy. left.
      * f_equal. apply IH.
        -- intros H. apply Hx. right. exact H.
        -- cbn [map] in Hnd. apply NoDup_cons in Hnd as [_ Hnd]. exact Hnd.
    + exact (IH Hin Hnd).
Qed.

Section AuthProperties.

Variable hash : string -> N -> string.
Variable compare : string -> string -> bool.

Lemma present_some (s : string) : s <> EmptyString -> present (Some s) = true.
Proof. intros H. cbn [present]. rewrite (bool_decide_eq_false_2 _ H). reflexivity. Qed.

Lemma not_expired (t now : N) : (now <= t)%N -> expired (Some t) now = false.
Proof. intros H. cbn [expired]. apply N.ltb_ge. exact H. Qed.

(** X16. The password reset goes through: for a user found by the email,
    [forgotPassword] mails a one-time password; [verifyOtp] with that
    password, sent within ten minutes, answers with the reset token;
    [resetPassword] with that token, sent within fifteen minutes more,
    succeeds; and [login] with the new password then succeeds for this
    user, if not blocked.  (bcrypt matches a text with its hash; the token
    drawn is not empty.) *)
Theorem password_reset_round_trip (email newPassword token : string)
    (n salt salt' t0 t1 t2 t3 : N) (st : Directory) (user : AuthUser) :
  bcrypt_sound hash compare ->
  find_email email (members st) = Some user ->
  au_isBlocked user = false ->
  token <> EmptyString ->
  (t1 <= t0 + 10 * 60 * 1000)%N ->
  (t2 <= t1 + 15 * 60 * 1000)%N ->
  let r1 := forgotPassword hash email n salt t0 st in
  let r2 := verifyOtp compare email (otp_text n) token t1 (fst r1) in
  let r3 := resetPassword hash email newPassword token salt' t2 (fst r2) in
  snd r1 = Sent "OTP sent to email"
  /\ outbox (fst r1)
     = outbox st ++ [mkMail email "PAMS - Secure Password Reset OTP" (otp_text n)]
  /\ snd r2 = Sent ("OTP verified successfully", token)
  /\ snd r3 = Sent "Password reset successful"
  /\ exists session,
       login compare email newPassword t3 (fst r3) = Sent session
       /\ s_id session = au_id user /\ s_email session = email.
Proof.
  intros [Hmatch Hhash] Hfind Hfree Htok Ht1 Ht2.
  destruct (find_email_found _ _ _ Hfind) as [_ Hemail].
  unfold forgotPassword. rewrite Hfind. cbn zeta. cbn [fst snd].
  set (u1 := with_reset _ user).
  set (st1 := send_mail _ (user_save u1 st)).
  assert (H1 : find_email email (members st1) = Some u1).
  { unfold st1, send_mail. cbn [members].
    apply (find_email_saved email user); [exact Hfind | reflexivity | exact Hemail]. }
  unfold verifyOtp. rewrite H1. cbn zeta.
  cbn [u1 with_reset au_reset rf_otp rf_otpExpires default from_option Datatypes.id].
  rewrite (present_some _ (Hhash _ _)), (not_expired _ _ Ht1), Hmatch.
  cbn [is_set negb orb fst snd].
  fold u1. set (u2 := with_reset _ u1). set (st2 := user_save u2 st1).
  assert (H2 : find_email email (members st2) = Some u2).
  { apply (find_email_saved email u1); [exact H1 | reflexivity | exact Hemail]. }
  unfold resetPassword. rewrite H2. cbn zeta.
  cbn [u2 with_reset au_reset rf_token rf_tokenExpires].
  rewrite (present_some _ Htok), (not_expired _ _ Ht2).
  rewrite (bool_decide_eq_true_2 (Some token = Some token)) by reflexivity.
  cbn [is_set negb orb fst snd].
  fold u2. set (u3 := with_reset _ (with_password _ u2)). set (st3 := user_save u3 st2).
  assert (H3 : find_email email (members st3) = Some u3).
  { apply (find_email_saved email u2); [exact H2 | reflexivity | exact Hemail]. }
  split; [reflexivity|]. split; [reflexivity|]. split; [reflexivity|].
  split; [reflexivity|].
  unfold login. rewrite H3.
  cbn [u3 u2 u1 with_reset with_password au_isBlocked au_password]. rewrite Hfree, Hmatch.
  cbn [negb]. eexists. split; [reflexivity|]. split; [reflexivity | exact Hemail].
Qed.

(** X17. The one-time secrets are used once: after a [verifyOtp] that
    succeeds, every further [verifyOtp] for the email is turned away as
    invalid, whatever one-time password it sends; after a [resetPassword]
    that succeeds, every further [resetPassword] for the email is turned
    away, whatever token it sends; and likewise for [verifyEmailOtp] and
    [updateEmail] of a user. *)
Theorem one_time_secrets_used_once (st : Directory) :
  (forall email otp token now body otp' token' now',
     snd (verifyOtp compare email otp token now st) = Sent body ->
     snd (verifyOtp compare email otp' token' now'
                    (fst (verifyOtp compare email otp token now st)))
     = Thrown 400 "Invalid or expired OTP")
  /\ (forall email pw token salt now body pw' token' salt' now',
        snd (resetPassword hash email pw token salt now st) = Sent body ->
        snd (resetPassword hash email pw' token' salt' now'
                           (fst (resetPassword hash email pw token salt now st)))
        = Thrown 400 "Invalid reset request")
  /\ (forall userId otp token now body otp' token' now',
        snd (verifyEmailOtp compare userId otp token now st) = Sent body ->
        snd (verifyEmailOtp compare userId otp' token' now'
                            (fst (verifyEmailOtp compare userId otp token now st)))
        = Thrown 400 "Invalid or expired verification request")
  /\ (forall userId token now body token' now',
        snd (updateEmail userId token now st) = Sent body ->
        snd (updateEmail userId token' now' (fst (updateEmail userId token now st)))
        = Thrown 400 "Invalid request or verification not completed").
Proof.
  split; [|split; [|split]].
  - intros email otp token now body otp' token' now'. unfold verifyOtp at 1 3.
    destruct (find_email email (members st)) as [user|] eqn:Hfind; [|discriminate].
    destruct (find_email_found _ _ _ Hfind) as [_ Hemail]. cbn zeta.
    destruct (_ || _); [discriminate|]. destruct (expired _ _); [discriminate|].
    destruct (negb _); [discriminate|]. intros _. cbn [fst].
    unfold verifyOtp.
    erewrite (find_email_saved email user);
      [reflexivity | exact Hfind | reflexivity | exact Hemail].
  - intros email pw token salt now body pw' token' salt' now'. unfold resetPassword at 1 3.
    destruct (find_email email (members st)) as [user|] eqn:Hfind; [|discriminate].
    destruct (find_email_found _ _ _ Hfind) as [_ Hemail]. cbn zeta.
    destruct (_ || _); [discriminate|]. destruct (expired _ _); [discriminate|].
    destruct (negb _); [discriminate|]. intros _. cbn [fst].
    unfold resetPassword.
    erewrite (find_email_saved email user);
      [reflexivity | exact Hfind | reflexivity | exact Hemail].
  - intros userId otp token now body otp' token' now'. unfold verifyEmailOtp at 1 3.
    destruct (find_user userId (members st)) as [user|] eqn:Hfind; [|discriminate].
    cbn zeta.
    destruct (_ || _); [discriminate|]. destruct (expired _ _); [discriminate|].
    destruct (negb _); [discriminate|]. intros _. cbn [fst].
    unfold verifyEmailOtp.
    erewrite (find_user_saved userId user); [reflexivity | exact Hfind | reflexivity].
  - intros userId token now body token' now'. unfold updateEmail at 1 3.
    destruct (find_user userId (members st)) as [user|] eqn:Hfind; [|discriminate].
    cbn zeta.
    destruct (_ || _); [discriminate|]. destruct (expired _ _); [discriminate|].
    destruct (negb _); [discriminate|]. intros _. cbn [fst].
    unfold updateEmail.
    erewrite (find_user_saved userId user); [reflexivity | exact Hfind | reflexivity].
Qed.

(** X18. A request the controller does not answer with a success sends no
    mail and leaves every user as stored, with one exception:
    [requestEmailChange] saves the user before it waits for the mail, so a
    mail that fails leaves the pending email and its one-time password
    stored. *)
Theorem refused_requests_write_nothing (op : AuthOp) (st : Directory) :
  snd (auth_step hash compare op st) = false ->
  outbox (fst (auth_step hash compare op st)) = outbox st
  /\ (members (fst (auth_step hash compare op st)) = members st
      \/ exists userId newEmail n salt now message user,
           op = RequestEmailChange userId newEmail n salt now (Some message)
           /\ find_user userId (members st) = Some user
           /\ fst (auth_step hash compare op st)
              = user_save
                  (with_change
                     (mkEmailFields (Some (hash (otp_text n) salt))
                                    (Some (now + 10 * 60 * 1000)%N) (Some newEmail)
                                    (ef_token (au_change user))
                                    (ef_tokenExpires (au_change user))) user) st).
Proof.
  destruct op; cbn [auth_step fst snd].
  - unfold forgotPassword. destruct (find_email _ _); [discriminate|].
    intros _. split; [reflexivity | left; reflexivity].
  - unfold verifyOtp. destruct (find_email _ _);
      [|intros _; split; [reflexivity | left; reflexivity]].
    cbn zeta. destruct (_ || _); [intros _; split; [reflexivity | left; reflexivity]|].
    destruct (expired _ _); [intros _; split; [reflexivity | left; reflexivity]|].
    destruct (negb _); [intros _; split; [reflexivity | left; reflexivity]|discriminate].
  - unfold resetPassword. destruct (find_email _ _);
      [|intros _; split; [reflexivity | left; reflexivity]].
    cbn zeta. destruct (_ || _); [intros _; split; [reflexivity | left; reflexivity]|].
    destruct (expired _ _); [intros _; split; [reflexivity | left; reflexivity]|].
    destruct (negb _); [intros _; split; [reflexivity | left; reflexivity]|discriminate].
  - unfold changePassword. destruct (find_user _ _);
      [|intros _; split; [reflexivity | left; reflexivity]].
    destruct (negb _); [intros _; split; [reflexivity | left; reflexivity]|discriminate].
  - unfold requestEmailChange. destruct (find_email _ _);
      [intros _; split; [reflexivity | left; reflexivity]|].
    destruct (find_user _ _) as [user|] eqn:Hu;
      [|intros _; split; [reflexivity | left; reflexivity]].
    cbn zeta. destruct failure as [message|]; [|discriminate].
    intros _. split; [reflexivity|]. right.
    exists userId, newEmail, n, salt, now, message, user.
    split; [reflexivity|]. split; [exact Hu | reflexivity].
  - unfold verifyEmailOtp. destruct (find_user _ _);
      [|intros _; split; [reflexivity | left; reflexivity]].
    cbn zeta. destruct (_ || _); [intros _; split; [reflexivity | left; reflexivity]|].
    destruct (expired _ _); [intros _; split; [reflexivity | left; reflexivity]|].
    destruct (negb _); [intros _; split; [reflexivity | left; reflexivity]|discriminate].
  - unfold updateEmail. destruct (find_user _ _);
      [|intros _; split; [reflexivity | left; reflexivity]].
    cbn zeta. destruct (_ || _); [intros _; split; [reflexivity | left; reflexivity]|].
    destruct (expired _ _); [intros _; split; [reflexivity | left; reflexivity]|].
    destruct (negb _); [intros _; split; [reflexivity | left; reflexivity]|discriminate].
Qed.

(** Every request leaves the directory as it is or saves one user found
    in it, with the identity this user had. *)
Lemma auth_step_saves (op : AuthOp) (st : Directory) :
  members (fst (auth_step hash compare op st)) = members st
  \/ exists u u',
       u ∈ members st /\ au_id u' = au_id u /\ identity u' = identity u
       /\ members (fst (auth_step hash compare op st)) = members (user_save u' st).
Proof.
  assert (He : forall e l u, find_email e l = Some u -> u ∈ l)
    by (intros e l u H; exact (proj1 (find_email_found e l u H))).
  assert (Hi : forall i l u, find_user i l = Some u -> u ∈ l)
    by (intros i l u H; exact (proj1 (find_user_found i l u H))).
  destruct op; cbn [auth_step fst snd].
  - unfold forgotPassword. destruct (find_email _ _) as [user|] eqn:Hu; [|left; reflexivity].
    right. eexists user, _. split; [eauto|].
    split; [|split; [|cbn [fst send_mail members]; reflexivity]]; reflexivity.
  - unfold verifyOtp. destruct (find_email _ _) as [user|] eqn:Hu; [|left; reflexivity].
    cbn zeta. destruct (_ || _); [left; reflexivity|].
    destruct (expired _ _); [left; reflexivity|].
    destruct (negb _); [left; reflexivity|].
    right. eexists user, _. split; [eauto|].
    split; [|split; [|cbn [fst send_mail members]; reflexivity]]; reflexivity.
  - unfold resetPassword. destruct (find_email _ _) as [user|] eqn:Hu; [|left; reflexivity].
    cbn zeta. destruct (_ || _); [left; reflexivity|].
    destruct (expired _ _); [left; reflexivity|].
    destruct (negb _); [left; reflexivity|].
    right. eexists user, _. split; [eauto|].
    split; [|split; [|cbn [fst send_mail members]; reflexivity]]; reflexivity.
  - unfold changePassword. destruct (find_user _ _) as [user|] eqn:Hu; [|left; reflexivity].
    destruct (negb _); [left; reflexivity|].
    right. eexists user, _. split; [eauto|].
    split; [|split; [|cbn [fst send_mail members]; reflexivity]]; reflexivity.
  - unfold requestEmailChange. destruct (find_email _ _); [left; reflexivity|].
    destruct (find_user _ _) as [user|] eqn:Hu; [|left; reflexivity].
    cbn zeta. right. eexists user, _. split; [eauto|].
    split; [|split; [|destruct failure; cbn [fst send_mail members]; reflexivity]];
      reflexivity.
  - unfold verifyEmailOtp. destruct (find_user _ _) as [user|] eqn:Hu; [|left; reflexivity].
    cbn zeta. destruct (_ || _); [left; reflexivity|].
    destruct (expired _ _); [left; reflexivity|].
    destruct (negb _); [left; reflexivity|].
    right. eexists user, _. split; [eauto|].
    split; [|split; [|cbn [fst send_mail members]; reflexivity]]; reflexivity.
  - unfold updateEmail. destruct (find_user _ _) as [user|] eqn:Hu; [|left; reflexivity].
    cbn zeta. destruct (_ || _); [left; reflexivity|].
    destruct (expired _ _); [left; reflexivity|].
    destruct (negb _); [left; reflexivity|].
    right. eexists user, _. split; [eauto|].
    split; [|split; [|cbn [fst send_mail members]; reflexivity]]; reflexivity.
Qed.

Lemma identity_ids (l l' : list AuthUser) :
  map identity l' = map identity l -> map au_id l' = map au_id l.
Proof.
  intros H.
  assert (Hf : forall k : list AuthUser,
            map au_id k = map (fun t => fst (fst (fst (fst (fst t))))) (map identity k)).
  { intros k. rewrite map_map. reflexivity. }
  rewrite !Hf, H. reflexivity.
Qed.

Lemma auth_run_identity (ops : list AuthOp) (st : Directory) :
  NoDup (map au_id (members st)) ->
  map identity (members (auth_run hash compare ops st)) = map identity (members st).
Proof.
  revert st. induction ops as [|op ops IH]; intros st Hnd; [reflexivity|].
  cbn [auth_run foldl].
  assert (Hstep : map identity (members (fst (auth_step hash compare op st)))
                  = map identity (members st)).
  { destruct (auth_step_saves op st) as [-> | (u & u' & Hin & Hid & Hident & ->)];
      [reflexivity|].
    apply (user_save_identity u); assumption. }
  fold (auth_run hash compare ops (fst (auth_step hash compare op st))).
  rewrite IH; [exact Hstep|].
  rewrite (identity_ids _ _ Hstep). exact Hnd.
Qed.

(** X19. No request of the controller changes who a user is: over any
    sequence of requests the users keep, in their order, their identifier,
    name, role, company, creation time and blocked flag (the identifiers
    being distinct).  So a user who is blocked stays blocked: whatever was
    requested in between and whatever email and password are sent, a
    [login] that finds a user blocked at the start is answered 403 and no
    session. *)
Theorem requests_keep_identity (ops : list AuthOp) (st : Directory) :
  NoDup (map au_id (members st)) ->
  let st' := auth_run hash compare ops st in
  map identity (members st') = map identity (members st)
  /\ forall email password now user user0,
       find_email email (members st') = Some user ->
       user0 ∈ members st -> au_id user0 = au_id user -> au_isBlocked user0 = true ->
       login compare email password now st'
       = Declined 403 "Your account has been blocked. Please contact support.".
Proof.
  intros Hnd st'. pose proof (auth_run_identity ops st Hnd) as Hid. fold st' in Hid.
  split; [exact Hid|].
  intros email password now user user0 Hfind Hin0 Hsame Hblocked.
  destruct (find_email_found _ _ _ Hfind) as [Hin _].
  assert (Hi : identity user ∈ map identity (members st)).
  { rewrite <- Hid. apply list_elem_of_fmap. exists user. split; [reflexivity | exact Hin]. }
  apply list_elem_of_fmap in Hi as (y & Hy & Hyin).
  assert (y = user0).
  { assert (Hyid : au_id y = au_id user0).
    { rewrite Hsame. unfold identity in Hy. congruence. }
    clear - Hnd Hyin Hin0 Hyid. induction (members st) as [|x l IH]; [inversion Hyin|].
    cbn [map] in Hnd. apply NoDup_cons in Hnd as [Hx Hnd].
    apply elem_of_cons in Hyin as [->|Hyin]; apply elem_of_cons in Hin0 as [->|Hin0].
    - reflexivity.
    - exfalso. apply Hx. rewrite Hyid. apply list_elem_of_fmap.
      exists user0. split; [reflexivity | exact Hin0].
    - exfalso. apply Hx. rewrite <- Hyid. apply list_elem_of_fmap.
      exists y. split; [reflexivity | exact Hyin].
    - exact (IH Hnd Hin0 Hyin). }
  subst y. unfold login. rewrite Hfind.
  assert (au_isBlocked user = true) as -> by (unfold identity in Hy; congruence).
  reflexivity.
Qed.

(** X20. The change of email goes through: for a user and a new email that
    is not empty and that nobody has, [requestEmailChange] mails a one-time
    password to the new email; [verifyEmailOtp] with that password, sent
    within ten minutes, answers with the verification token;
    [updateEmail] with that token, sent within fifteen minutes more,
    answers with the new email; after it the new email finds the user, the
    password unchanged and the pending fields cleared.  (bcrypt matches a
    text with its hash; the token drawn is not empty.) *)
Theorem email_change_round_trip (userId : Id) (newEmail token : string)
    (n salt t0 t1 t2 : N) (st : Directory) (user : AuthUser) :
  bcrypt_sound hash compare ->
  find_user userId (members st) = Some user ->
  find_email newEmail (members st) = None ->
  newEmail <> EmptyString ->
  token <> EmptyString ->
  (t1 <= t0 + 10 * 60 * 1000)%N ->
  (t2 <= t1 + 15 * 60 * 1000)%N ->
  let r1 := requestEmailChange hash userId newEmail n salt t0 None st in
  let r2 := verifyEmailOtp compare userId (otp_text n) token t1 (fst r1) in
  let r3 := updateEmail userId token t2 (fst r2) in
  snd r1 = Sent "OTP sent to new email"
  /\ outbox (fst r1)
     = outbox st ++ [mkMail newEmail "PAMS - Verify your new email address" (otp_text n)]
  /\ snd r2 = Sent ("OTP verified successfully", token)
  /\ snd r3 = Sent ("Email updated successfully", newEmail)
  /\ exists user',
       find_email newEmail (members (fst r3)) = Some user'
       /\ find_user userId (members (fst r3)) = Some user'
       /\ au_email user' = newEmail
       /\ au_password user' = au_password user
       /\ identity user' = identity user
       /\ au_change user' = mkEmailFields None None None None None.
Proof.
  intros [Hmatch Hhash] Hfind Hfree Hnew Htok Ht1 Ht2.
  destruct (find_user_found _ _ _ Hfind) as [Hin _].
  pose proof (find_email_none _ _ _ Hfree Hin) as Hold.
  unfold requestEmailChange. rewrite Hfree, Hfind. cbn zeta. cbn [fst snd].
  set (u1 := with_change _ user).
  set (st1 := send_mail _ (user_save u1 st)).
  assert (H1 : find_user userId (members st1) = Some u1).
  { unfold st1, send_mail. cbn [members].
    apply (find_user_saved userId user); [exact Hfind | reflexivity]. }
  assert (F1 : find_email newEmail (members st1) = None).
  { unfold st1, send_mail. cbn [members].
    apply find_email_still_none; [exact Hfree | exact Hold]. }
  unfold verifyEmailOtp. rewrite H1. cbn zeta.
  cbn [u1 with_change au_change ef_otp ef_otpExpires ef_pending
       default from_option Datatypes.id].
  rewrite (present_some _ (Hhash _ _)), (present_some _ Hnew), (not_expired _ _ Ht1), Hmatch.
  cbn [is_set negb orb fst snd].
  fold u1. set (u2 := with_change _ u1). set (st2 := user_save u2 st1).
  assert (H2 : find_user userId (members st2) = Some u2).
  { apply (find_user_saved userId u1); [exact H1 | reflexivity]. }
  assert (F2 : find_email newEmail (members st2) = None).
  { apply find_email_still_none; [exact F1 | exact Hold]. }
  unfold updateEmail. rewrite H2. cbn zeta.
  cbn [u2 with_change au_change ef_token ef_tokenExpires ef_pending
       default from_option Datatypes.id].
  rewrite (present_some _ Htok), (present_some _ Hnew), (not_expired _ _ Ht2).
  rewrite (bool_decide_eq_true_2 (Some token = Some token)) by reflexivity.
  cbn [is_set negb orb fst snd].
  fold u2. set (u3 := with_change _ (with_email newEmail u2)).
  split; [reflexivity|]. split; [reflexivity|]. split; [reflexivity|].
  split; [reflexivity|].
  exists u3. split; [|split].
  - apply (find_email_taken newEmail userId u2); [exact F2 | exact H2 | reflexivity..].
  - apply (find_user_saved userId u2); [exact H2 | reflexivity].
  - repeat split.
Qed.

End AuthProperties.

(** ** Worked instances of the read handlers and of the controller *)

Lemma plain_bcrypt_sound : bcrypt_sound AuthSample.plain_hash AuthSample.plain_compare.
Proof.
  split.
  - intros text salt. unfold AuthSample.plain_compare, AuthSample.plain_hash.
    apply bool_decide_eq_true_2. reflexivity.
  - intros text salt. unfold AuthSample.plain_hash. discriminate.
Qed.

(** X16 for Alice. *)
Lemma password_reset_witness :
  exists session,
    login AuthSample.plain_compare "alice@pams.test" "fresh" 4000
      (fst (resetPassword AuthSample.plain_hash "alice@pams.test" "fresh" "k3y" 0 3000
              (fst (verifyOtp AuthSample.plain_compare "alice@pams.test" (otp_text 23456)
                      "k3y" 2000
                      (fst (forgotPassword AuthSample.plain_hash "alice@pams.test" 23456 0
                              1000 AuthSample.office))))))
    = Sent session
    /\ s_id session = 1%N /\ s_email session = "alice@pams.test".
Proof.
  refine (proj2 (proj2 (proj2 (proj2
            (password_reset_round_trip AuthSample.plain_hash AuthSample.plain_compare
               "alice@pams.test" "fresh" "k3y" 23456 0 0 1000 2000 3000 4000
               AuthSample.office AuthSample.alice plain_bcrypt_sound _ _ _ _ _))))).
  - vm_compute. reflexivity.
  - reflexivity.
  - discriminate.
  - vm_compute. discriminate.
  - vm_compute. discriminate.
Defined.

(** X13 on the first installment, for the Agent as reader. *)
Lemma visibility_witness :
  let op := OpCreate Sample.jan Sample.no_scope Sample.admin (Sample.pay 1 100) in
  let seen := fun s =>
    listed (map fd_id)
           (getDeposits Sample.jan Sample.no_scope (mkReader Sample.agent false)
                        (mkDepositsQuery None None None) (fun _ => None) s) in
  ids_fresh Sample.opened
  /\ forall id, id ∈ seen (fst (step op Sample.opened)) ->
       id ∈ seen Sample.opened
       \/ (id = next_id Sample.opened /\ exists n s u b, op = OpCreate n s u b).
Proof.
  intros op seen. split; [exact opened_ids_fresh|].
  exact (proj1 (writes_keep_visibility op Sample.opened Sample.jan Sample.no_scope
                  (mkReader Sample.agent false) (mkDepositsQuery None None None)
                  (fun _ => None) 1%N opened_ids_fresh eq_refl)).
Defined.



(** X15 on a first installment collected by the Agent. *)
Lemma listed_today_witness :
  let st' := fst (createDeposit Sample.jan Sample.no_scope Sample.agent (Sample.pay 1 100)
                                Sample.opened) in
  let today := mkDepositsQuery (Some "today") None None in
  (exists l,
     getDeposits Sample.jan Sample.no_scope (mkReader Sample.agent false) today
                 (fun _ => None) st' = Sent l
     /\ exists f, f ∈ l /\ fd_id f = 1%N /\ fd_amount f = 100 /\ fd_collectedBy f = 9%N
                  /\ fd_date f = Sample.jan)
  /\ 1%N ∉ listed (map fd_id)
               (getDeposits Sample.jan Sample.no_scope (mkReader (mkCaller 8 Agent) false)
                            today (fun _ => None) st').
Proof.
  intros st' today.
  destruct (created_deposit_listed_today Sample.jan Sample.no_scope Sample.agent
              (Sample.pay 1 100) Sample.opened 201 "Deposit created successfully"
              today (fun _ => None) opened_ids_fresh) as [Hmine Hothers].
  - vm_compute. discriminate.
  - reflexivity.
  - reflexivity.
  - vm_compute. reflexivity.
  - split.
    + exact (Hmine Sample.no_scope false).
    + apply (Hothers Sample.no_scope (mkCaller 8 Agent) false); [reflexivity..|discriminate].
Defined.

(** X17 for Alice: the one-time password that was verified is not taken
    again. *)
Lemma one_time_witness :
  let asked := fst (forgotPassword AuthSample.plain_hash "alice@pams.test" 23456 0 1000
                                   AuthSample.office) in
  snd (verifyOtp AuthSample.plain_compare "alice@pams.test" (otp_text 23456) "other" 2500
         (fst (verifyOtp AuthSample.plain_compare "alice@pams.test" (otp_text 23456) "k3y"
                         2000 asked)))
  = Thrown 400 "Invalid or expired OTP".
Proof.
  intros asked.
  apply (proj1 (one_time_secrets_used_once AuthSample.plain_hash AuthSample.plain_compare
                  asked)
               "alice@pams.test" (otp_text 23456) "k3y" 2000%N
               ("OTP verified successfully", "k3y") (otp_text 23456) "other" 2500%N).
  vm_compute. reflexivity.
Defined.

(** X18 on a one-time password nobody asked for. *)
Lemma refused_request_witness :
  let op := VerifyOtp "alice@pams.test" "123456" "k3y" 2000 in
  snd (auth_step AuthSample.plain_hash AuthSample.plain_compare op AuthSample.office) = false
  /\ outbox (fst (auth_step AuthSample.plain_hash AuthSample.plain_compare op
                            AuthSample.office)) = [].
Proof.
  intros op. split; [reflexivity|].
  exact (proj1 (refused_requests_write_nothing AuthSample.plain_hash AuthSample.plain_compare
                  op AuthSample.office eq_refl)).
Defined.

Lemma office_ids : NoDup (map au_id (members AuthSample.office)).
Proof.
  cbn. apply NoDup_cons. split; [|apply NoDup_singleton].
  intros H. apply list_elem_of_singleton in H. discriminate.
Qed.

(** X19 for Bob, who is blocked and resets his password. *)
Lemma blocked_login_witness :
  let ops := [ForgotPassword "bob@pams.test" 23456 0 1000;
              VerifyOtp "bob@pams.test" (otp_text 23456) "k3y" 2000;
              ResetPassword "bob@pams.test" "fresh" "k3y" 0 3000] in
  login AuthSample.plain_compare "bob@pams.test" "fresh" 4000
        (auth_run AuthSample.plain_hash AuthSample.plain_compare ops AuthSample.office)
  = Declined 403 "Your account has been blocked. Please contact support.".
Proof.
  intros ops.
  eapply (proj2 (requests_keep_identity AuthSample.plain_hash AuthSample.plain_compare ops
                   AuthSample.office office_ids)) with (user0 := AuthSample.bob).
  - vm_compute. reflexivity.
  - right. left.
  - reflexivity.
  - reflexivity.
Defined.

(** X20 for Alice. *)
Lemma email_change_witness :
  let r1 := requestEmailChange AuthSample.plain_hash 1 "alice@new.test" 23456 0 1000 None
                               AuthSample.office in
  let r2 := verifyEmailOtp AuthSample.plain_compare 1 (otp_text 23456) "k3y" 2000 (fst r1) in
  let r3 := updateEmail 1 "k3y" 3000 (fst r2) in
  snd r3 = Sent ("Email updated successfully", "alice@new.test")
  /\ exists user',
       find_email "alice@new.test" (members (fst r3)) = Some user'
       /\ find_user 1 (members (fst r3)) = Some user'
       /\ au_email user' = "alice@new.test"
       /\ au_password user' = au_password AuthSample.alice
       /\ identity user' = identity AuthSample.alice
       /\ au_change user' = mkEmailFields None None None None None.
Proof.
  intros r1 r2 r3.
  refine (proj2 (proj2 (proj2
            (email_change_round_trip AuthSample.plain_hash AuthSample.plain_compare
               1%N "alice@new.test" "k3y" 23456 0 1000 2000 3000 AuthSample.office
               AuthSample.alice plain_bcrypt_sound _ _ _ _ _ _)))).
  - reflexivity.
  - vm_compute. reflexivity.
  - discriminate.
  - discriminate.
  - vm_compute. discriminate.
  - vm_compute. discriminate.
Defined.

(** X1 on three collections for the Daily account. *)
Lemma operations_keep_plans_witness :
  plans_kept Sample.opened Sample.daily_three_months
  /\ users Sample.daily_three_months = users Sample.opened.
Proof.
  destruct (operations_keep_account_plans
              [OpCreate Sample.jan Sample.no_scope Sample.admin (Sample.pay 2 300);
               OpCreate Sample.feb Sample.no_scope Sample.admin (Sample.pay 2 300);
               OpCreate Sample.mar Sample.no_scope Sample.admin (Sample.pay 2 300)]
              Sample.opened) as (Hplans & Husers & _).
  split; [exact Hplans | exact Husers].
Defined.

(** X3 on the batch of three. *)
Lemma audit_log_witness :
  exists new,
    audit (fst (bulkCreateDeposits Sample.jan Sample.no_scope Sample.agent Sample.batch
                                   Sample.opened))
    = audit Sample.opened ++ new
    /\ (length new <= 3)%nat.
Proof.
  exact (proj2 audit_log_only_grows Sample.jan Sample.no_scope Sample.agent Sample.batch
               Sample.opened).
Defined.
